(** * The maze-chase game of [21201012+03.cpp]: simulation core

    A shallow embedding of the game's simulation step ([updateGame],
    [updateGhost]), board construction, session reset, keyboard dispatch,
    high-score persistence and the calls [display] makes, followed by the
    properties of the simulation core and by what every run of the program
    preserves.

    Conventions of the embedding.
    - C++ [float] is IEEE-754 binary32 with round-to-nearest-even, every
      operation rounded to binary32 (no excess precision, no fused
      multiply-add); it is modelled with the Standard Library's
      [spec_float] operations at precision 24 and maximal exponent 128.
      The one [double] constant of the core, [0.6], is modelled at
      precision 53 and maximal exponent 1024.
    - C++ [int] is modelled as [Z]; signed overflow, which the game's
      counters would need more than a year of play to reach, is not
      modelled.
    - Global variables become the fields of one [State] record, threaded
      through the functions.
    - An access [board[i][j]] outside the 20x20 array and a float-to-int
      conversion of a value that no [int] holds are undefined behaviour in
      C++: the embedding stops with a [Fault] there. *)

From Stdlib Require Import ZArith Bool Ascii String.
From Stdlib Require Import DecimalString DecimalZ DecimalPos.
From Stdlib Require Import Floats.SpecFloat.
From stdpp Require Import base list.

Open Scope Z_scope.

(** ** Faults and the result monad *)

Inductive Fault :=
| OutOfBounds      (* board index outside 0..19 *)
| BadConversion    (* (int)x for a float x that no int represents *)
| ProcessExit.     (* exit(0) *)

Inductive Res (A : Type) :=
| Ok (a : A)
| Stop (f : Fault).
Arguments Ok {A} a.
Arguments Stop {A} f.

Definition bind {A B} (r : Res A) (k : A -> Res B) : Res B :=
  match r with
  | Ok a => k a
  | Stop f => Stop f
  end.

Notation "'do' x <- r ; k" := (bind r (fun x => k))
  (at level 10, x name, r at level 100, k at level 200).

(** ** binary32 arithmetic *)

Module F32.

Definition prec : Z := 24.
Definition emax : Z := 128.

Definition add := SFadd prec emax.
Definition sub := SFsub prec emax.
Definition mul := SFmul prec emax.
Definition div := SFdiv prec emax.
Definition sqrt := SFsqrt prec emax.
Definition abs := SFabs.
Definition ltb := SFltb.
Definition leb := SFleb.

(** int -> float conversion *)
Definition of_int (z : Z) : spec_float := binary_normalize prec emax z 0 false.

(** A decimal literal [n/d] with suffix [f]: the binary32 nearest to the
    quotient of two exactly representable integers. *)
Definition lit (n d : Z) : spec_float := div (of_int n) (of_int d).

Definition INT_MIN : Z := - 2 ^ 31.
Definition INT_MAX : Z := 2 ^ 31 - 1.

(** Integral part, truncated toward zero, of a finite float. *)
Definition trunc (x : spec_float) : option Z :=
  match x with
  | S754_zero _ => Some 0
  | S754_finite s m e =>
      let a := match e with
               | Z0 => Zpos m
               | Zpos _ => Z.shiftl (Zpos m) e
               | Zneg p => Z.shiftr (Zpos m) (Zpos p)
               end in
      Some (if s then - a else a)
  | _ => None
  end.

(** The cast [(int)x]. *)
Definition to_int (x : spec_float) : Res Z :=
  match trunc x with
  | Some v => if (INT_MIN <=? v) && (v <=? INT_MAX) then Ok v else Stop BadConversion
  | None => Stop BadConversion
  end.

(** float -> double promotion (exact) and the double literal [n/d]. *)
Definition to_double (x : spec_float) : spec_float :=
  match x with
  | S754_finite s m e => binary_round 53 1024 s m e
  | _ => x
  end.

Definition dlit (n d : Z) : spec_float :=
  SFdiv 53 1024 (binary_normalize 53 1024 n 0 false) (binary_normalize 53 1024 d 0 false).

End F32.

Abbreviation float := spec_float.

(** The literals of the simulation core. *)
Definition f0_016 : float := Eval vm_compute in F32.lit 16 1000.   (* 0.016f *)
Definition f0_001 : float := Eval vm_compute in F32.lit 1 1000.    (* 0.001f *)
Definition f0_1   : float := Eval vm_compute in F32.lit 1 10.      (* 0.1f *)
Definition f0_15  : float := Eval vm_compute in F32.lit 15 100.    (* 0.15f *)
Definition f5_0   : float := Eval vm_compute in F32.of_int 5.      (* 5.0f *)
Definition f0_04  : float := Eval vm_compute in F32.lit 4 100.     (* 0.04f *)
Definition f0_035 : float := Eval vm_compute in F32.lit 35 1000.   (* 0.035f *)
Definition f0_038 : float := Eval vm_compute in F32.lit 38 1000.   (* 0.038f *)
Definition f0_03  : float := Eval vm_compute in F32.lit 3 100.     (* 0.03f *)
Definition f0_4   : float := Eval vm_compute in F32.lit 4 10.      (* 0.4f *)
Definition f0_7   : float := Eval vm_compute in F32.lit 7 10.      (* 0.7f *)
Definition f0_6   : float := Eval vm_compute in F32.lit 6 10.      (* 0.6f *)
Definition fzero  : float := S754_zero false.                      (* 0 *)
Definition d0_6   : float := Eval vm_compute in F32.dlit 6 10.     (* 0.6 *)

(** ** Game state *)

Inductive GameState := MENU | PLAYING | PAUSED | GAMEOVER | WIN | HELP | HIGHSCORE.

Global Instance GameState_eq_dec : EqDecision GameState.
Proof. solve_decision. Defined.

Record Pacman := mkPacman {
  px : float; py : float;
  dirX : Z; dirY : Z;
  pspeed : float
}.

Record Ghost := mkGhost {
  gx : float; gy : float;
  gspeed : float;
  gr : float; gg : float; gb : float;
  gname : string;
  behavior : Z;              (* 0=chase, 1=ambush, 2=patrol, 3=random *)
  specialTimer : float;
  isActive : bool
}.

Record PowerUp := mkPowerUp {
  ux : float; uy : float;
  ptype : Z;                 (* 0=invincible, 1=freeze, 2=speed *)
  active : bool;
  duration : float
}.

Definition ROWS : Z := 20.
Definition COLS : Z := 20.

(** [board[ROWS][COLS]], row-major: 0=empty, 1=pellet, 2=wall, 3=power-up. *)
Abbreviation Board := (list (list Z)).

(** What opening [highscore.txt] and extracting an [int] from it meets. *)
Inductive HsFile :=
| FileMissing              (* the file cannot be opened *)
| FileEmpty                (* it opens and holds nothing but white space *)
| FileGarbage              (* it opens, but what it holds is no numeral *)
| FileInt (n : Z).         (* it opens and starts with the numeral n *)

Record State := mkState {
  gameState : GameState;
  previousState : GameState;
  score : Z;
  lives : Z;
  highScore : Z;
  gameTime : Z;
  frameCount : Z;
  pacman : Pacman;
  ghosts : list Ghost;
  powerUps : list PowerUp;
  powerUpTimer : float;
  activePowerUp : Z;
  board : Board;
  totalPellets : Z;
  (* the environment of the process *)
  hsFile : HsFile;           (* contents of highscore.txt *)
  hsWritable : bool;         (* whether highscore.txt can be opened for writing *)
  randCalls : nat            (* number of rand() calls made so far *)
}.

(** Assignments to one global. *)

Definition set_gameState (v : GameState) (s : State) : State :=
  mkState v (previousState s) (score s) (lives s) (highScore s) (gameTime s) (frameCount s) (pacman s) (ghosts s) (powerUps s) (powerUpTimer s) (activePowerUp s) (board s) (totalPellets s) (hsFile s) (hsWritable s) (randCalls s).

Definition set_previousState (v : GameState) (s : State) : State :=
  mkState (gameState s) v (score s) (lives s) (highScore s) (gameTime s) (frameCount s) (pacman s) (ghosts s) (powerUps s) (powerUpTimer s) (activePowerUp s) (board s) (totalPellets s) (hsFile s) (hsWritable s) (randCalls s).

Definition set_score (v : Z) (s : State) : State :=
  mkState (gameState s) (previousState s) v (lives s) (highScore s) (gameTime s) (frameCount s) (pacman s) (ghosts s) (powerUps s) (powerUpTimer s) (activePowerUp s) (board s) (totalPellets s) (hsFile s) (hsWritable s) (randCalls s).

Definition set_lives (v : Z) (s : State) : State :=
  mkState (gameState s) (previousState s) (score s) v (highScore s) (gameTime s) (frameCount s) (pacman s) (ghosts s) (powerUps s) (powerUpTimer s) (activePowerUp s) (board s) (totalPellets s) (hsFile s) (hsWritable s) (randCalls s).

Definition set_highScore (v : Z) (s : State) : State :=
  mkState (gameState s) (previousState s) (score s) (lives s) v (gameTime s) (frameCount s) (pacman s) (ghosts s) (powerUps s) (powerUpTimer s) (activePowerUp s) (board s) (totalPellets s) (hsFile s) (hsWritable s) (randCalls s).

Definition set_gameTime (v : Z) (s : State) : State :=
  mkState (gameState s) (previousState s) (score s) (lives s) (highScore s) v (frameCount s) (pacman s) (ghosts s) (powerUps s) (powerUpTimer s) (activePowerUp s) (board s) (totalPellets s) (hsFile s) (hsWritable s) (randCalls s).

Definition set_frameCount (v : Z) (s : State) : State :=
  mkState (gameState s) (previousState s) (score s) (lives s) (highScore s) (gameTime s) v (pacman s) (ghosts s) (powerUps s) (powerUpTimer s) (activePowerUp s) (board s) (totalPellets s) (hsFile s) (hsWritable s) (randCalls s).

Definition set_pacman (v : Pacman) (s : State) : State :=
  mkState (gameState s) (previousState s) (score s) (lives s) (highScore s) (gameTime s) (frameCount s) v (ghosts s) (powerUps s) (powerUpTimer s) (activePowerUp s) (board s) (totalPellets s) (hsFile s) (hsWritable s) (randCalls s).

Definition set_ghosts (v : list Ghost) (s : State) : State :=
  mkState (gameState s) (previousState s) (score s) (lives s) (highScore s) (gameTime s) (frameCount s) (pacman s) v (powerUps s) (powerUpTimer s) (activePowerUp s) (board s) (totalPellets s) (hsFile s) (hsWritable s) (randCalls s).

Definition set_powerUps (v : list PowerUp) (s : State) : State :=
  mkState (gameState s) (previousState s) (score s) (lives s) (highScore s) (gameTime s) (frameCount s) (pacman s) (ghosts s) v (powerUpTimer s) (activePowerUp s) (board s) (totalPellets s) (hsFile s) (hsWritable s) (randCalls s).

Definition set_powerUpTimer (v : float) (s : State) : State :=
  mkState (gameState s) (previousState s) (score s) (lives s) (highScore s) (gameTime s) (frameCount s) (pacman s) (ghosts s) (powerUps s) v (activePowerUp s) (board s) (totalPellets s) (hsFile s) (hsWritable s) (randCalls s).

Definition set_activePowerUp (v : Z) (s : State) : State :=
  mkState (gameState s) (previousState s) (score s) (lives s) (highScore s) (gameTime s) (frameCount s) (pacman s) (ghosts s) (powerUps s) (powerUpTimer s) v (board s) (totalPellets s) (hsFile s) (hsWritable s) (randCalls s).

Definition set_board (v : Board) (s : State) : State :=
  mkState (gameState s) (previousState s) (score s) (lives s) (highScore s) (gameTime s) (frameCount s) (pacman s) (ghosts s) (powerUps s) (powerUpTimer s) (activePowerUp s) v (totalPellets s) (hsFile s) (hsWritable s) (randCalls s).

Definition set_totalPellets (v : Z) (s : State) : State :=
  mkState (gameState s) (previousState s) (score s) (lives s) (highScore s) (gameTime s) (frameCount s) (pacman s) (ghosts s) (powerUps s) (powerUpTimer s) (activePowerUp s) (board s) v (hsFile s) (hsWritable s) (randCalls s).

Definition set_hsFile (v : HsFile) (s : State) : State :=
  mkState (gameState s) (previousState s) (score s) (lives s) (highScore s) (gameTime s) (frameCount s) (pacman s) (ghosts s) (powerUps s) (powerUpTimer s) (activePowerUp s) (board s) (totalPellets s) v (hsWritable s) (randCalls s).

Definition set_hsWritable (v : bool) (s : State) : State :=
  mkState (gameState s) (previousState s) (score s) (lives s) (highScore s) (gameTime s) (frameCount s) (pacman s) (ghosts s) (powerUps s) (powerUpTimer s) (activePowerUp s) (board s) (totalPellets s) (hsFile s) v (randCalls s).

Definition set_randCalls (v : nat) (s : State) : State :=
  mkState (gameState s) (previousState s) (score s) (lives s) (highScore s) (gameTime s) (frameCount s) (pacman s) (ghosts s) (powerUps s) (powerUpTimer s) (activePowerUp s) (board s) (totalPellets s) (hsFile s) (hsWritable s) v.

(** ** The board *)

(** [board[i][j]] as an rvalue. *)
Definition boardGet (b : Board) (i j : Z) : Res Z :=
  if (0 <=? i) && (i <? ROWS) && (0 <=? j) && (j <? COLS) then
    match b !! Z.to_nat i with
    | Some row =>
        match row !! Z.to_nat j with
        | Some c => Ok c
        | None => Stop OutOfBounds
        end
    | None => Stop OutOfBounds
    end
  else Stop OutOfBounds.

(** [board[i][j] = v], used at indices that were read before. *)
Definition boardSet (b : Board) (i j : Z) (v : Z) : Board :=
  alter (fun row => <[Z.to_nat j := v]> row) (Z.to_nat i) b.

(** [board[(int)y][(int)x]] *)
Definition boardAt (b : Board) (y x : float) : Res Z :=
  do i <- F32.to_int y;
  do j <- F32.to_int x;
  boardGet b i j.

Definition zrange (n : Z) : list Z := map Z.of_nat (seq 0 (Z.to_nat n)).

(** The value the nested loop of [initBoard] gives to cell (i,j). *)
Definition initCell (i j : Z) : Z :=
  if (i =? 0) || (j =? 0) || (i =? ROWS - 1) || (j =? COLS - 1) then 2
  else if ((i =? 10) && (8 <=? j) && (j <=? 12)) || ((j =? 10) && (8 <=? i) && (i <=? 12)) then 2
  else 1.

(** Number of cells of a board that hold a pellet. *)
Definition pelletCount (b : Board) : nat :=
  length (filter (fun c => c = 1) (concat b)).

Definition initBoard (s : State) : State :=
  let b0 := map (fun i => map (fun j => initCell i j) (zrange COLS)) (zrange ROWS) in
  (* totalPellets++ runs once for each cell set to 1 *)
  let s := set_totalPellets (Z.of_nat (pelletCount b0)) s in
  (* Clear start positions *)
  let b := boardSet b0 1 1 0 in
  let b := boardSet b (ROWS - 2) (COLS - 2) 0 in
  let b := boardSet b (ROWS - 2) 1 0 in
  let b := boardSet b 1 (COLS - 2) 0 in
  let b := boardSet b 10 10 0 in
  (* Add power-ups *)
  let b := boardSet b 3 3 3 in
  let b := boardSet b 3 (COLS - 4) 3 in
  let b := boardSet b (ROWS - 4) 3 3 in
  let b := boardSet b (ROWS - 4) (COLS - 4) 3 in
  set_board b s.

Definition blinky : Ghost :=
  mkGhost (F32.of_int (COLS - 2)) (F32.of_int (ROWS - 2)) f0_04
          (F32.of_int 1) fzero fzero "Blinky" 0 fzero true.
Definition pinky : Ghost :=
  mkGhost (F32.of_int 1) (F32.of_int (ROWS - 2)) f0_035
          (F32.of_int 1) f0_4 f0_7 "Pinky" 1 fzero true.
Definition inky : Ghost :=
  mkGhost (F32.of_int (COLS - 2)) (F32.of_int 1) f0_038
          fzero (F32.of_int 1) (F32.of_int 1) "Inky" 2 fzero true.
Definition clyde : Ghost :=
  mkGhost (F32.of_int 10) (F32.of_int 10) f0_03
          (F32.of_int 1) f0_6 fzero "Clyde" 3 fzero true.

Definition initGhosts (s : State) : State :=
  set_ghosts [blinky; pinky; inky; clyde] s.

Definition initPowerUps (s : State) : State :=
  let p1 := mkPowerUp (F32.of_int 3) (F32.of_int 3) 0 true fzero in
  let p2 := mkPowerUp (F32.of_int (COLS - 4)) (F32.of_int 3) 1 true fzero in
  let p3 := mkPowerUp (F32.of_int 3) (F32.of_int (ROWS - 4)) 2 true fzero in
  let p4 := mkPowerUp (F32.of_int (COLS - 4)) (F32.of_int (ROWS - 4)) 0 true fzero in
  set_powerUps [p1; p2; p3; p4] s.

(** ** High-score persistence *)

(** [file >> highScore] on a numeral that no [int] holds stores the
    nearest [int]. *)
Definition clampInt (n : Z) : Z := Z.max F32.INT_MIN (Z.min n F32.INT_MAX).

Definition loadHighScore (s : State) : State :=
  match hsFile s with
  | FileInt n => set_highScore (clampInt n) s
  | FileGarbage => set_highScore 0 s   (* failed extraction stores 0 *)
  | FileEmpty => s                     (* nothing to extract: the variable is left alone *)
  | FileMissing => set_highScore 0 s
  end.

Definition saveHighScore (s : State) : State :=
  if score s >? highScore s then
    let s := set_highScore (score s) s in
    if hsWritable s then set_hsFile (FileInt (highScore s)) s else s
  else s.

(** ** Win condition *)

Definition allPelletsEaten (s : State) : bool :=
  forallb (fun i =>
    forallb (fun j =>
      match boardGet (board s) i j with
      | Ok c => negb (c =? 1)
      | Stop _ => true
      end) (zrange COLS)) (zrange ROWS).

(** ** Session reset *)

Definition resetGame (s : State) : State :=
  let s := initBoard s in
  let s := initGhosts s in
  let s := initPowerUps s in
  let s := set_pacman (mkPacman (F32.of_int 1) (F32.of_int 1) 0 0 f0_1) s in
  let s := set_score 0 s in
  let s := set_lives 3 s in
  let s := set_gameTime 0 s in
  let s := set_frameCount 0 s in
  let s := set_powerUpTimer fzero s in
  let s := set_activePowerUp (-1) s in
  set_gameState MENU s.

(** ** Pursuer update *)

Definition ghost_set_pos (x y : float) (g : Ghost) : Ghost :=
  mkGhost x y (gspeed g) (gr g) (gg g) (gb g) (gname g) (behavior g) (specialTimer g) (isActive g).
Definition ghost_set_speed (v : float) (g : Ghost) : Ghost :=
  mkGhost (gx g) (gy g) v (gr g) (gg g) (gb g) (gname g) (behavior g) (specialTimer g) (isActive g).
Definition ghost_set_timer (v : float) (g : Ghost) : Ghost :=
  mkGhost (gx g) (gy g) (gspeed g) (gr g) (gg g) (gb g) (gname g) (behavior g) v (isActive g).

Definition pac_set_pos (x y : float) (p : Pacman) : Pacman :=
  mkPacman x y (dirX p) (dirY p) (pspeed p).
Definition pac_set_dir (dx dy : Z) (p : Pacman) : Pacman :=
  mkPacman (px p) (py p) dx dy (pspeed p).
Definition pac_set_speed (v : float) (p : Pacman) : Pacman :=
  mkPacman (px p) (py p) (dirX p) (dirY p) v.

(** The difficulty ramp: [if (gameTime % 30 == 0 && gameTime > 0) speed += 0.001f]. *)
Definition rampSpeed (gameTime : Z) (g : Ghost) : Ghost :=
  if (Z.rem gameTime 30 =? 0) && (gameTime >? 0)
  then ghost_set_speed (F32.add (gspeed g) f0_001) g
  else g.

(** The target of a pursuer, with the number of [rand()] calls made to
    compute it. [g] is the pursuer after its timer was advanced, [g0] is
    [ghosts[0]], and [rnd n] is the value of the n-th [rand()] call. *)
Definition ghostTarget (rnd : nat -> Z) (calls : nat) (p : Pacman) (g0 g : Ghost)
  : Res (float * float * nat) :=
  if behavior g =? 0 then
    Ok (px p, py p, calls)
  else if behavior g =? 1 then
    Ok (F32.add (px p) (F32.of_int (dirX p * 4)),
        F32.add (py p) (F32.of_int (dirY p * 4)), calls)
  else if behavior g =? 2 then
    Ok (F32.add (px p) (F32.sub (px p) (gx g0)),
        F32.add (py p) (F32.sub (py p) (gy g0)), calls)
  else if behavior g =? 3 then
    do t <- F32.to_int (specialTimer g);
    if Z.rem t 5 =? 0 then
      Ok (F32.of_int (Z.rem (rnd calls) COLS),
          F32.of_int (Z.rem (rnd (S calls)) ROWS), S (S calls))
    else Ok (px p, py p, calls)
  else Ok (px p, py p, calls).

(** Steering of one pursuer toward a target, with the wall check on the
    destination cell. *)
Definition ghostMove (b : Board) (targetX targetY : float) (g : Ghost) : Res Ghost :=
  let dx := F32.sub targetX (gx g) in
  let dy := F32.sub targetY (gy g) in
  let dist := F32.sqrt (F32.add (F32.mul dx dx) (F32.mul dy dy)) in
  if F32.ltb fzero dist then
    let nextX := F32.add (gx g) (F32.mul (F32.div dx dist) (gspeed g)) in
    let nextY := F32.add (gy g) (F32.mul (F32.div dy dist) (gspeed g)) in
    do c <- boardAt b nextY nextX;
    Ok (if negb (c =? 2) then ghost_set_pos nextX nextY g else g)
  else Ok g.

(** The first two statements of [updateGhost]: the timer and the ramp. *)
Definition advanceGhost (gameTime : Z) (g : Ghost) : Ghost :=
  rampSpeed gameTime (ghost_set_timer (F32.add (specialTimer g) f0_016) g).

(** [updateGhost(ghosts[i])] up to the computation of the target: the
    state with the advanced pursuer written back and the [rand()] calls
    counted, the advanced pursuer and its target; [None] when the pursuer
    is frozen (or absent). *)
Definition ghostAim (rnd : nat -> Z) (i : nat) (s : State)
  : Res (option (State * Ghost * float * float)) :=
  if activePowerUp s =? 1 then Ok None   (* Frozen *)
  else
    match ghosts s !! i with
    | None => Ok None
    | Some g =>
        let g := advanceGhost (gameTime s) g in
        let s := set_ghosts (<[i := g]> (ghosts s)) s in
        match ghosts s !! 0%nat with
        | None => Ok None
        | Some g0 =>
            do t <- ghostTarget rnd (randCalls s) (pacman s) g0 g;
            let '(targetX, targetY, calls) := t in
            Ok (Some (set_randCalls calls s, g, targetX, targetY))
        end
    end.

(** [updateGhost(ghosts[i])] *)
Definition updateGhost (rnd : nat -> Z) (i : nat) (s : State) : Res State :=
  do a <- ghostAim rnd i s;
  match a with
  | None => Ok s
  | Some (s1, g, targetX, targetY) =>
      do g' <- ghostMove (board s1) targetX targetY g;
      Ok (set_ghosts (<[i := g']> (ghosts s1)) s1)
  end.

(** [for (i = 0; i < ghosts.size(); i++) updateGhost(ghosts[i]);] from index [i],
    with [n] iterations left. *)
Fixpoint moveGhostsFrom (rnd : nat -> Z) (n i : nat) (s : State) : Res State :=
  match n with
  | O => Ok s
  | S n' =>
      do s' <- updateGhost rnd i s;
      moveGhostsFrom rnd n' (S i) s'
  end.

Definition moveGhosts (rnd : nat -> Z) (s : State) : Res State :=
  moveGhostsFrom rnd (length (ghosts s)) 0 s.

(** ** The simulation step *)

Definition tickCounters (s : State) : State :=
  let s := set_frameCount (frameCount s + 1) s in
  if Z.rem (frameCount s) 60 =? 0 then set_gameTime (gameTime s + 1) s else s.

Definition movePacman (s : State) : Res State :=
  let p := pacman s in
  let nextX := F32.add (px p) (F32.mul (F32.of_int (dirX p)) (pspeed p)) in
  let nextY := F32.add (py p) (F32.mul (F32.of_int (dirY p)) (pspeed p)) in
  do c <- boardAt (board s) nextY nextX;
  Ok (if negb (c =? 2) then set_pacman (pac_set_pos nextX nextY p) s else s).

Definition eatPellet (s : State) : Res State :=
  do i <- F32.to_int (py (pacman s));
  do j <- F32.to_int (px (pacman s));
  do c <- boardGet (board s) i j;
  Ok (if c =? 1
      then set_score (score s + 10) (set_board (boardSet (board s) i j 0) s)
      else s).

(** The search loop of the power-up collection, from index [k] of the
    vector; [i], [j] are the avatar's cell. *)
Fixpoint activatePowerUp (i j : Z) (k : nat) (us : list PowerUp) (s : State) : Res State :=
  match us with
  | [] => Ok s
  | u :: rest =>
      do uj <- F32.to_int (ux u);
      if uj =? j then
        do ui <- F32.to_int (uy u);
        if (ui =? i) && active u then
          let s := set_activePowerUp (ptype u) s in
          let s := set_powerUpTimer f5_0 s in
          let s := set_powerUps
                     (<[k := mkPowerUp (ux u) (uy u) (ptype u) false (duration u)]> (powerUps s)) s in
          let s := set_score (score s + 50) s in
          Ok (if activePowerUp s =? 2
              then set_pacman (pac_set_speed f0_15 (pacman s)) s
              else s)
        else activatePowerUp i j (S k) rest s
      else activatePowerUp i j (S k) rest s
  end.

Definition collectPowerUp (s : State) : Res State :=
  do i <- F32.to_int (py (pacman s));
  do j <- F32.to_int (px (pacman s));
  do c <- boardGet (board s) i j;
  if c =? 3 then
    let s := set_board (boardSet (board s) i j 0) s in
    activatePowerUp i j 0 (powerUps s) s
  else Ok s.

Definition powerUpTick (s : State) : State :=
  if F32.ltb fzero (powerUpTimer s) then
    let s := set_powerUpTimer (F32.sub (powerUpTimer s) f0_016) s in
    if F32.leb (powerUpTimer s) fzero then
      let s := set_activePowerUp (-1) s in
      set_pacman (pac_set_speed f0_1 (pacman s)) s
    else s
  else s.

(** [std::abs(a - b) < 0.6], the comparison made in [double]. *)
Definition near (a b : float) : bool :=
  F32.ltb (F32.to_double (F32.abs (F32.sub a b))) d0_6.

Definition captured (p : Pacman) (g : Ghost) : bool :=
  near (px p) (gx g) && near (py p) (gy g).

(** Body of the collision loop for index [i]. *)
Definition collideGhost (i : nat) (s : State) : State :=
  match ghosts s !! i with
  | None => s
  | Some g =>
      if captured (pacman s) g then
        if activePowerUp s =? 0 then
          (* Invincible - ghost respawns *)
          let s := set_ghosts (<[i := ghost_set_pos (F32.of_int 10) (F32.of_int 10) g]> (ghosts s)) s in
          set_score (score s + 100) s
        else
          (* Lose life *)
          let s := set_lives (lives s - 1) s in
          let s := set_pacman (pac_set_pos (F32.of_int 1) (F32.of_int 1) (pacman s)) s in
          let s := initGhosts s in
          if lives s <=? 0 then saveHighScore (set_gameState GAMEOVER s) else s
      else s
  end.

(** [for (i = 0; i < ghosts.size(); i++) ...] from index [i]; the size is
    read again at every iteration, [fuel] bounds the iterations. *)
Fixpoint collideFrom (fuel i : nat) (s : State) : State :=
  match fuel with
  | O => s
  | S fuel' =>
      if (i <? length (ghosts s))%nat
      then collideFrom fuel' (S i) (collideGhost i s)
      else s
  end.

(** The vector has its old size or, after [initGhosts], four elements, so
    the loop ends within that many iterations. *)
Definition collisions (s : State) : State :=
  collideFrom (Nat.max (length (ghosts s)) 4) 0 s.

Definition winCheck (s : State) : State :=
  if allPelletsEaten s then saveHighScore (set_gameState WIN s) else s.

(** The step up to the pursuers' moves. *)
Definition beforeGhosts (s : State) : Res State :=
  let s := tickCounters s in
  do s <- movePacman s;
  do s <- eatPellet s;
  do s <- collectPowerUp s;
  Ok (powerUpTick s).

(** The step up to and including the pursuers' moves. *)
Definition beforeCollisions (rnd : nat -> Z) (s : State) : Res State :=
  do s <- beforeGhosts s;
  moveGhosts rnd s.


Definition updateGame (rnd : nat -> Z) (s : State) : Res State :=
  if negb (bool_decide (gameState s = PLAYING)) then Ok s
  else
    do s <- beforeCollisions rnd s;
    let s := collisions s in
    Ok (winCheck s).

(** ** Keyboard dispatch *)

Definition is_key (key : ascii) (lower upper : ascii) : bool :=
  Ascii.eqb key lower || Ascii.eqb key upper.

Definition keyboard (key : ascii) (s : State) : Res State :=
  if Ascii.eqb key (ascii_of_nat 27) then Stop ProcessExit   (* ESC *)
  else if Ascii.eqb key " " then
    Ok (if bool_decide (gameState s = MENU)
        then set_gameState PLAYING (resetGame s) else s)
  else if is_key key "r" "R" then
    Ok (if bool_decide (gameState s = MENU) && bool_decide (previousState s = PAUSED)
        then set_gameState PLAYING s else s)
  else if is_key key "h" "H" then
    Ok (if bool_decide (gameState s = MENU) then set_gameState HELP s else s)
  else if is_key key "s" "S" then
    Ok (if bool_decide (gameState s = MENU) then set_gameState HIGHSCORE s
        else if bool_decide (gameState s = PLAYING)
             then set_pacman (pac_set_dir 0 (-1) (pacman s)) s
             else s)
  else if is_key key "m" "M" then
    Ok (if negb (bool_decide (gameState s = PLAYING)) then set_gameState MENU s else s)
  else if is_key key "p" "P" then
    Ok (if bool_decide (gameState s = PLAYING)
        then set_gameState PAUSED (set_previousState PAUSED s)
        else if bool_decide (gameState s = PAUSED) then set_gameState PLAYING s
             else s)
  else if is_key key "w" "W" then
    Ok (if bool_decide (gameState s = PLAYING)
        then set_pacman (pac_set_dir 0 1 (pacman s)) s else s)
  else if is_key key "a" "A" then
    Ok (if bool_decide (gameState s = PLAYING)
        then set_pacman (pac_set_dir (-1) 0 (pacman s)) s else s)
  else if is_key key "d" "D" then
    Ok (if bool_decide (gameState s = PLAYING)
        then set_pacman (pac_set_dir 1 0 (pacman s)) s else s)
  else Ok s.

(** ** The program as an event loop *)

(** The globals as their initialisers leave them, in an environment where
    [highscore.txt] reads as [f] and is writable or not. *)
Definition globals (f : HsFile) (w : bool) : State :=
  mkState MENU MENU 0 3 0 0 0
          (mkPacman fzero fzero 0 0 fzero) [] [] fzero (-1)
          (replicate (Z.to_nat ROWS) (replicate (Z.to_nat COLS) 0)) 0
          f w 0.

(** [main] up to the start of the GLUT loop. *)
Definition programStart (f : HsFile) (w : bool) : State :=
  resetGame (loadHighScore (globals f w)).

(** What the GLUT loop delivers: a key press, or the 60 Hz timer. *)
Inductive Event :=
| Key (key : ascii)
| Tick.

Definition handle (rnd : nat -> Z) (e : Event) (s : State) : Res State :=
  match e with
  | Key k => keyboard k s
  | Tick => updateGame rnd s
  end.

Fixpoint run (rnd : nat -> Z) (es : list Event) (s : State) : Res State :=
  match es with
  | [] => Ok s
  | e :: es' => do s' <- handle rnd e s; run rnd es' s'
  end.

(** [n] timer ticks in a row. *)
Fixpoint ticks (rnd : nat -> Z) (n : nat) (s : State) : Res State :=
  match n with
  | O => Ok s
  | S n' => do s' <- updateGame rnd s; ticks rnd n' s'
  end.

(** ** Rendering *)

(** [oss << value]: the decimal digits of [value], after a minus sign when
    it is negative. *)
Definition intToString (value : Z) : string :=
  NilZero.string_of_int (Z.to_int value).

(** What [display] calls, in order. The three sprite functions compute
    their vertices with [std::cos] and [std::sin]; their calls are
    recorded, their vertices are not modelled. *)
Inductive Draw :=
| glClearColor (r g b a : float)
| glClear
| glColor3f (r g b : float)
| call_drawText (x y : float) (text : string)
| call_drawTextSmall (x y : float) (text : string)
| call_drawBoard
| call_drawPacman
| call_drawGhost (g : Ghost)
| glutSwapBuffers.

(** [display]. A literal such as [6.5f] is written [L 65 10], the binary32
    nearest to the quotient. *)
Definition display (s : State) : list Draw :=
  let L := F32.lit in
  [ glClearColor (L 5 100) (L 5 100) (L 15 100) (L 10 10); glClear;
    glColor3f (L 0 10) (L 10 10) (L 10 10) ] ++
  match gameState s with
  | MENU =>
      [ call_drawText (L 65 10) (L 140 10) "PACMAN GAME";
        call_drawText (L 60 10) (L 110 10) "Press SPACE to Start";
        call_drawText (L 65 10) (L 100 10) "Press R to Resume";
        call_drawText (L 65 10) (L 90 10) "Press H for Help";
        call_drawText (L 55 10) (L 80 10) "Press S for High Score";
        call_drawText (L 65 10) (L 70 10) "Press ESC to Exit" ]
  | HELP =>
      [ call_drawText (L 70 10) (L 160 10) "HOW TO PLAY";
        call_drawTextSmall (L 30 10) (L 140 10) "CONTROLS:";
        call_drawTextSmall (L 30 10) (L 130 10) "W/A/S/D - Move Up/Left/Down/Right";
        call_drawTextSmall (L 30 10) (L 120 10) "P - Pause, M - Menu, ESC - Exit";
        call_drawTextSmall (L 30 10) (L 105 10) "GHOSTS:";
        call_drawTextSmall (L 30 10) (L 95 10) "Blinky (Red) - Chases you directly";
        call_drawTextSmall (L 30 10) (L 88 10) "Pinky (Pink) - Ambushes ahead";
        call_drawTextSmall (L 30 10) (L 81 10) "Inky (Cyan) - Tries to corner you";
        call_drawTextSmall (L 30 10) (L 74 10) "Clyde (Orange) - Random movement";
        call_drawTextSmall (L 30 10) (L 62 10) "POWER-UPS (Magenta circles):";
        call_drawTextSmall (L 30 10) (L 55 10) "Invincible - Eat ghosts!";
        call_drawTextSmall (L 30 10) (L 48 10) "Freeze - Stops ghosts";
        call_drawTextSmall (L 30 10) (L 41 10) "Speed - Move faster";
        call_drawText (L 65 10) (L 20 10) "Press M for Menu" ]
  | HIGHSCORE =>
      let hs := ("Best Score: " ++ intToString (highScore s))%string in
      [ call_drawText (L 65 10) (L 120 10) "HIGH SCORE";
        call_drawText (L 60 10) (L 100 10) hs;
        call_drawText (L 65 10) (L 80 10) "Press M for Menu" ]
  | PLAYING | PAUSED =>
      let scoreText := ("Score: " ++ intToString (score s))%string in
      let livesText := ("Lives: " ++ intToString (lives s))%string in
      let timeText := (("Time: " ++ intToString (gameTime s)) ++ "s")%string in
      [ call_drawBoard; call_drawPacman ] ++
      map call_drawGhost (ghosts s) ++
      [ call_drawTextSmall (L 5 10) (L 195 10) scoreText;
        call_drawTextSmall (L 70 10) (L 195 10) timeText;
        call_drawTextSmall (L 140 10) (L 195 10) livesText ] ++
      (if activePowerUp s >=? 0 then
         let powerText := "POWER: "%string in
         let powerText :=
           if activePowerUp s =? 0 then (powerText ++ "INVINCIBLE!")%string
           else if activePowerUp s =? 1 then (powerText ++ "FREEZE!")%string
           else if activePowerUp s =? 2 then (powerText ++ "SPEED!")%string
           else powerText in
         [ call_drawTextSmall (L 60 10) (L 5 10) powerText ]
       else []) ++
      (if bool_decide (gameState s = PAUSED)
       then [ call_drawText (L 55 10) (L 100 10) "PAUSED - Press P to Resume" ]
       else [])
  | GAMEOVER =>
      let finalScore := ("Final Score: " ++ intToString (score s))%string in
      let finalTime := (("Time: " ++ intToString (gameTime s)) ++ " seconds")%string in
      [ call_drawText (L 70 10) (L 130 10) "GAME OVER!";
        call_drawText (L 60 10) (L 110 10) finalScore;
        call_drawText (L 60 10) (L 100 10) finalTime;
        call_drawText (L 65 10) (L 80 10) "Press M for Menu" ]
  | WIN =>
      let finalScore := ("Final Score: " ++ intToString (score s))%string in
      let finalTime := (("Time: " ++ intToString (gameTime s)) ++ " seconds")%string in
      [ call_drawText (L 75 10) (L 130 10) "YOU WIN!";
        call_drawText (L 60 10) (L 110 10) finalScore;
        call_drawText (L 60 10) (L 100 10) finalTime ] ++
      (if score s >? highScore s
       then [ call_drawText (L 55 10) (L 90 10) "NEW HIGH SCORE!" ]
       else []) ++
      [ call_drawText (L 65 10) (L 70 10) "Press M for Menu" ]
  end ++
  [ glutSwapBuffers ].

(** * Derived notions *)

(** The definitions of this part are not functions of the program: they
    name what the statements below speak about. *)

(** ** Boards *)

(** The pellets of one row. *)
Definition rowCount (row : list Z) : nat := length (filter (fun c => c = 1) row).

(** A board has the shape of the C++ array: 20 rows of 20 cells. *)
Definition wfBoard (b : Board) : Prop :=
  length b = Z.to_nat ROWS /\ Forall (fun row => length row = Z.to_nat COLS) b.

(** ** Captures, the store and the ramp *)

(** The effect of a capture without invincibility. *)
Definition loseLife (s : State) : State :=
  let s := set_lives (lives s - 1) s in
  let s := set_pacman (pac_set_pos (F32.of_int 1) (F32.of_int 1) (pacman s)) s in
  let s := initGhosts s in
  if lives s <=? 0 then saveHighScore (set_gameState GAMEOVER s) else s.

(** The effect of a capture of pursuer [i] under invincibility. *)
Definition eatGhost (i : nat) (g : Ghost) (s : State) : State :=
  let s := set_ghosts (<[i := ghost_set_pos (F32.of_int 10) (F32.of_int 10) g]> (ghosts s)) s in
  set_score (score s + 100) s.

(** What the collision loop of a tick under invincibility makes of a
    pursuer: the centre cell for one within reach of the avatar [p]. *)
Definition toCentre (p : Pacman) (g : Ghost) : Ghost :=
  if captured p g then ghost_set_pos (F32.of_int 10) (F32.of_int 10) g else g.

(** The best score the program reads from a store when it starts. *)
Definition storedValue (f : HsFile) : Z :=
  match f with
  | FileInt n => clampInt n
  | FileEmpty | FileGarbage | FileMissing => 0
  end.

(** What a run started on the store [f] keeps true of the store and of the
    variable [highScore]; [w] tells whether the store can be written. *)
Definition storeKept (f : HsFile) (w : bool) (s : State) : Prop :=
  hsWritable s = w /\ storedValue f <= highScore s /\
  (w = false -> hsFile s = f) /\
  (w = true ->
     (hsFile s = f /\ highScore s = storedValue f) \/ hsFile s = FileInt (highScore s)).

(** The speed the ramp gives, whatever the behaviour. *)
Definition rampedSpeed (gameTime : Z) (v : float) : float :=
  if (Z.rem gameTime 30 =? 0) && (gameTime >? 0) then F32.add v f0_001 else v.

(** ** Ticks in which nothing moves *)

(** When the avatar leans against a wall and every pursuer steers into a
    wall, a tick only advances the clocks. The definitions of this section
    describe such a tick without steering anybody, which makes long waits
    cheap to evaluate. *)

(** The cell the Random pursuer is sent to when it redraws its target
    during such a wait. *)
Definition redrawX : Z := 19.

Definition redrawY : Z := 10.

(** The speed ramp is on. *)
Definition inWindow (gameTime : Z) : bool := (Z.rem gameTime 30 =? 0) && (gameTime >? 0).

(** A pursuer whose timer is advanced and nothing else. *)
Definition retime (g : Ghost) : Ghost :=
  ghost_set_timer (F32.add (specialTimer g) f0_016) g.

(** The pursuer's step toward the target ends in a wall (or has no length). *)
Definition blocked (b : Board) (targetX targetY : float) (g : Ghost) : bool :=
  let dx := F32.sub targetX (gx g) in
  let dy := F32.sub targetY (gy g) in
  let dist := F32.sqrt (F32.add (F32.mul dx dx) (F32.mul dy dy)) in
  if F32.ltb fzero dist then
    let nextX := F32.add (gx g) (F32.mul (F32.div dx dist) (gspeed g)) in
    let nextY := F32.add (gy g) (F32.mul (F32.div dy dist) (gspeed g)) in
    match boardAt b nextY nextX with
    | Ok c => c =? 2
    | Stop _ => false
    end
  else true.

(** The avatar's step ends in a wall. *)
Definition pacmanBlocked (b : Board) (p : Pacman) : bool :=
  let nextX := F32.add (px p) (F32.mul (F32.of_int (dirX p)) (pspeed p)) in
  let nextY := F32.add (py p) (F32.mul (F32.of_int (dirY p)) (pspeed p)) in
  match boardAt b nextY nextX with
  | Ok c => c =? 2
  | Stop _ => false
  end.

(** The avatar stands on an empty cell. *)
Definition onEmptyCell (b : Board) (p : Pacman) : bool :=
  match boardAt b (py p) (px p) with
  | Ok c => c =? 0
  | Stop _ => false
  end.

(** Nobody can move and nobody is within reach. *)
Definition parkedb (s : State) : bool :=
  let b := board s in
  let p := pacman s in
  bool_decide (gameState s = PLAYING) &&
  pacmanBlocked b p && onEmptyCell b p &&
  negb (F32.ltb fzero (powerUpTimer s)) && negb (activePowerUp s =? 1) &&
  negb (allPelletsEaten s) &&
  match ghosts s with
  | [g0; g1; g2; g3] =>
      (behavior g0 =? 0) && (behavior g1 =? 1) && (behavior g2 =? 2) && (behavior g3 =? 3) &&
      blocked b (px p) (py p) g0 &&
      blocked b (F32.add (px p) (F32.of_int (dirX p * 4)))
                (F32.add (py p) (F32.of_int (dirY p * 4))) g1 &&
      blocked b (F32.add (px p) (F32.sub (px p) (gx g0)))
                (F32.add (py p) (F32.sub (py p) (gy g0))) g2 &&
      blocked b (px p) (py p) g3 &&
      blocked b (F32.of_int redrawX) (F32.of_int redrawY) g3 &&
      negb (captured p g0) && negb (captured p g1) &&
      negb (captured p g2) && negb (captured p g3)
  | _ => false
  end.

(** The clocks allow a tick in which nothing moves: the speed ramp is off,
    and the Random pursuer either keeps chasing or redraws the cell
    ([redrawX], [redrawY]). *)
Definition clockOk (rnd : nat -> Z) (s : State) : bool :=
  negb (inWindow (gameTime (tickCounters s))) &&
  match ghosts s with
  | [_; _; _; g3] =>
      match F32.to_int (F32.add (specialTimer g3) f0_016) with
      | Ok t =>
          if Z.rem t 5 =? 0
          then (Z.rem (rnd (randCalls s)) COLS =? redrawX) &&
               (Z.rem (rnd (S (randCalls s))) ROWS =? redrawY)
          else true
      | Stop _ => false
      end
  | _ => false
  end.

(** What such a tick does: counters and timers advance, and the Random
    pursuer's redraw costs two [rand()] calls. *)
Definition quietStep (s : State) : State :=
  let s1 := tickCounters s in
  match ghosts s1 with
  | [g0; g1; g2; g3] =>
      let calls :=
        match F32.to_int (F32.add (specialTimer g3) f0_016) with
        | Ok t => if Z.rem t 5 =? 0 then S (S (randCalls s1)) else randCalls s1
        | Stop _ => randCalls s1
        end in
      set_ghosts [retime g0; retime g1; retime g2; retime g3] (set_randCalls calls s1)
  | _ => s1
  end.

(** [n] ticks, taking the short cut whenever the state is known to be
    parked and the clocks allow it. [parked] records that [parkedb] holds. *)
Fixpoint fastTicks (rnd : nat -> Z) (n : nat) (parked : bool) (s : State) : Res State :=
  match n with
  | O => Ok s
  | S n' =>
      if parked && clockOk rnd s
      then fastTicks rnd n' true (quietStep s)
      else do s' <- updateGame rnd s; fastTicks rnd n' (parkedb s') s'
  end.

(** A state with its pursuers and its count of [rand()] calls replaced. *)
Definition withGhosts (l : list Ghost) (c : nat) (s : State) : State :=
  set_ghosts l (set_randCalls c s).

(** ** Boards of a session *)

(** The board a session starts with. *)
Definition board0 : Board := Eval vm_compute in board (programStart FileMissing true).

(** What cell (i,j) holds when a session starts. *)
Definition cell0 (i j : Z) : Z :=
  match boardGet board0 i j with Ok c => c | Stop _ => -1 end.

(** A cell, compared with what it held before: unchanged, or a pellet or
    marker that was eaten. *)
Definition cellStep (c0 c : Z) : Prop := c = c0 \/ ((c0 = 1 \/ c0 = 3) /\ c = 0).

(** [b] is [b0] with some pellets and markers eaten. *)
Definition eatenFrom (b0 b : Board) : Prop :=
  forall i j c0, boardGet b0 i j = Ok c0 -> exists c, boardGet b i j = Ok c /\ cellStep c0 c.

(** The wall cells of [initBoard]: the border and the arms of the cross,
    whose centre is cleared again. *)
Definition wallCell (i j : Z) : bool :=
  (initCell i j =? 2) && negb ((i =? 10) && (j =? 10)).

(** Whether cell (i,j) holds a power-up marker. *)
Definition marked (b : Board) (i j : Z) : bool :=
  match boardGet b i j with
  | Ok c => c =? 3
  | Stop _ => false
  end.

(** The power-ups of [initPowerUps], each active exactly when its cell
    holds a marker. *)
Definition markersOn (b : Board) : list PowerUp :=
  [ mkPowerUp (F32.of_int 3) (F32.of_int 3) 0 (marked b 3 3) fzero;
    mkPowerUp (F32.of_int (COLS - 4)) (F32.of_int 3) 1 (marked b 3 (COLS - 4)) fzero;
    mkPowerUp (F32.of_int 3) (F32.of_int (ROWS - 4)) 2 (marked b (ROWS - 4) 3) fzero;
    mkPowerUp (F32.of_int (COLS - 4)) (F32.of_int (ROWS - 4)) 0
              (marked b (ROWS - 4) (COLS - 4)) fzero ].

(** The cell somebody at (x,y) stands on is on the board and no wall. *)
Definition offWall (b : Board) (x y : float) : Prop :=
  exists c, boardAt b y x = Ok c /\ c <> 2.

(** ** What a run preserves *)

(** What identifies a pursuer: colour, name, behaviour and activity flag. *)
Definition ghostTag (g : Ghost) : float * float * float * string * Z * bool :=
  (gr g, gg g, gb g, gname g, behavior g, isActive g).

(** A direction of the avatar: at rest, or one step along an axis. *)
Definition axisStep (dx dy : Z) : Prop :=
  (dx = 0 /\ (dy = 0 \/ dy = 1 \/ dy = -1)) \/ ((dx = 1 \/ dx = -1) /\ dy = 0).

(** What holds of the globals between two events, and between the phases
    of a tick. *)
Record Sound (s : State) : Prop := {
  snd_tags : ghostTag <$> ghosts s = ghostTag <$> [blinky; pinky; inky; clyde];
  snd_board : eatenFrom board0 (board s);
  snd_markers : powerUps s = markersOn (board s);
  snd_pursuers : forall k g, ghosts s !! k = Some g -> offWall (board s) (gx g) (gy g);
  snd_avatar : offWall (board s) (px (pacman s)) (py (pacman s));
  snd_frames : 0 <= frameCount s /\ gameTime s = frameCount s / 60;
  snd_score : 0 <= score s /\ score s mod 10 = 0;
  snd_lives : lives s <= 3;
  snd_effect : -1 <= activePowerUp s <= 2;
  snd_speed : pspeed (pacman s) = f0_1 \/
              (pspeed (pacman s) = f0_15 /\ activePowerUp s <> -1);
  snd_dir : axisStep (dirX (pacman s)) (dirY (pacman s));
  snd_prev : (previousState s = MENU \/ previousState s = PAUSED) /\
             (gameState s = PAUSED -> previousState s = PAUSED)
}.

(** What holds between two events. *)
Definition Settled (s : State) : Prop :=
  Sound s /\ onEmptyCell (board s) (pacman s) = true.

(** The end screens are shown for a reason, and the best score is up to
    date on them. *)
Definition Earned (s : State) : Prop :=
  (gameState s = GAMEOVER -> lives s <= 0) /\
  (gameState s = WIN -> allPelletsEaten s = true) /\
  (gameState s = GAMEOVER \/ gameState s = WIN -> score s <= highScore s).

(** A session in play, or paused, has a life and a pellet left. *)
Definition Alive (s : State) : Prop :=
  gameState s = PLAYING \/ gameState s = PAUSED ->
  1 <= lives s /\ allPelletsEaten s = false.

(** ** Keys *)

(** The effects a key can have. *)
Inductive KeyEffect (key : ascii) (s : State) : State -> Prop :=
| key_ignored : KeyEffect key s s
| key_start : key = " "%char -> gameState s = MENU ->
    KeyEffect key s (set_gameState PLAYING (resetGame s))
| key_resume : is_key key "r" "R" = true -> gameState s = MENU -> previousState s = PAUSED ->
    KeyEffect key s (set_gameState PLAYING s)
| key_screen st : key <> " "%char -> is_key key "r" "R" = false ->
    gameState s <> PLAYING -> gameState s <> PAUSED \/ is_key key "m" "M" = true ->
    st = MENU \/ st = HELP \/ st = HIGHSCORE ->
    KeyEffect key s (set_gameState st s)
| key_steer dx dy : key <> " "%char -> is_key key "r" "R" = false ->
    gameState s = PLAYING -> axisStep dx dy -> (dx, dy) <> (0, 0) ->
    KeyEffect key s (set_pacman (pac_set_dir dx dy (pacman s)) s)
| key_pause : is_key key "p" "P" = true -> gameState s = PLAYING ->
    KeyEffect key s (set_gameState PAUSED (set_previousState PAUSED s))
| key_unpause : is_key key "p" "P" = true -> gameState s = PAUSED ->
    KeyEffect key s (set_gameState PLAYING s).

(** An event that leaves a paused session paused: a tick, or a key other
    than Esc, M and P. *)
Definition keepsPause (e : Event) : Prop :=
  e <> Key (ascii_of_nat 27) /\ e <> Key "m" /\ e <> Key "M" /\
  e <> Key "p" /\ e <> Key "P".

(** ** Pick-ups and the effect timer *)

(** The state after the pick-up of a power-up of type [t] whose marker was
    in cell (i,j) of [b]; [s0] is the state with the marker already
    cleared. *)
Definition pickedUp (t : Z) (b : Board) (i j : Z) (s0 : State) : State :=
  let s := set_activePowerUp t s0 in
  let s := set_powerUpTimer f5_0 s in
  let s := set_powerUps (markersOn (boardSet b i j 0)) s in
  let s := set_score (score s + 50) s in
  if t =? 2 then set_pacman (pac_set_speed f0_15 (pacman s)) s else s.

(** [k] more timer steps from the value [t] leave the effect on. *)
Fixpoint staysOn (k : nat) (t : float) : bool :=
  match k with
  | O => true
  | S k' =>
      let t' := F32.sub t f0_016 in
      F32.ltb fzero t && negb (F32.leb t' fzero) && staysOn k' t'
  end.

(** The timer value after [k] steps. *)
Fixpoint timerAfter (k : nat) (t : float) : float :=
  match k with
  | O => t
  | S k' => timerAfter k' (F32.sub t f0_016)
  end.

(** The number of timer steps an effect lasts. *)
Definition effectTicks : nat := 313.

(** ** Drawn text *)

(** The text a call of [display] draws. *)
Definition drawnText (d : Draw) : option string :=
  match d with
  | call_drawText _ _ text | call_drawTextSmall _ _ text => Some text
  | _ => None
  end.

(** * Sessions *)

(** Concrete runs of the program, from its start, and the states they
    reach. *)

(** A key press followed by [n] ticks. *)
Definition press (key : ascii) (n : nat) : list Event := Key key :: replicate n Tick.

(** The state of a run that ends well ([d] otherwise). *)
Definition stateOf (r : Res State) (d : State) : State :=
  match r with
  | Ok s => s
  | Stop _ => d
  end.

(** The program started with no high-score file, in a writable directory. *)
Definition started : State := programStart FileMissing true.

(** A [rand()] that counts: 0, 1, 2, ... *)
Definition rndCount (n : nat) : Z := Z.of_nat n.

(** ** The first pellet *)

(** Space starts the session, [d] heads right; the avatar enters cell
    (1,2) on the tenth tick. *)
Definition firstPelletEvents : list Event := press " " 0 ++ press "d" 9.

Definition firstPelletBefore : State :=
  Eval vm_compute in stateOf (run rndCount firstPelletEvents started) started.

Definition firstPelletAfter : State :=
  Eval vm_compute in stateOf (updateGame rndCount firstPelletBefore) started.

(** ** The first ticks of a session *)

Definition firstTick : State :=
  Eval vm_compute in stateOf (run rndCount (press " " 0) started) started.

Definition secondTick : State :=
  Eval vm_compute in stateOf (updateGame rndCount firstTick) started.

Definition thirdTick : State :=
  Eval vm_compute in stateOf (updateGame rndCount secondTick) started.

(** ** Freeze *)

(** The values [rand()] yields in the sessions below: they send the Random
    pursuer to (19,10) for its first 17 ticks, to (10,9) for the rest of its
    first two redraw periods, and to (19,10) from then on. *)
Definition rndPlan (n : nat) : Z :=
  if (n <? 34)%nat then (if Nat.even n then 19 else 10)
  else if (n <? 250)%nat then (if Nat.even n then 10 else 9)
  else (if Nat.even n then 19 else 10).

(** The avatar runs along the bottom row, climbs to the Freeze marker of
    cell (3,16), and walks back down into the pursuer that waits at (18,1). *)
Definition freezeEvents : list Event :=
  press " " 0 ++ press "d" 150 ++ press "w" 21 ++ press "d" 14 ++ press "s" 15.

Definition frozenBefore : State :=
  Eval vm_compute in stateOf (run rndPlan freezeEvents started) started.

Definition frozenAfter : State :=
  Eval vm_compute in stateOf (updateGame rndPlan frozenBefore) started.

(** ** A session played to the last pellet *)

(** A [rand()] that always yields 10. *)
Definition rndTen (n : nat) : Z := 10.

(** A whole session, key by key. The avatar is captured on ticks 197 and
    1284, clears the board down to the pellet of cell (6,18), and after
    2762 ticks stands right above that cell, heading down, with one life
    left and the first pursuer next to it. *)
Definition lastPelletEvents : list Event :=
  press " " 0 ++ press "d" 10 ++ press "w" 5 ++ press "d" 10 ++ press "w" 5 ++
  press "d" 5 ++ press "s" 5 ++ press "d" 10 ++ press "w" 5 ++ press "d" 10 ++
  press "s" 5 ++ press "d" 10 ++ press "w" 5 ++ press "d" 10 ++ press "s" 5 ++
  press "d" 25 ++ press "w" 5 ++ press "a" 10 ++ press "w" 15 ++
  press "d" 10 ++ press "w" 10 ++ press "a" 10 ++ press "w" 10 ++
  press "d" 5 ++ press "w" 25 ++ press "d" 10 ++ press "w" 10 ++ press "a" 5 ++
  press "w" 10 ++ press "d" 5 ++ press "w" 10 ++ press "a" 5 ++ press "w" 10 ++
  press "d" 5 ++ press "w" 10 ++ press "a" 5 ++ press "w" 10 ++ press "d" 5 ++
  press "w" 5 ++ press "a" 5 ++ press "w" 10 ++ press "d" 25 ++ press "s" 5 ++
  press "a" 5 ++ press "s" 10 ++ press "d" 5 ++ press "s" 5 ++ press "a" 5 ++
  press "s" 20 ++ press "d" 5 ++ press "w" 5 ++ press "d" 15 ++ press "s" 5 ++
  press "d" 10 ++ press "w" 5 ++ press "d" 5 ++ press "s" 5 ++ press "d" 10 ++
  press "w" 5 ++ press "d" 10 ++ press "s" 5 ++ press "d" 10 ++ press "w" 5 ++
  press "d" 10 ++ press "s" 5 ++ press "d" 10 ++ press "w" 5 ++ press "d" 10 ++
  press "s" 5 ++ press "d" 10 ++ press "w" 15 ++ press "a" 5 ++ press "w" 15 ++
  press "d" 5 ++ press "s" 5 ++ press "d" 10 ++ press "w" 5 ++ press "d" 10 ++
  press "s" 10 ++ press "a" 5 ++ press "s" 10 ++ press "d" 25 ++ press "w" 5 ++
  press "a" 5 ++ press "w" 10 ++ press "d" 5 ++ press "w" 5 ++ press "a" 5 ++
  press "w" 10 ++ press "d" 5 ++ press "w" 10 ++ press "a" 5 ++ press "w" 10 ++
  press "d" 5 ++ press "w" 10 ++ press "a" 15 ++ press "s" 5 ++ press "a" 20 ++
  press "w" 5 ++ press "d" 5 ++ press "w" 10 ++ press "a" 5 ++ press "w" 10 ++
  press "d" 5 ++ press "w" 10 ++ press "a" 15 ++ press "s" 5 ++ press "a" 10 ++
  press "w" 5 ++ press "a" 10 ++ press "s" 5 ++ press "a" 10 ++ press "w" 5 ++
  press "a" 10 ++ press "s" 5 ++ press "a" 10 ++ press "w" 5 ++ press "a" 10 ++
  press "s" 5 ++ press "a" 10 ++ press "w" 5 ++ press "a" 10 ++ press "s" 5 ++
  press "a" 10 ++ press "w" 5 ++ press "a" 10 ++ press "s" 10 ++
  press "d" 15 ++ press "s" 5 ++ press "a" 15 ++ press "s" 15 ++ press "d" 5 ++
  press "w" 5 ++ press "d" 10 ++ press "s" 5 ++ press "a" 5 ++ press "s" 5 ++
  press "d" 15 ++ press "w" 15 ++ press "d" 5 ++ press "s" 15 ++ press "d" 5 ++
  press "w" 15 ++ press "d" 15 ++ press "s" 5 ++ press "d" 5 ++ press "w" 5 ++
  press "d" 10 ++ press "s" 10 ++ press "d" 10 ++ press "s" 5 ++
  press "a" 10 ++ press "d" 10 ++ press "w" 10 ++ press "d" 5 ++
  press "w" 10 ++ press "d" 5 ++ press "s" 5 ++ press "d" 20 ++ press "w" 5 ++
  press "a" 10 ++ press "w" 10 ++ press "d" 45 ++ press "s" 5 ++ press "a" 5 ++
  press "s" 20 ++ press "d" 15 ++ press "w" 5 ++ press "a" 5 ++ press "w" 5 ++
  press "d" 5 ++ press "w" 5 ++ press "d" 5 ++ press "s" 15 ++ press "d" 5 ++
  press "w" 5 ++ press "d" 10 ++ press "s" 5 ++ press "d" 5 ++ press "w" 5 ++
  press "d" 5 ++ press "w" 5 ++ press "a" 5 ++ press "w" 5 ++ press "d" 5 ++
  press "w" 10 ++ press "a" 5 ++ press "w" 5 ++ press "a" 10 ++ press "s" 20 ++
  press "d" 5 ++ press "w" 15 ++ press "a" 20 ++ press "w" 20 ++ press "a" 5 ++
  press "w" 5 ++ press "a" 10 ++ press "s" 10 ++ press "a" 10 ++
  press "w" 10 ++ press "a" 10 ++ press "s" 5 ++ press "a" 20 ++ press "w" 5 ++
  press "d" 10 ++ press "w" 10 ++ press "a" 10 ++ press "w" 5 ++ press "a" 5 ++
  press "w" 5 ++ press "a" 20 ++ press "w" 10 ++ press "d" 5 ++ press "w" 5 ++
  press "a" 5 ++ press "w" 5 ++ press "d" 5 ++ press "w" 10 ++ press "a" 5 ++
  press "w" 5 ++ press "d" 5 ++ press "w" 5 ++ press "d" 120 ++ press "s" 5 ++
  press "d" 10 ++ press "w" 5 ++ press "d" 10 ++ press "s" 25 ++ press "a" 5 ++
  press "w" 5 ++ press "a" 10 ++ press "s" 5 ++ press "a" 90 ++ press "d" 25 ++
  press "s" 20 ++ press "d" 10 ++ press "s" 20 ++ press "d" 10 ++
  press "w" 5 ++ press "d" 40 ++ press "s" 45 ++ press "a" 85 ++
  press "s" 10 ++ press "a" 30 ++ press "s" 10 ++ press "a" 10 ++
  press "d" 86 ++ press "w" 18 ++ press "d" 62 ++ press "a" 1 ++ press "d" 1 ++
  press "a" 1 ++ press "d" 1 ++ press "a" 1 ++ press "d" 1 ++ press "a" 1 ++
  press "d" 1 ++ press "a" 1 ++ press "d" 1 ++ press "a" 1 ++ press "d" 1 ++
  press "a" 1 ++ press "d" 1 ++ press "a" 1 ++ press "d" 1 ++ press "a" 1 ++
  press "d" 1 ++ press "a" 1 ++ press "d" 1 ++ press "a" 1 ++ press "d" 1 ++
  press "a" 1 ++ press "d" 1 ++ press "a" 1 ++ press "d" 1 ++ press "a" 1 ++
  press "d" 1 ++ press "a" 1 ++ press "d" 1 ++ press "a" 1 ++ press "d" 1 ++
  press "a" 1 ++ press "d" 1 ++ press "a" 1 ++ press "d" 1 ++ press "a" 1 ++
  press "d" 1 ++ press "a" 1 ++ press "d" 1 ++ press "a" 1 ++ press "d" 1 ++
  press "a" 1 ++ press "d" 1 ++ press "a" 1 ++ press "d" 1 ++ press "a" 1 ++
  press "d" 1 ++ press "a" 1 ++ press "d" 1 ++ press "a" 1 ++ press "d" 1 ++
  press "a" 1 ++ press "d" 1 ++ press "a" 1 ++ press "d" 1 ++ press "a" 1 ++
  press "d" 1 ++ press "a" 1 ++ press "d" 1 ++ press "a" 1 ++ press "d" 1 ++
  press "a" 1 ++ press "d" 1 ++ press "a" 1 ++ press "d" 1 ++ press "a" 1 ++
  press "d" 1 ++ press "a" 1 ++ press "d" 1 ++ press "a" 1 ++ press "d" 1 ++
  press "a" 1 ++ press "d" 1 ++ press "a" 1 ++ press "d" 1 ++ press "a" 1 ++
  press "d" 1 ++ press "a" 2 ++ press "s" 5 ++ press "a" 1 ++ press "s" 0.

Definition lastPelletBefore : State :=
  Eval vm_compute in stateOf (run rndTen lastPelletEvents started) started.

Definition lastPelletAfter : State :=
  Eval vm_compute in stateOf (updateGame rndTen lastPelletBefore) started.

(** ** A session lost *)

(** The avatar heads right and nothing else is pressed: it is captured on
    ticks 164, 328 and 492. The state below is the one after 491 ticks. *)
Definition lostEvents : list Event := press " " 0 ++ press "d" 491.

Definition lostBefore : State :=
  Eval vm_compute in stateOf (run rndCount lostEvents started) started.

Definition lostAfter : State :=
  Eval vm_compute in stateOf (updateGame rndCount lostBefore) started.

(** The same session of a program that cannot write [highscore.txt]. *)
Definition lockedStart : State := programStart FileMissing false.

Definition lockedBefore : State :=
  Eval vm_compute in stateOf (run rndCount lostEvents lockedStart) lockedStart.

Definition lockedAfter : State :=
  Eval vm_compute in stateOf (updateGame rndCount lockedBefore) lockedStart.

(** ** States for the theorems' instances *)

(** The tick before the avatar reaches the frozen pursuer. *)
Definition stillFrozenBefore : State :=
  Eval vm_compute in
    stateOf (run rndPlan (press " " 0 ++ press "d" 150 ++ press "w" 21 ++ press "d" 14)
               started) started.

Definition stillFrozenAfter : State :=
  Eval vm_compute in stateOf (updateGame rndPlan stillFrozenBefore) started.


(** A [rand()] that always yields 3. *)
Definition rndThree (n : nat) : Z := 3.

(** The avatar picks up the Invincibility marker of cell (3,3) and climbs
    the column into the pursuer that comes down from the top-left corner,
    which it meets on the 165th tick. *)
Definition invincibleEvents : list Event :=
  press " " 0 ++ press "w" 20 ++ press "d" 21 ++ press "w" 123.

Definition invincibleBefore : State :=
  Eval vm_compute in stateOf (run rndThree invincibleEvents started) started.

Definition invincibleAfter : State :=
  Eval vm_compute in stateOf (updateGame rndThree invincibleBefore) started.

(** The 165th tick, stopped before the collision loop. *)
Definition invincibleMeeting : State :=
  Eval vm_compute in
    stateOf (do s <- run rndThree invincibleEvents started; beforeCollisions rndThree s)
            started.

Definition pinkyMet : Ghost :=
  Eval vm_compute in default pinky (ghosts invincibleMeeting !! 1%nat).

(** Freeze is picked up on tick 171 and runs out on tick 483; the state
    below is the one after 482 ticks. *)
Definition expiryEvents : list Event :=
  press " " 0 ++ press "d" 150 ++ press "w" 21 ++ press "d" 311.

Definition beforeExpiry : State :=
  Eval vm_compute in stateOf (run rndPlan expiryEvents started) started.

(** ** A long wait *)

(** The avatar waits in its corner until the first pursuer is inside the
    open centre cell of the cross, runs along the bottom row, climbs
    column 13, waits against the cross, and parks against the right border
    in row 10. From there on the first and the last pursuer lean against
    the wall to the right of the centre cell, the second one against the
    cross, and the third one against the right border: nobody moves. *)
Definition parkEvents : list Event :=
  press " " 0 ++ press "a" 264 ++ press "d" 120 ++ press "w" 95 ++
  press "a" 152 ++ press "d" 70.

Definition parked : State :=
  Eval vm_compute in stateOf (run rndPlan parkEvents started) started.

(** 1199 more ticks take the session through its 30th second, in which
    every speed has grown by 0.06. *)
Definition rampTicks : nat := 1199.

Definition ramped : State :=
  Eval vm_compute in stateOf (fastTicks rndPlan rampTicks false parked) started.

(** The avatar then walks down into the third pursuer. *)
Definition slowedBefore : State :=
  Eval vm_compute in stateOf (run rndPlan (press "s" 3) ramped) started.

Definition slowedAfter : State :=
  Eval vm_compute in stateOf (updateGame rndPlan slowedBefore) started.

(** The parked session, left alone. After 29916 more ticks the session is
    in its 510th second and the third pursuer, still leaning against the
    right border in row 9, has reached a speed above 1. *)
Definition idleTicks : nat := Z.to_nat 29916.

Definition lastTick : State :=
  Eval vm_compute in stateOf (fastTicks rndPlan idleTicks false parked) started.

(** ** States for the invariants *)

(** The session right after the first pause. *)
Definition pausedOnce : State :=
  Eval vm_compute in stateOf (run rndCount (press " " 0 ++ [Key "p"]) started) started.

(** The first tick of the first session, stopped after the update of the
    Random pursuer alone. *)
Definition clydeMoved : State :=
  Eval vm_compute in stateOf (updateGhost rndCount 3 firstTick) started.

(** A session in which Freeze was picked up this very moment. *)
Definition freshEffect : State := set_powerUpTimer f5_0 (set_activePowerUp 1 firstTick).

(** * Properties *)

(** ** Results *)

Lemma bind_Ok {A B} (r : Res A) (k : A -> Res B) (b : B) :
  bind r k = Ok b -> exists a, r = Ok a /\ k a = Ok b.
Proof. destruct r as [a|f]; simpl; [eauto | discriminate]. Qed.

(** Splits a hypothesis [do x <- r; k = Ok b] into its two steps. *)
Ltac bind_inv H :=
  let a := fresh "m" in
  let Ha := fresh "Hm" in
  apply bind_Ok in H; destruct H as (a & Ha & H).

(** ** Pellets on the board *)

Lemma pelletCount_cons (row : list Z) (b : Board) :
  pelletCount (row :: b) = (rowCount row + pelletCount b)%nat.
Proof. unfold pelletCount, rowCount; simpl. by rewrite filter_app, length_app. Qed.

Lemma rowCount_cons (c : Z) (row : list Z) :
  rowCount (c :: row) = ((if decide (c = 1%Z) then 1 else 0) + rowCount row)%nat.
Proof. unfold rowCount. rewrite filter_cons. by destruct (decide (c = 1)). Qed.

Lemma rowCount_insert_le (row : list Z) (j : nat) (v : Z) :
  v <> 1 -> (rowCount (<[j := v]> row) <= rowCount row)%nat.
Proof.
  intros Hv. revert j. induction row as [|c row IH]; intros [|j]; simpl; try lia.
  - rewrite !rowCount_cons. destruct (decide (v = 1)); [done|].
    destruct (decide (c = 1)); lia.
  - rewrite !rowCount_cons. specialize (IH j). lia.
Qed.

Lemma rowCount_insert_pellet (row : list Z) (j : nat) (v : Z) :
  v <> 1 -> row !! j = Some 1 ->
  (rowCount (<[j := v]> row) + 1 = rowCount row)%nat.
Proof.
  intros Hv. revert j. induction row as [|c row IH]; intros [|j] Hj; simpl in *; try done.
  - injection Hj as ->. rewrite !rowCount_cons.
    destruct (decide (v = 1)); [done|]. destruct (decide (1 = 1)); [lia|done].
  - rewrite !rowCount_cons. specialize (IH j Hj). lia.
Qed.

Lemma alter_row_0 (f : list Z -> list Z) (row : list Z) (b : Board) :
  alter f 0%nat (row :: b) = f row :: b.
Proof. reflexivity. Qed.

Lemma alter_row_S (f : list Z -> list Z) (n : nat) (row : list Z) (b : Board) :
  alter f (S n) (row :: b) = row :: alter f n b.
Proof. reflexivity. Qed.

Lemma pelletCount_boardSet_le (b : Board) (i j v : Z) :
  v <> 1 -> (pelletCount (boardSet b i j v) <= pelletCount b)%nat.
Proof.
  intros Hv. unfold boardSet. generalize (Z.to_nat i) as n.
  induction b as [|row b IH]; intros [|n]; try (cbn; lia).
  - rewrite alter_row_0, !pelletCount_cons.
    pose proof (rowCount_insert_le row (Z.to_nat j) v Hv). lia.
  - rewrite alter_row_S, !pelletCount_cons. specialize (IH n). lia.
Qed.

Lemma boardGet_Ok (b : Board) (i j c : Z) :
  boardGet b i j = Ok c ->
  0 <= i < ROWS /\ 0 <= j < COLS /\
  exists row, b !! Z.to_nat i = Some row /\ row !! Z.to_nat j = Some c.
Proof.
  unfold boardGet. intros H.
  destruct ((0 <=? i) && (i <? ROWS) && (0 <=? j) && (j <? COLS)) eqn:E; [|discriminate].
  destruct (b !! Z.to_nat i) as [row|] eqn:Er; [|discriminate].
  destruct (row !! Z.to_nat j) as [c'|] eqn:Ec; [|discriminate].
  injection H as ->.
  repeat (apply andb_prop in E; destruct E as [E ?]).
  repeat split; try lia; eauto.
Qed.

Lemma pelletCount_boardSet_pellet (b : Board) (i j v : Z) :
  v <> 1 -> boardGet b i j = Ok 1 ->
  (pelletCount (boardSet b i j v) + 1 = pelletCount b)%nat.
Proof.
  intros Hv H. apply boardGet_Ok in H. destruct H as (_ & _ & row & Hr & Hc).
  unfold boardSet. revert Hr. generalize (Z.to_nat i) as n.
  induction b as [|r b IH]; intros [|n] Hr; try done.
  - injection Hr as ->. rewrite alter_row_0, !pelletCount_cons.
    pose proof (rowCount_insert_pellet row (Z.to_nat j) v Hv Hc). lia.
  - rewrite alter_row_S, !pelletCount_cons. specialize (IH n Hr). lia.
Qed.

Lemma wfBoard_boardSet (b : Board) (i j v : Z) :
  wfBoard b -> wfBoard (boardSet b i j v).
Proof.
  intros [Hl Hr]. unfold boardSet. split.
  - by rewrite length_alter.
  - apply Forall_alter; [done|]. intros row _ Hrow. by rewrite length_insert.
Qed.

(** ** What each phase of the step leaves alone *)

(** Case analysis of a hypothesis [H : e = Ok s'] along the binds,
    conditionals and matches of [e]. *)
Ltac res_cases H :=
  repeat match type of H with
  | bind _ _ = Ok _ => bind_inv H
  | Ok _ = Ok _ => injection H as H
  | Stop _ = Ok _ => discriminate H
  | (if ?c then _ else _) = Ok _ => destruct c eqn:?
  | (let '(_, _) := ?p in _) = Ok _ => destruct p
  | (match ?x with _ => _ end) = Ok _ => destruct x eqn:?
  end.

Lemma tickCounters_frame s :
  board (tickCounters s) = board s /\ ghosts (tickCounters s) = ghosts s /\
  lives (tickCounters s) = lives s /\ score (tickCounters s) = score s /\
  gameState (tickCounters s) = gameState s /\ pacman (tickCounters s) = pacman s /\
  totalPellets (tickCounters s) = totalPellets s /\
  activePowerUp (tickCounters s) = activePowerUp s /\
  powerUpTimer (tickCounters s) = powerUpTimer s /\
  highScore (tickCounters s) = highScore s /\ hsFile (tickCounters s) = hsFile s /\
  hsWritable (tickCounters s) = hsWritable s.
Proof.
  unfold tickCounters; simpl.
  destruct (Z.rem (frameCount s + 1) 60 =? 0); repeat split; reflexivity.
Qed.

Lemma movePacman_frame s s' :
  movePacman s = Ok s' ->
  board s' = board s /\ ghosts s' = ghosts s /\ lives s' = lives s /\
  score s' = score s /\ gameState s' = gameState s /\
  totalPellets s' = totalPellets s /\ gameTime s' = gameTime s /\
  activePowerUp s' = activePowerUp s /\ powerUpTimer s' = powerUpTimer s /\
  highScore s' = highScore s /\ hsFile s' = hsFile s /\ hsWritable s' = hsWritable s /\
  pspeed (pacman s') = pspeed (pacman s).
Proof.
  unfold movePacman. intros H. res_cases H. subst s'.
  destruct (negb (m =? 2)); repeat split; reflexivity.
Qed.

Lemma eatPellet_cases s s' :
  eatPellet s = Ok s' ->
  s' = s \/
  exists i j, boardGet (board s) i j = Ok 1 /\
              F32.to_int (py (pacman s)) = Ok i /\ F32.to_int (px (pacman s)) = Ok j /\
              s' = set_score (score s + 10) (set_board (boardSet (board s) i j 0) s).
Proof.
  unfold eatPellet. intros H. res_cases H. subst s'.
  destruct (m1 =? 1) eqn:E; [right|left; reflexivity].
  apply Z.eqb_eq in E. subst m1. eauto 10.
Qed.

Lemma eatPellet_frame s s' :
  eatPellet s = Ok s' ->
  pacman s' = pacman s /\ ghosts s' = ghosts s /\ lives s' = lives s /\
  gameState s' = gameState s /\
  totalPellets s' = totalPellets s /\ gameTime s' = gameTime s /\
  activePowerUp s' = activePowerUp s /\ powerUpTimer s' = powerUpTimer s /\
  highScore s' = highScore s /\ hsFile s' = hsFile s /\ hsWritable s' = hsWritable s.
Proof.
  intros H. apply eatPellet_cases in H.
  destruct H as [->|(i & j & _ & _ & _ & ->)]; repeat split; reflexivity.
Qed.

Lemma activatePowerUp_frame i j k us s s' :
  activatePowerUp i j k us s = Ok s' ->
  board s' = board s /\ ghosts s' = ghosts s /\ lives s' = lives s /\
  gameState s' = gameState s /\
  totalPellets s' = totalPellets s /\ gameTime s' = gameTime s /\
  highScore s' = highScore s /\ hsFile s' = hsFile s /\ hsWritable s' = hsWritable s /\
  px (pacman s') = px (pacman s) /\ py (pacman s') = py (pacman s).
Proof.
  revert k. induction us as [|u us IH]; intros k H; simpl in H.
  - injection H as <-. repeat split; reflexivity.
  - res_cases H; eauto. subst s'.
    match goal with |- context [if ?c then _ else _] => destruct c end;
      repeat split; reflexivity.
Qed.

Lemma collectPowerUp_frame s s' :
  collectPowerUp s = Ok s' ->
  (pelletCount (board s') <= pelletCount (board s))%nat /\
  (wfBoard (board s) -> wfBoard (board s')) /\
  ghosts s' = ghosts s /\ lives s' = lives s /\
  gameState s' = gameState s /\
  totalPellets s' = totalPellets s /\ gameTime s' = gameTime s /\
  highScore s' = highScore s /\ hsFile s' = hsFile s /\ hsWritable s' = hsWritable s /\
  px (pacman s') = px (pacman s) /\ py (pacman s') = py (pacman s).
Proof.
  unfold collectPowerUp. intros H. res_cases H.
  - apply activatePowerUp_frame in H. simpl in H.
    destruct H as (Hb & H). rewrite Hb. split; [|split]; [| |exact H].
    + by apply pelletCount_boardSet_le.
    + apply wfBoard_boardSet.
  - subst s'. split; [lia|]. split; [tauto|]. repeat split; reflexivity.
Qed.

Lemma powerUpTick_frame s :
  board (powerUpTick s) = board s /\ ghosts (powerUpTick s) = ghosts s /\
  lives (powerUpTick s) = lives s /\ score (powerUpTick s) = score s /\
  gameState (powerUpTick s) = gameState s /\
  totalPellets (powerUpTick s) = totalPellets s /\ gameTime (powerUpTick s) = gameTime s /\
  highScore (powerUpTick s) = highScore s /\ hsFile (powerUpTick s) = hsFile s /\
  hsWritable (powerUpTick s) = hsWritable s /\
  px (pacman (powerUpTick s)) = px (pacman s) /\ py (pacman (powerUpTick s)) = py (pacman s).
Proof.
  unfold powerUpTick. destruct (F32.ltb fzero (powerUpTimer s)); simpl.
  - destruct (F32.leb _ fzero); repeat split; reflexivity.
  - repeat split; reflexivity.
Qed.

Lemma ghostAim_Some rnd i s s1 g tx ty :
  ghostAim rnd i s = Ok (Some (s1, g, tx, ty)) ->
  activePowerUp s <> 1 /\
  exists g_i g0 calls,
    ghosts s !! i = Some g_i /\ g = advanceGhost (gameTime s) g_i /\
    (<[i := g]> (ghosts s)) !! 0%nat = Some g0 /\
    ghostTarget rnd (randCalls s) (pacman s) g0 g = Ok (tx, ty, calls) /\
    s1 = set_randCalls calls (set_ghosts (<[i := g]> (ghosts s)) s).
Proof.
  unfold ghostAim. intros H.
  destruct (activePowerUp s =? 1) eqn:Ea; [discriminate|]. apply Z.eqb_neq in Ea.
  split; [done|].
  destruct (ghosts s !! i) as [g_i|]; [|discriminate]. simpl in H.
  destruct (_ !! 0%nat) as [g0|] eqn:E0; [|discriminate].
  bind_inv H. destruct m as [[x y] c]. injection H as <- <- <- <-.
  exists g_i, g0, c. by repeat split.
Qed.

Lemma updateGhost_frame rnd i s s' :
  updateGhost rnd i s = Ok s' ->
  board s' = board s /\ pacman s' = pacman s /\ lives s' = lives s /\
  score s' = score s /\ gameState s' = gameState s /\
  totalPellets s' = totalPellets s /\ gameTime s' = gameTime s /\
  activePowerUp s' = activePowerUp s /\ powerUpTimer s' = powerUpTimer s /\
  highScore s' = highScore s /\ hsFile s' = hsFile s /\ hsWritable s' = hsWritable s /\
  length (ghosts s') = length (ghosts s).
Proof.
  unfold updateGhost. intros H. bind_inv H. destruct m as [[[[s1 g] tx] ty]|].
  - apply ghostAim_Some in Hm. destruct Hm as (_ & g_i & g0 & c & _ & _ & _ & _ & ->).
    bind_inv H. injection H as <-. simpl.
    rewrite !length_insert. repeat split; reflexivity.
  - injection H as <-. repeat split; reflexivity.
Qed.

Lemma moveGhostsFrom_frame rnd n i s s' :
  moveGhostsFrom rnd n i s = Ok s' ->
  board s' = board s /\ pacman s' = pacman s /\ lives s' = lives s /\
  score s' = score s /\ gameState s' = gameState s /\
  totalPellets s' = totalPellets s /\ gameTime s' = gameTime s /\
  activePowerUp s' = activePowerUp s /\ powerUpTimer s' = powerUpTimer s /\
  highScore s' = highScore s /\ hsFile s' = hsFile s /\ hsWritable s' = hsWritable s /\
  length (ghosts s') = length (ghosts s).
Proof.
  revert i s. induction n as [|n IH]; intros i s H; simpl in H.
  - injection H as <-. repeat split; reflexivity.
  - bind_inv H. apply IH in H. apply updateGhost_frame in Hm.
    destruct H as (-> & -> & -> & -> & -> & -> & -> & -> & -> & -> & -> & -> & ->).
    exact Hm.
Qed.

(** ** The win condition is "no pellet left" *)

Lemma rowCount_0_iff (row : list Z) :
  rowCount row = 0%nat <-> forall j, row !! j <> Some 1.
Proof.
  induction row as [|c row IH].
  - split; [intros _ j; by destruct j | reflexivity].
  - rewrite rowCount_cons. split.
    + intros H [|j]; simpl.
      * destruct (decide (c = 1)); [lia | congruence].
      * apply IH. destruct (decide (c = 1)); lia.
    + intros H. destruct (decide (c = 1)) as [->|_].
      * by specialize (H 0%nat).
      * simpl. apply IH. intros j. apply (H (S j)).
Qed.

Lemma pelletCount_0_iff (b : Board) :
  pelletCount b = 0%nat <->
  forall i row, b !! i = Some row -> forall j, row !! j <> Some 1.
Proof.
  induction b as [|r b IH].
  - split; [intros _ i row Hi; by destruct i | reflexivity].
  - rewrite pelletCount_cons. split.
    + intros H [|i] row Hi; simpl in Hi.
      * injection Hi as <-. apply rowCount_0_iff. lia.
      * revert Hi. apply IH. lia.
    + intros H.
      assert (rowCount r = 0%nat) as -> by (apply rowCount_0_iff, (H 0%nat); reflexivity).
      simpl. apply IH. intros i row Hi. apply (H (S i)). exact Hi.
Qed.

Lemma In_zrange (n i : Z) : In i (zrange n) <-> 0 <= i < n.
Proof.
  unfold zrange. rewrite in_map_iff. split.
  - intros (k & <- & Hk). apply in_seq in Hk. lia.
  - intros Hi. exists (Z.to_nat i). split; [lia|]. apply in_seq. lia.
Qed.

Lemma allPelletsEaten_true_iff (s : State) :
  allPelletsEaten s = true <->
  forall i j, 0 <= i < ROWS -> 0 <= j < COLS -> boardGet (board s) i j <> Ok 1.
Proof.
  unfold allPelletsEaten. rewrite forallb_forall. split.
  - intros H i j Hi Hj. specialize (H i (proj2 (In_zrange _ _) Hi)).
    rewrite forallb_forall in H. specialize (H j (proj2 (In_zrange _ _) Hj)).
    destruct (boardGet (board s) i j) as [c|]; [|discriminate].
    intros [= ->]. discriminate.
  - intros H i Hi. apply forallb_forall. intros j Hj.
    apply In_zrange in Hi, Hj. specialize (H i j Hi Hj).
    destruct (boardGet (board s) i j) as [c|]; [|reflexivity].
    destruct (c =? 1) eqn:E; [|reflexivity].
    apply Z.eqb_eq in E. congruence.
Qed.

Lemma boardGet_wf (b : Board) (i j : Z) :
  wfBoard b -> 0 <= i < ROWS -> 0 <= j < COLS ->
  exists row c, b !! Z.to_nat i = Some row /\ row !! Z.to_nat j = Some c /\
                boardGet b i j = Ok c.
Proof.
  intros [Hl Hr] Hi Hj.
  destruct (lookup_lt_is_Some_2 b (Z.to_nat i)) as [row Hrow]; [lia|].
  assert (length row = Z.to_nat COLS) as Hlen
    by (eapply (proj1 (Forall_lookup _ _) Hr); eauto).
  destruct (lookup_lt_is_Some_2 row (Z.to_nat j)) as [c Hc]; [lia|].
  exists row, c. repeat split; try done.
  unfold boardGet. rewrite Hrow, Hc.
  replace ((0 <=? i) && (i <? ROWS) && (0 <=? j) && (j <? COLS)) with true; [done|].
  symmetry. rewrite !andb_true_iff. lia.
Qed.

Lemma allPelletsEaten_spec (s : State) :
  wfBoard (board s) ->
  (allPelletsEaten s = true <-> pelletCount (board s) = 0%nat).
Proof.
  intros Hwf. rewrite allPelletsEaten_true_iff, pelletCount_0_iff. split.
  - intros H i row Hi j Hj.
    pose proof Hwf as [Hl Hr].
    pose proof (lookup_lt_Some _ _ _ Hi) as Hi'.
    pose proof (proj1 (Forall_lookup _ _) Hr _ _ Hi) as Hlen. simpl in Hlen.
    pose proof (lookup_lt_Some _ _ _ Hj) as Hj'.
    apply (H (Z.of_nat i) (Z.of_nat j)); [unfold ROWS in *; lia | unfold COLS in *; lia |].
    unfold boardGet. rewrite !Nat2Z.id, Hi, Hj.
    replace ((0 <=? Z.of_nat i) && (Z.of_nat i <? ROWS) &&
             (0 <=? Z.of_nat j) && (Z.of_nat j <? COLS)) with true; [done|].
    symmetry. rewrite !andb_true_iff. unfold ROWS, COLS in *. lia.
  - intros H i j Hi Hj Hget.
    apply boardGet_Ok in Hget. destruct Hget as (_ & _ & row & Hrow & Hc).
    exact (H _ _ Hrow _ Hc).
Qed.

(** ** Collisions and the win check *)

Lemma saveHighScore_frame s :
  gameState (saveHighScore s) = gameState s /\ board (saveHighScore s) = board s /\
  lives (saveHighScore s) = lives s /\ score (saveHighScore s) = score s /\
  ghosts (saveHighScore s) = ghosts s /\ pacman (saveHighScore s) = pacman s /\
  totalPellets (saveHighScore s) = totalPellets s /\ gameTime (saveHighScore s) = gameTime s /\
  activePowerUp (saveHighScore s) = activePowerUp s /\
  powerUpTimer (saveHighScore s) = powerUpTimer s /\
  hsWritable (saveHighScore s) = hsWritable s.
Proof.
  unfold saveHighScore. destruct (score s >? highScore s); simpl.
  - destruct (hsWritable s) eqn:E; repeat split; solve [reflexivity | exact E].
  - repeat split; reflexivity.
Qed.

Lemma collideGhost_cases i s :
  collideGhost i s = s \/
  (exists g, ghosts s !! i = Some g /\ captured (pacman s) g = true /\
             activePowerUp s = 0 /\ collideGhost i s = eatGhost i g s) \/
  (exists g, ghosts s !! i = Some g /\ captured (pacman s) g = true /\
             activePowerUp s <> 0 /\ collideGhost i s = loseLife s).
Proof.
  unfold collideGhost. destruct (ghosts s !! i) as [g|]; [|by left].
  destruct (captured (pacman s) g) eqn:Ec; [|by left].
  destruct (activePowerUp s =? 0) eqn:Ea.
  - apply Z.eqb_eq in Ea. right; left. exists g. by repeat split.
  - apply Z.eqb_neq in Ea. right; right. exists g. by repeat split.
Qed.

Lemma loseLife_frame s :
  board (loseLife s) = board s /\ totalPellets (loseLife s) = totalPellets s /\
  gameTime (loseLife s) = gameTime s /\ activePowerUp (loseLife s) = activePowerUp s /\
  powerUpTimer (loseLife s) = powerUpTimer s /\ hsWritable (loseLife s) = hsWritable s /\
  score (loseLife s) = score s /\
  lives (loseLife s) = lives s - 1 /\
  ghosts (loseLife s) = [blinky; pinky; inky; clyde] /\
  pacman (loseLife s) = pac_set_pos (F32.of_int 1) (F32.of_int 1) (pacman s) /\
  gameState (loseLife s) = (if lives s - 1 <=? 0 then GAMEOVER else gameState s).
Proof.
  unfold loseLife; simpl. destruct (lives s - 1 <=? 0).
  - pose proof (saveHighScore_frame
      (set_gameState GAMEOVER (initGhosts
        (set_pacman (pac_set_pos (F32.of_int 1) (F32.of_int 1) (pacman s))
          (set_lives (lives s - 1) s))))) as H.
    simpl in H. destruct H as (-> & -> & -> & -> & -> & -> & -> & -> & -> & -> & ->).
    repeat split; reflexivity.
  - repeat split; reflexivity.
Qed.

Lemma collideGhost_frame i s :
  board (collideGhost i s) = board s /\
  totalPellets (collideGhost i s) = totalPellets s /\
  gameTime (collideGhost i s) = gameTime s /\
  activePowerUp (collideGhost i s) = activePowerUp s /\
  hsWritable (collideGhost i s) = hsWritable s /\
  (gameState (collideGhost i s) = gameState s \/ gameState (collideGhost i s) = GAMEOVER).
Proof.
  destruct (collideGhost_cases i s) as [-> | [(g & _ & _ & _ & ->) | (g & _ & _ & _ & ->)]].
  - repeat split; auto.
  - repeat split; auto.
  - pose proof (loseLife_frame s) as (-> & -> & -> & -> & _ & -> & _ & _ & _ & _ & ->).
    repeat split. destruct (lives s - 1 <=? 0); auto.
Qed.

Lemma collideFrom_frame fuel i s :
  board (collideFrom fuel i s) = board s /\
  totalPellets (collideFrom fuel i s) = totalPellets s /\
  gameTime (collideFrom fuel i s) = gameTime s /\
  activePowerUp (collideFrom fuel i s) = activePowerUp s /\
  hsWritable (collideFrom fuel i s) = hsWritable s /\
  (gameState (collideFrom fuel i s) = gameState s \/ gameState (collideFrom fuel i s) = GAMEOVER).
Proof.
  revert i s. induction fuel as [|fuel IH]; intros i s; simpl.
  - repeat split; auto.
  - destruct (i <? length (ghosts s))%nat; [|repeat split; auto].
    destruct (IH (S i) (collideGhost i s)) as (-> & -> & -> & -> & -> & Hg).
    destruct (collideGhost_frame i s) as (-> & -> & -> & -> & -> & Hg').
    repeat split. destruct Hg as [-> | ->]; auto.
Qed.

Lemma winCheck_frame s :
  board (winCheck s) = board s /\ lives (winCheck s) = lives s /\
  score (winCheck s) = score s /\ ghosts (winCheck s) = ghosts s /\
  pacman (winCheck s) = pacman s /\ totalPellets (winCheck s) = totalPellets s /\
  gameTime (winCheck s) = gameTime s /\ activePowerUp (winCheck s) = activePowerUp s /\
  powerUpTimer (winCheck s) = powerUpTimer s /\
  gameState (winCheck s) = (if allPelletsEaten s then WIN else gameState s).
Proof.
  unfold winCheck. destruct (allPelletsEaten s); [|repeat split; reflexivity].
  pose proof (saveHighScore_frame (set_gameState WIN s)) as H. simpl in H.
  destruct H as (-> & -> & -> & -> & -> & -> & -> & -> & -> & -> & _).
  repeat split; reflexivity.
Qed.

Lemma allPelletsEaten_ext s s' :
  board s' = board s -> allPelletsEaten s' = allPelletsEaten s.
Proof. unfold allPelletsEaten. by intros ->. Qed.

(** The step up to the pursuers' moves: what it does to the board and what
    it leaves alone. *)
Lemma beforeGhosts_frame s s' :
  beforeGhosts s = Ok s' ->
  (pelletCount (board s') <= pelletCount (board s))%nat /\
  (wfBoard (board s) -> wfBoard (board s')) /\
  gameState s' = gameState s /\ lives s' = lives s /\
  totalPellets s' = totalPellets s /\
  highScore s' = highScore s /\ hsFile s' = hsFile s /\ hsWritable s' = hsWritable s /\
  ghosts s' = ghosts s.
Proof.
  unfold beforeGhosts. intros H. res_cases H. subst s'.
  apply movePacman_frame in Hm. apply eatPellet_cases in Hm0 as Heat.
  apply eatPellet_frame in Hm0. apply collectPowerUp_frame in Hm1.
  pose proof (powerUpTick_frame m1) as Hp.
  destruct Hp as (-> & -> & -> & _ & -> & -> & _ & -> & -> & -> & _).
  destruct Hm1 as (Hle1 & Hwf1 & -> & -> & -> & -> & _ & -> & -> & -> & _).
  destruct Hm0 as (_ & -> & -> & -> & -> & _ & _ & _ & -> & -> & ->).
  destruct Hm as (Hb & -> & -> & _ & -> & -> & _ & _ & _ & -> & -> & -> & _).
  destruct (tickCounters_frame s) as (Hb0 & Hgh & Hl & _ & Hg & _ & Ht & _ & _ & Hh & Hf & Hw).
  rewrite Hb0 in Hb. rewrite Hl, Hg, Ht, Hh, Hf, Hw, Hgh.
  split; [|split; [|repeat split; reflexivity]].
  - etrans; [exact Hle1|].
    destruct Heat as [-> | (i & j & _ & _ & _ & ->)]; simpl; rewrite Hb.
    + lia.
    + by apply pelletCount_boardSet_le.
  - intros Hwf. apply Hwf1.
    destruct Heat as [-> | (i & j & _ & _ & _ & ->)]; simpl; rewrite Hb.
    + exact Hwf.
    + by apply wfBoard_boardSet.
Qed.

Lemma beforeCollisions_frame rnd s s' :
  beforeCollisions rnd s = Ok s' ->
  (pelletCount (board s') <= pelletCount (board s))%nat /\
  (wfBoard (board s) -> wfBoard (board s')) /\
  gameState s' = gameState s /\ lives s' = lives s /\
  totalPellets s' = totalPellets s /\
  highScore s' = highScore s /\ hsFile s' = hsFile s /\ hsWritable s' = hsWritable s.
Proof.
  unfold beforeCollisions. intros H. bind_inv H.
  apply beforeGhosts_frame in Hm. apply moveGhostsFrom_frame in H.
  destruct H as (-> & _ & -> & _ & -> & -> & _ & _ & _ & -> & -> & -> & _).
  destruct Hm as (? & ? & -> & -> & -> & -> & -> & -> & _). done.
Qed.

(** ** Keys other than the space bar stay within the session *)

Lemma keyboard_frame key s s' :
  key <> " "%char -> keyboard key s = Ok s' ->
  board s' = board s /\ totalPellets s' = totalPellets s /\
  lives s' = lives s /\ score s' = score s /\ ghosts s' = ghosts s /\
  highScore s' = highScore s /\ hsFile s' = hsFile s /\ hsWritable s' = hsWritable s /\
  (gameState s' = WIN -> gameState s = WIN) /\
  (gameState s' = GAMEOVER -> gameState s = GAMEOVER).
Proof.
  intros Hk H. unfold keyboard, is_key in H.
  destruct (Ascii.eqb key (ascii_of_nat 27)); [discriminate|].
  destruct (Ascii.eqb key " ") eqn:Esp; [by apply Ascii.eqb_eq in Esp|].
  res_cases H; subst s';
    repeat match goal with
           | |- context [if ?c then _ else _] => destruct c eqn:?
           end;
    simpl; repeat split; try reflexivity; try discriminate;
    intros E;
    repeat match goal with
           | H : bool_decide _ = true |- _ => apply bool_decide_eq_true in H
           | H : bool_decide _ = false |- _ => apply bool_decide_eq_false in H
           | H : negb _ = true |- _ => apply negb_true_iff in H
           | H : negb _ = false |- _ => apply negb_false_iff in H
           | H : _ && _ = true |- _ => apply andb_prop in H; destruct H
           end; congruence.
Qed.

Lemma updateGame_idle rnd s : gameState s <> PLAYING -> updateGame rnd s = Ok s.
Proof.
  intros H. unfold updateGame.
  by rewrite (bool_decide_eq_false_2 _ H).
Qed.

Lemma updateGame_playing rnd s s' :
  gameState s = PLAYING -> updateGame rnd s = Ok s' ->
  exists m, beforeCollisions rnd s = Ok m /\ s' = winCheck (collisions m).
Proof.
  intros Hp H. unfold updateGame in H.
  rewrite (bool_decide_eq_true_2 _ Hp) in H. simpl in H.
  bind_inv H. injection H as <-. eauto.
Qed.

Lemma updateGame_board rnd s s' :
  wfBoard (board s) -> updateGame rnd s = Ok s' ->
  (pelletCount (board s') <= pelletCount (board s))%nat /\ wfBoard (board s').
Proof.
  intros Hwf H. destruct (decide (gameState s = PLAYING)) as [Hp|Hp].
  - destruct (updateGame_playing _ _ _ Hp H) as (m & Hm & ->).
    apply beforeCollisions_frame in Hm. destruct Hm as (Hle & Hwf' & _).
    destruct (winCheck_frame (collisions m)) as (-> & _).
    unfold collisions. destruct (collideFrom_frame (Nat.max (length (ghosts m)) 4) 0 m) as (-> & _).
    auto.
  - rewrite (updateGame_idle _ _ Hp) in H. injection H as <-. auto.
Qed.

Lemma run_board rnd es s s' :
  wfBoard (board s) -> Forall (fun e => e <> Key " ") es -> run rnd es s = Ok s' ->
  (pelletCount (board s') <= pelletCount (board s))%nat /\ wfBoard (board s').
Proof.
  intros Hwf Hes. revert s Hwf. induction Hes as [|e es He _ IH]; intros s Hwf H; simpl in H.
  - injection H as <-. auto.
  - bind_inv H. destruct e as [key|]; simpl in Hm.
    + assert (key <> " "%char) as Hk by congruence.
      destruct (keyboard_frame _ _ _ Hk Hm) as (Hb & _).
      rewrite <- Hb in *. by apply IH.
    + destruct (updateGame_board _ _ _ Hwf Hm) as (Hle & Hwf').
      destruct (IH _ Hwf' H) as (Hle' & ?). split; [lia|done].
Qed.

(** C1. Within a session the number of pellet cells never grows, over key
    presses and ticks alike, and a tick of a session in progress ends in
    [WIN] exactly when no pellet cell is left at its end; a tick outside a
    session in progress changes nothing. *)
Theorem pellets_monotone_win_at_zero rnd es s s1 s2 :
  wfBoard (board s) ->
  Forall (fun e => e <> Key " ") es ->
  run rnd es s = Ok s1 ->
  updateGame rnd s1 = Ok s2 ->
  (pelletCount (board s1) <= pelletCount (board s))%nat /\
  (pelletCount (board s2) <= pelletCount (board s1))%nat /\
  (gameState s1 = PLAYING -> (gameState s2 = WIN <-> pelletCount (board s2) = 0%nat)) /\
  (gameState s1 <> PLAYING -> s2 = s1).
Proof.
  intros Hwf Hes Hrun Htick.
  destruct (run_board _ _ _ _ Hwf Hes Hrun) as (Hle1 & Hwf1).
  destruct (updateGame_board _ _ _ Hwf1 Htick) as (Hle2 & Hwf2).
  repeat split; try done.
  - intros Hw. destruct (updateGame_playing _ _ _ H Htick) as (m & Hm & ->).
    destruct (winCheck_frame (collisions m)) as (Hb & _ & _ & _ & _ & _ & _ & _ & _ & Hg).
    rewrite Hg in Hw. rewrite Hb in *.
    apply allPelletsEaten_spec; [done|].
    destruct (allPelletsEaten (collisions m)) eqn:E; [done|].
    apply beforeCollisions_frame in Hm. destruct Hm as (_ & _ & Hgm & _).
    unfold collisions in Hw.
    destruct (collideFrom_frame (Nat.max (length (ghosts m)) 4) 0 m)
      as (_ & _ & _ & _ & _ & [Hc | Hc]); congruence.
  - intros Hz. destruct (updateGame_playing _ _ _ H Htick) as (m & Hm & ->).
    destruct (winCheck_frame (collisions m)) as (Hb & _ & _ & _ & _ & _ & _ & _ & _ & Hg).
    rewrite Hg. rewrite Hb in *.
    apply allPelletsEaten_spec in Hz; [|done]. by rewrite Hz.
  - intros Hn. rewrite (updateGame_idle _ _ Hn) in Htick. by injection Htick.
Qed.

(** ** Eating a pellet *)

Lemma boardGet_boardSet_same (b : Board) (i j c v : Z) :
  boardGet b i j = Ok c -> boardGet (boardSet b i j v) i j = Ok v.
Proof.
  intros H. pose proof H as H'. apply boardGet_Ok in H'.
  destruct H' as (Hi & Hj & row & Hrow & Hc).
  unfold boardGet in *.
  destruct ((0 <=? i) && (i <? ROWS) && (0 <=? j) && (j <? COLS)); [|discriminate].
  unfold boardSet. rewrite list_lookup_alter_eq, Hrow. simpl.
  rewrite list_lookup_insert_eq; [done|]. by eapply lookup_lt_Some.
Qed.

Lemma updateGame_totalPellets rnd s s' :
  updateGame rnd s = Ok s' -> totalPellets s' = totalPellets s.
Proof.
  intros H. destruct (decide (gameState s = PLAYING)) as [Hp|Hp].
  - destruct (updateGame_playing _ _ _ Hp H) as (m & Hm & ->).
    apply beforeCollisions_frame in Hm. destruct Hm as (_ & _ & _ & _ & <- & _).
    destruct (winCheck_frame (collisions m)) as (_ & _ & _ & _ & _ & -> & _).
    unfold collisions.
    by destruct (collideFrom_frame (Nat.max (length (ghosts m)) 4) 0 m) as (_ & -> & _).
  - rewrite (updateGame_idle _ _ Hp) in H. by injection H as <-.
Qed.

(** ** The collision loop *)

Lemma collideGhost_miss i s :
  (forall g, ghosts s !! i = Some g -> captured (pacman s) g = false) ->
  collideGhost i s = s.
Proof.
  intros H. unfold collideGhost. destruct (ghosts s !! i) as [g|]; [|done].
  by rewrite (H g eq_refl).
Qed.

Lemma collideFrom_none fuel i s :
  (forall k g, (i <= k)%nat -> ghosts s !! k = Some g -> captured (pacman s) g = false) ->
  collideFrom fuel i s = s.
Proof.
  revert i. induction fuel as [|fuel IH]; intros i H; simpl; [done|].
  destruct (i <? length (ghosts s))%nat; [|done].
  rewrite collideGhost_miss by (intros g; apply H; lia).
  apply IH. intros k g Hk. apply H. lia.
Qed.

(** After a reset no pursuer is near the avatar's start cell. *)
Lemma reset_positions_apart (p : Pacman) (k : nat) (g : Ghost) :
  px p = F32.of_int 1 -> py p = F32.of_int 1 ->
  [blinky; pinky; inky; clyde] !! k = Some g ->
  captured p g = false.
Proof.
  intros Hx Hy Hk. unfold captured. rewrite Hx, Hy.
  destruct k as [|[|[|[|k]]]]; simpl in Hk; try discriminate;
    injection Hk as <-; vm_compute; reflexivity.
Qed.

Lemma collideFrom_after_reset fuel i s :
  collideFrom fuel i (loseLife s) = loseLife s.
Proof.
  apply collideFrom_none. intros k g _.
  destruct (loseLife_frame s) as (_ & _ & _ & _ & _ & _ & _ & _ & -> & -> & _).
  by apply reset_positions_apart.
Qed.

Lemma collideFrom_lose fuel i k g s :
  activePowerUp s <> 0 ->
  ghosts s !! k = Some g -> captured (pacman s) g = true ->
  (forall j y, (i <= j < k)%nat -> ghosts s !! j = Some y -> captured (pacman s) y = false) ->
  (i <= k)%nat -> (k - i < fuel)%nat ->
  collideFrom fuel i s = loseLife s.
Proof.
  intros Ha Hk Hc. revert i. induction fuel as [|fuel IH]; intros i Hfirst Hik Hfuel; [lia|].
  simpl. pose proof (lookup_lt_Some _ _ _ Hk) as Hlen.
  replace (i <? length (ghosts s))%nat with true by (symmetry; apply Nat.ltb_lt; lia).
  destruct (decide (i = k)) as [->|Hne].
  - destruct (collideGhost_cases k s) as [E | [(g' & Hg' & _ & Ha' & _) | (g' & _ & _ & _ & ->)]].
    + unfold collideGhost in E. rewrite Hk, Hc in E.
      exfalso. apply Z.eqb_neq in Ha. rewrite Ha in E.
      destruct (loseLife_frame s) as (_ & _ & _ & _ & _ & _ & _ & Hl & _).
      fold (loseLife s) in E. rewrite E in Hl. lia.
    + done.
    + apply collideFrom_after_reset.
  - rewrite collideGhost_miss by (intros y; apply Hfirst; lia).
    apply IH; [|lia|lia]. intros j y Hj. apply Hfirst. lia.
Qed.

Lemma collideFrom_invincible fuel i s :
  activePowerUp s = 0 ->
  lives (collideFrom fuel i s) = lives s /\
  gameState (collideFrom fuel i s) = gameState s /\
  pacman (collideFrom fuel i s) = pacman s /\
  length (ghosts (collideFrom fuel i s)) = length (ghosts s) /\
  highScore (collideFrom fuel i s) = highScore s /\
  hsFile (collideFrom fuel i s) = hsFile s.
Proof.
  revert i s. induction fuel as [|fuel IH]; intros i s Ha; simpl; [done|].
  destruct (i <? length (ghosts s))%nat; [|done].
  destruct (collideGhost_cases i s) as [-> | [(g & _ & _ & _ & E) | (g & _ & _ & Hn & _)]].
  - by apply IH.
  - rewrite E. destruct (IH (S i) (eatGhost i g s) Ha) as (-> & -> & -> & -> & -> & ->).
    simpl. by rewrite length_insert.
  - done.
Qed.

(** The collision loop in one piece: nothing happens without a capture; the
    first capture without invincibility costs a life and ends the loop's
    effects. *)
Lemma collisions_cases s :
  (collisions s = s /\
   forall k g, ghosts s !! k = Some g -> captured (pacman s) g = false) \/
  (exists k g, ghosts s !! k = Some g /\ captured (pacman s) g = true /\
     (activePowerUp s <> 0 -> collisions s = loseLife s) /\
     (activePowerUp s = 0 -> lives (collisions s) = lives s)).
Proof.
  destruct (list_find (fun g => captured (pacman s) g = true) (ghosts s))
    as [[k g]|] eqn:E.
  - right. apply list_find_Some in E. destruct E as (Hk & Hc & Hfirst).
    exists k, g. repeat split; try done.
    + intros Ha. unfold collisions. eapply collideFrom_lose; eauto; try lia.
      * intros j y Hj Hy. specialize (Hfirst j y Hy). destruct (captured (pacman s) y); [|done].
        exfalso. apply Hfirst; [lia|done].
      * apply lookup_lt_Some in Hk. lia.
    + intros Ha. by apply collideFrom_invincible.
  - left. apply list_find_None in E. split.
    + apply collideFrom_none. intros k g _ Hk.
      pose proof (proj1 (Forall_lookup _ _) E _ _ Hk) as Hn. simpl in Hn.
      by destruct (captured (pacman s) g).
    + intros k g Hk.
      pose proof (proj1 (Forall_lookup _ _) E _ _ Hk) as Hn. simpl in Hn.
      by destruct (captured (pacman s) g).
Qed.

Lemma collideFrom_invincible_score fuel i s :
  activePowerUp s = 0 -> (length (ghosts s) <= i + fuel)%nat ->
  score (collideFrom fuel i s) =
  score s + 100 * Z.of_nat (length (filter (fun g => captured (pacman s) g = true)
                                           (drop i (ghosts s)))).
Proof.
  revert i s. induction fuel as [|fuel IH]; intros i s Ha Hlen; simpl.
  - rewrite drop_ge by lia. simpl. lia.
  - destruct (i <? length (ghosts s))%nat eqn:Ei.
    + apply Nat.ltb_lt in Ei.
      destruct (lookup_lt_is_Some_2 (ghosts s) i Ei) as [g Hg].
      rewrite (drop_S _ _ _ Hg).
      destruct (captured (pacman s) g) eqn:Ec.
      * assert (collideGhost i s = eatGhost i g s) as ->.
        { unfold collideGhost. rewrite Hg, Ec.
          by replace (activePowerUp s =? 0) with true by (symmetry; by apply Z.eqb_eq). }
        rewrite IH; [|done|simpl; rewrite length_insert; lia].
        simpl. rewrite drop_insert_lt by lia.
        rewrite filter_cons_True by done. simpl length. lia.
      * rewrite collideGhost_miss by (intros g'; rewrite Hg; by intros [= <-]).
        rewrite IH; [|done|lia]. by rewrite filter_cons_False by (by rewrite Ec).
    + apply Nat.ltb_ge in Ei. rewrite drop_ge by lia. simpl. lia.
Qed.

(** ** Losing a life *)

Lemma beforeCollisions_lives rnd s m :
  beforeCollisions rnd s = Ok m -> lives m = lives s.
Proof. intros H. by destruct (beforeCollisions_frame _ _ _ H) as (_ & _ & _ & -> & _). Qed.

(** C2, as the code has it. Lives go down in a tick only through a capture
    made while Invincibility is not the active effect, and then by exactly
    one: the avatar is sent to its start cell, the pursuers are reset, and
    when no life is left the outcome becomes [GAMEOVER] and the high score
    is saved. The rest of the collision loop changes nothing after that, but
    the win check still runs: when no pellet is left the outcome is
    overwritten with [WIN]; when a pellet is left, the state at the end of
    the tick is the one the capture produced. *)
Theorem life_lost_on_capture rnd s s' :
  gameState s = PLAYING ->
  updateGame rnd s = Ok s' ->
  lives s' < lives s ->
  exists m k g,
    beforeCollisions rnd s = Ok m /\ lives m = lives s /\
    ghosts m !! k = Some g /\ captured (pacman m) g = true /\
    activePowerUp m <> 0 /\
    collisions m = loseLife m /\ s' = winCheck (loseLife m) /\
    lives s' = lives s - 1 /\
    (lives s' <= 0 ->
       gameState (loseLife m) = GAMEOVER /\
       gameState s' = (if allPelletsEaten m then WIN else GAMEOVER) /\
       (allPelletsEaten m = false -> s' = loseLife m)).
Proof.
  intros Hp H Hlt. destruct (updateGame_playing _ _ _ Hp H) as (m & Hm & ->).
  pose proof (beforeCollisions_lives _ _ _ Hm) as Hl.
  destruct (winCheck_frame (collisions m)) as (_ & Hwl & _).
  rewrite Hwl in Hlt.
  destruct (collisions_cases m) as [(E & _) | (k & g & Hk & Hc & Hlose & Hinv)].
  { rewrite E in Hlt. lia. }
  destruct (decide (activePowerUp m = 0)) as [Ha|Ha].
  { rewrite (Hinv Ha) in Hlt. lia. }
  specialize (Hlose Ha). rewrite Hlose in *.
  exists m, k, g. repeat split; try done.
  - destruct (winCheck_frame (loseLife m)) as (_ & -> & _).
    destruct (loseLife_frame m) as (_ & _ & _ & _ & _ & _ & _ & -> & _). lia.
  - destruct (loseLife_frame m) as (_ & _ & _ & _ & _ & _ & _ & Hll & _ & _ & ->).
    rewrite Hwl, Hll in H0.
    by replace (lives m - 1 <=? 0) with true by (symmetry; apply Z.leb_le; lia).
  - destruct (winCheck_frame (loseLife m)) as (_ & _ & _ & _ & _ & _ & _ & _ & _ & ->).
    destruct (loseLife_frame m) as (Hb & _ & _ & _ & _ & _ & _ & Hll & _ & _ & ->).
    rewrite (allPelletsEaten_ext m (loseLife m) Hb).
    rewrite Hwl, Hll in H0.
    by replace (lives m - 1 <=? 0) with true by (symmetry; apply Z.leb_le; lia).
  - intros He. unfold winCheck.
    destruct (loseLife_frame m) as (Hb & _).
    by rewrite (allPelletsEaten_ext m (loseLife m) Hb), He.
Qed.

(** ** Freeze *)

Lemma updateGhost_frozen rnd i s : activePowerUp s = 1 -> updateGhost rnd i s = Ok s.
Proof. intros H. unfold updateGhost, ghostAim. by rewrite H. Qed.

Lemma moveGhostsFrom_frozen rnd n i s :
  activePowerUp s = 1 -> moveGhostsFrom rnd n i s = Ok s.
Proof.
  revert i. induction n as [|n IH]; intros i H; simpl; [done|].
  rewrite updateGhost_frozen by done. simpl. by apply IH.
Qed.

Lemma beforeCollisions_frozen rnd s m :
  beforeCollisions rnd s = Ok m -> activePowerUp m = 1 -> ghosts m = ghosts s.
Proof.
  unfold beforeCollisions. intros H Ha. bind_inv H.
  pose proof (moveGhostsFrom_frame _ _ _ _ _ H) as (_ & _ & _ & _ & _ & _ & _ & Ha' & _).
  rewrite Ha in Ha'. unfold moveGhosts in H.
  rewrite moveGhostsFrom_frozen in H by done. injection H as <-.
  by destruct (beforeGhosts_frame _ _ Hm) as (_ & _ & _ & _ & _ & _ & _ & _ & ->).
Qed.

(** C3, as the code has it. When Freeze is the active effect at the moment
    the pursuers are updated, which is the effect the tick ends with, the
    update leaves every pursuer as it was, whatever [rand()] yields. The
    pursuers then change in that tick only if the avatar walks into one of
    them, which costs a life and resets them all: in a tick that ends with
    Freeze active and with the lives it started with, no pursuer changed. *)
Theorem frozen_pursuers_stay rnd s s' :
  gameState s = PLAYING ->
  updateGame rnd s = Ok s' ->
  activePowerUp s' = 1 ->
  lives s' = lives s ->
  ghosts s' = ghosts s.
Proof.
  intros Hp H Ha Hl. destruct (updateGame_playing _ _ _ Hp H) as (m & Hm & ->).
  destruct (winCheck_frame (collisions m)) as (_ & Hwl & _ & -> & _ & _ & _ & Hwa & _).
  rewrite Hwa in Ha. rewrite Hwl in Hl.
  unfold collisions in Ha.
  destruct (collideFrom_frame (Nat.max (length (ghosts m)) 4) 0 m) as (_ & _ & _ & Hca & _).
  rewrite Hca in Ha.
  pose proof (beforeCollisions_lives _ _ _ Hm) as Hlm.
  destruct (collisions_cases m) as [(E & _) | (k & g & Hk & Hc & Hlose & _)].
  - rewrite E. by eapply beforeCollisions_frozen.
  - exfalso. rewrite Hlose in Hl by lia.
    destruct (loseLife_frame m) as (_ & _ & _ & _ & _ & _ & _ & Hll & _). lia.
Qed.

(** ** Expiry of the active effect *)

Lemma leb_zero_not_gt (t : float) :
  F32.leb t fzero = true -> F32.ltb fzero t = false.
Proof.
  unfold F32.leb, F32.ltb, SFleb, SFltb, fzero.
  destruct t as [s|s| |s m e]; simpl; try done; by destruct s.
Qed.


(** ** High-score persistence *)

Lemma saveHighScore_spec s :
  highScore (saveHighScore s) = Z.max (highScore s) (score s) /\
  hsFile (saveHighScore s) =
    (if (score s >? highScore s) && hsWritable s then FileInt (score s) else hsFile s).
Proof.
  unfold saveHighScore. destruct (score s >? highScore s) eqn:E; simpl.
  - apply Z.gtb_lt in E. destruct (hsWritable s) eqn:Ew; simpl; split; try done; lia.
  - rewrite Z.gtb_ltb in E. apply Z.ltb_ge in E. split; [lia|done].
Qed.

Lemma resetGame_frame s :
  highScore (resetGame s) = highScore s /\ hsFile (resetGame s) = hsFile s /\
  hsWritable (resetGame s) = hsWritable s.
Proof. repeat split; reflexivity. Qed.

Lemma keyboard_store key s s' :
  keyboard key s = Ok s' ->
  highScore s' = highScore s /\ hsFile s' = hsFile s /\ hsWritable s' = hsWritable s.
Proof.
  destruct (Ascii.ascii_dec key " "%char) as [->|Hk].
  - simpl. intros [= <-]. destruct (bool_decide (gameState s = MENU)); repeat split; reflexivity.
  - intros H. by destruct (keyboard_frame _ _ _ Hk H) as (_ & _ & _ & _ & _ & -> & -> & -> & _).
Qed.

(** What a tick of a session in progress does to the store. *)
Lemma updateGame_store rnd s s' :
  gameState s = PLAYING ->
  updateGame rnd s = Ok s' ->
  hsWritable s' = hsWritable s /\
  ((gameState s' = GAMEOVER \/ gameState s' = WIN) /\
   highScore s' = Z.max (highScore s) (score s') /\
   hsFile s' = (if (score s' >? highScore s) && hsWritable s
                then FileInt (score s') else hsFile s)
   \/
   gameState s' = PLAYING /\ highScore s' = highScore s /\ hsFile s' = hsFile s).
Proof.
  intros Hp H. destruct (updateGame_playing _ _ _ Hp H) as (m & Hm & ->).
  destruct (beforeCollisions_frame _ _ _ Hm) as (_ & _ & Hg & _ & _ & Hh & Hf & Hw).
  rewrite <- Hh, <- Hf, <- Hw. rewrite Hp in Hg. clear Hm Hh Hf Hw H Hp.
  assert (forall c, hsWritable c = hsWritable m ->
            (gameState c = PLAYING /\ highScore c = highScore m /\ hsFile c = hsFile m) \/
            (gameState c = GAMEOVER /\ highScore c = Z.max (highScore m) (score c) /\
             hsFile c = (if (score c >? highScore m) && hsWritable m
                         then FileInt (score c) else hsFile m)) ->
            hsWritable (winCheck c) = hsWritable m /\
            ((gameState (winCheck c) = GAMEOVER \/ gameState (winCheck c) = WIN) /\
             highScore (winCheck c) = Z.max (highScore m) (score (winCheck c)) /\
             hsFile (winCheck c) =
               (if (score (winCheck c) >? highScore m) && hsWritable m
                then FileInt (score (winCheck c)) else hsFile m)
             \/
             gameState (winCheck c) = PLAYING /\ highScore (winCheck c) = highScore m /\
             hsFile (winCheck c) = hsFile m)) as Hwin.
  { intros c Hcw Hc. unfold winCheck. destruct (allPelletsEaten c).
    - destruct (saveHighScore_frame (set_gameState WIN c)) as (-> & _ & _ & -> & _ & _ & _ & _ & _ & _ & ->).
      destruct (saveHighScore_spec (set_gameState WIN c)) as (-> & ->). simpl.
      split; [done|]. left. split; [by right|].
      destruct Hc as [(_ & -> & ->) | (_ & -> & ->)]; rewrite ?Hcw.
      + done.
      + split; [lia|].
        destruct (score c >? highScore m) eqn:E1; simpl.
        * apply Z.gtb_lt in E1.
          replace (score c >? Z.max (highScore m) (score c)) with false
            by (symmetry; rewrite Z.gtb_ltb; apply Z.ltb_ge; lia).
          done.
        * rewrite Z.gtb_ltb in E1. apply Z.ltb_ge in E1.
          replace (score c >? Z.max (highScore m) (score c)) with false
            by (symmetry; rewrite Z.gtb_ltb; apply Z.ltb_ge; lia).
          done.
    - split; [done|]. destruct Hc as [Hc | Hc]; [by right | left].
      destruct Hc as (-> & -> & ->). split; [by left|done]. }
  destruct (collisions_cases m) as [(E & _) | (k & g & _ & _ & Hlose & _)].
  { rewrite E. apply Hwin; [done|]. by left. }
  destruct (decide (activePowerUp m = 0)) as [Ha|Ha].
  { unfold collisions.
    destruct (collideFrom_invincible (Nat.max (length (ghosts m)) 4) 0 m Ha)
      as (_ & Hcg & _ & _ & Hch & Hcf).
    destruct (collideFrom_frame (Nat.max (length (ghosts m)) 4) 0 m) as (_ & _ & _ & _ & Hcw & _).
    apply Hwin; [done|]. left. rewrite Hcg, Hch, Hcf. done. }
  rewrite (Hlose Ha).
  destruct (loseLife_frame m) as (_ & _ & _ & _ & _ & Hlw & Hls & _ & _ & _ & Hlg).
  apply Hwin; [done|].
  unfold loseLife in *. simpl in *. destruct (lives m - 1 <=? 0).
  - right. split; [done|].
    match goal with |- context [saveHighScore ?x] =>
      destruct (saveHighScore_spec x) as (-> & ->);
      destruct (saveHighScore_frame x) as (_ & _ & _ & -> & _) end.
    simpl. done.
  - left. simpl. rewrite Hg. done.
Qed.

Lemma programStart_store f w :
  highScore (programStart f w) = storedValue f /\
  hsFile (programStart f w) = f /\ hsWritable (programStart f w) = w.
Proof. by destruct f. Qed.

Lemma programStart_storeKept f w : storeKept f w (programStart f w).
Proof.
  destruct (programStart_store f w) as (Hh & Hf & Hw). unfold storeKept.
  rewrite Hh, Hf, Hw. split; [done|]. split; [lia|]. split; [done|]. by left.
Qed.

(** The store and the variable [highScore] along a run: without write
    access the store keeps its contents; with write access the variable
    holds what was read until the first save, and what the store holds from
    then on. *)
Lemma run_store_inv rnd f w es s s' :
  storeKept f w s -> run rnd es s = Ok s' -> storeKept f w s'.
Proof.
  revert s. induction es as [|e es IH]; intros s HK H; simpl in H.
  - by injection H as <-.
  - bind_inv H. apply (IH m); [|done]. clear IH H.
    destruct HK as (Hw & Hle & Hro & Hrw). destruct e as [key|]; simpl in Hm.
    + destruct (keyboard_store _ _ _ Hm) as (Eh & Ef & Ew).
      unfold storeKept. by rewrite Eh, Ef, Ew.
    + destruct (decide (gameState s = PLAYING)) as [Hp|Hp];
        [|rewrite (updateGame_idle _ _ Hp) in Hm; by injection Hm as <-].
      destruct (updateGame_store _ _ _ Hp Hm)
        as (Ew & [(_ & Eh & Ef) | (_ & Eh & Ef)]); unfold storeKept; rewrite Ew, Eh, Ef.
      * rewrite Hw. split; [done|]. split; [lia|]. split.
        -- intros ->. rewrite andb_false_r. by apply Hro.
        -- intros ->. rewrite andb_true_r. specialize (Hrw eq_refl).
           destruct (score m >? highScore s) eqn:E.
           ++ right. apply Z.gtb_lt in E. f_equal. lia.
           ++ rewrite Z.gtb_ltb in E. apply Z.ltb_ge in E.
              replace (Z.max (highScore s) (score m)) with (highScore s) by lia.
              exact Hrw.
      * done.
Qed.

(** C9, as the code has it. The best score is read when the program
    starts: it reads as 0 when the store is missing, empty or holds no
    numeral, and as the nearest [int] when the numeral is out of range;
    reading cannot fail. Until the first save the variable [highScore]
    holds what was read, afterwards what the store holds; without write
    access the store keeps its contents throughout. A tick that ends the
    session (outcome [GAMEOVER] or [WIN]) raises [highScore] to the final
    score when that is larger, and writes the final score to the store if
    and only if it exceeds [highScore] and the store can be written; a
    tick that does not end the session leaves both alone. *)
Theorem best_score_persistence rnd f w es s s' :
  run rnd es (programStart f w) = Ok s ->
  gameState s = PLAYING ->
  updateGame rnd s = Ok s' ->
  highScore (programStart f w) = storedValue f /\
  storedValue FileMissing = 0 /\ storedValue FileEmpty = 0 /\
  storedValue FileGarbage = 0 /\
  (forall n, storedValue (FileInt n) = Z.max F32.INT_MIN (Z.min n F32.INT_MAX)) /\
  storedValue f <= highScore s /\
  (w = false -> hsFile s = f) /\
  (w = true ->
     (hsFile s = f /\ highScore s = storedValue f) \/ hsFile s = FileInt (highScore s)) /\
  (gameState s' = GAMEOVER \/ gameState s' = WIN ->
     highScore s' = Z.max (highScore s) (score s') /\
     hsFile s' = (if (score s' >? highScore s) && w
                  then FileInt (score s') else hsFile s)) /\
  (gameState s' = PLAYING -> highScore s' = highScore s /\ hsFile s' = hsFile s).
Proof.
  intros Hrun Hp Htick.
  destruct (run_store_inv _ _ _ _ _ _ (programStart_storeKept f w) Hrun)
    as (Hw & Hle & Hro & Hrw).
  split; [apply programStart_store|].
  do 4 (split; [done|]). split; [done|]. split; [done|]. split; [done|].
  destruct (updateGame_store _ _ _ Hp Htick) as (_ & Hcase). rewrite Hw in Hcase. split.
  - intros Hterm. destruct Hcase as [(_ & Eh & Ef) | (Hpl & _)]; [done|].
    destruct Hterm as [E|E]; rewrite Hpl in E; discriminate E.
  - intros Hpl. destruct Hcase as [(Hterm & _) | (_ & Eh & Ef)]; [|done].
    destruct Hterm as [E|E]; rewrite Hpl in E; discriminate E.
Qed.

(** ** The Random pursuer's target *)


(** ** Pursuer speeds *)

Lemma advanceGhost_speed gt g :
  gspeed (advanceGhost gt g) = rampedSpeed gt (gspeed g) /\
  behavior (advanceGhost gt g) = behavior g /\
  gx (advanceGhost gt g) = gx g /\ gy (advanceGhost gt g) = gy g.
Proof.
  unfold advanceGhost, rampSpeed, rampedSpeed.
  by destruct ((Z.rem gt 30 =? 0) && (gt >? 0)).
Qed.

Lemma ghostMove_keeps b tx ty g g' :
  ghostMove b tx ty g = Ok g' ->
  gspeed g' = gspeed g /\ behavior g' = behavior g /\ specialTimer g' = specialTimer g.
Proof.
  unfold ghostMove. intros H. res_cases H; subst g'; try done.
  by destruct (negb (m =? 2)).
Qed.

Lemma updateGhost_speeds rnd i s s' :
  updateGhost rnd i s = Ok s' -> activePowerUp s <> 1 ->
  gspeed <$> ghosts s' =
  alter (rampedSpeed (gameTime s)) i (gspeed <$> ghosts s).
Proof.
  unfold updateGhost. intros H Ha. bind_inv H. destruct m as [[[[s1 g] tx] ty]|].
  - apply ghostAim_Some in Hm.
    destruct Hm as (_ & g_i & g0 & c & Hg & -> & _ & _ & ->).
    bind_inv H. injection H as <-. simpl.
    apply ghostMove_keeps in Hm. destruct Hm as (Hm & _).
    destruct (advanceGhost_speed (gameTime s) g_i) as (Hs & _).
    rewrite list_insert_insert_eq, list_fmap_insert, Hm, Hs.
    apply list_eq. intros k. destruct (decide (k = i)) as [->|Hk].
    + rewrite list_lookup_alter_eq, list_lookup_fmap, Hg. simpl.
      rewrite list_lookup_insert_eq; [done|].
      rewrite length_fmap. by eapply lookup_lt_Some.
    + by rewrite list_lookup_alter_ne, list_lookup_insert_ne.
  - injection H as <-. unfold ghostAim in Hm.
    apply Z.eqb_neq in Ha. rewrite Ha in Hm.
    destruct (ghosts s !! i) as [g|] eqn:Hg.
    + simpl in Hm. destruct (_ !! 0%nat) as [g0|] eqn:E0.
      * bind_inv Hm. by destruct m as [[x y] c].
      * exfalso. apply lookup_ge_None in E0. rewrite length_insert in E0.
        apply lookup_lt_Some in Hg. lia.
    + apply list_eq. intros k. destruct (decide (k = i)) as [->|Hk].
      * by rewrite list_lookup_alter_eq, list_lookup_fmap, Hg.
      * by rewrite list_lookup_alter_ne.
Qed.

Lemma moveGhostsFrom_speeds rnd n i s s' :
  moveGhostsFrom rnd n i s = Ok s' -> activePowerUp s <> 1 ->
  forall k, (gspeed <$> ghosts s') !! k =
            if decide (i <= k < i + n)%nat
            then rampedSpeed (gameTime s) <$> (gspeed <$> ghosts s) !! k
            else (gspeed <$> ghosts s) !! k.
Proof.
  revert i s. induction n as [|n IH]; intros i s H Ha k; simpl in H.
  - injection H as <-. destruct (decide _); [lia|done].
  - bind_inv H.
    destruct (updateGhost_frame _ _ _ _ Hm) as (_ & _ & _ & _ & _ & _ & Hgt & Hap & _).
    rewrite (IH (S i) m H) by congruence.
    rewrite (updateGhost_speeds _ _ _ _ Hm Ha), Hgt.
    destruct (decide (k = i)) as [->|Hk].
    + rewrite list_lookup_alter_eq.
      destruct (decide (S i <= i < S i + n)%nat); [lia|].
      destruct (decide (i <= i < i + S n)%nat); [done|lia].
    + rewrite list_lookup_alter_ne by done.
      destruct (decide (S i <= k < S i + n)%nat), (decide (i <= k < i + S n)%nat);
        try done; lia.
Qed.

Lemma moveGhosts_speeds rnd s s' :
  moveGhosts rnd s = Ok s' -> activePowerUp s <> 1 ->
  gspeed <$> ghosts s' = rampedSpeed (gameTime s) <$> (gspeed <$> ghosts s).
Proof.
  intros H Ha. apply list_eq. intros k.
  rewrite (moveGhostsFrom_speeds _ _ _ _ _ H Ha), !list_lookup_fmap.
  destruct (decide _) as [|Hn]; [done|].
  rewrite (lookup_ge_None_2 (ghosts s) k); [done|lia].
Qed.

Lemma beforeCollisions_speeds rnd s m :
  beforeCollisions rnd s = Ok m ->
  gspeed <$> ghosts m =
  (if activePowerUp m =? 1 then gspeed <$> ghosts s
   else rampedSpeed (gameTime m) <$> (gspeed <$> ghosts s)).
Proof.
  intros H. destruct (activePowerUp m =? 1) eqn:Ea.
  - apply Z.eqb_eq in Ea. by rewrite (beforeCollisions_frozen _ _ _ H Ea).
  - apply Z.eqb_neq in Ea. unfold beforeCollisions in H. bind_inv H.
    pose proof (moveGhostsFrom_frame _ _ _ _ _ H) as (_ & _ & _ & _ & _ & _ & Hgt & Ha' & _).
    rewrite Ha' in Ea. rewrite (moveGhosts_speeds _ _ _ H Ea), Hgt.
    by destruct (beforeGhosts_frame _ _ Hm) as (_ & _ & _ & _ & _ & _ & _ & _ & ->).
Qed.

Lemma collideFrom_invincible_speeds fuel i s :
  activePowerUp s = 0 ->
  gspeed <$> ghosts (collideFrom fuel i s) = gspeed <$> ghosts s.
Proof.
  revert i s. induction fuel as [|fuel IH]; intros i s Ha; simpl; [done|].
  destruct (i <? length (ghosts s))%nat; [|done].
  destruct (collideGhost_cases i s) as [-> | [(g & Hg & _ & _ & E) | (g & _ & _ & Hn & _)]].
  - by apply IH.
  - rewrite E, IH by done. simpl. rewrite list_fmap_insert. simpl.
    apply list_insert_id. by rewrite list_lookup_fmap, Hg.
  - done.
Qed.

(** C6, as the code has it. In a tick that costs no life, every pursuer's
    speed is changed by the same rule, whatever its behaviour: unchanged
    when Freeze is the active effect; otherwise 0.001 is added on each tick
    for which the session's whole seconds are a positive multiple of 30 (60
    ticks in a row, every 30 seconds), and nothing is added on the other
    ticks. A tick that costs a life puts the four pursuers back to their
    initial state, initial speeds included. *)
Theorem pursuer_speed_rule rnd s s' :
  gameState s = PLAYING ->
  updateGame rnd s = Ok s' ->
  (lives s' = lives s ->
     gspeed <$> ghosts s' =
     (if activePowerUp s' =? 1 then gspeed <$> ghosts s
      else rampedSpeed (gameTime s') <$> (gspeed <$> ghosts s))) /\
  (lives s' <> lives s ->
     lives s' = lives s - 1 /\ ghosts s' = [blinky; pinky; inky; clyde]).
Proof.
  intros Hp H. destruct (updateGame_playing _ _ _ Hp H) as (m & Hm & ->).
  pose proof (beforeCollisions_lives _ _ _ Hm) as Hlm.
  pose proof (beforeCollisions_speeds _ _ _ Hm) as Hsp.
  destruct (winCheck_frame (collisions m)) as (_ & -> & _ & -> & _ & _ & -> & -> & _).
  pose proof (collideFrom_frame (Nat.max (length (ghosts m)) 4) 0 m) as (_ & _ & Hgt & Ha & _).
  fold (collisions m) in Hgt, Ha. rewrite Hgt, Ha.
  destruct (collisions_cases m) as [(E & _) | (k & g & _ & _ & Hlose & Hinv)].
  { rewrite E. split; [done|]. intros Hn. congruence. }
  destruct (decide (activePowerUp m = 0)) as [Ha0|Ha0].
  - rewrite (Hinv Ha0). split; [|congruence]. intros _.
    unfold collisions. by rewrite collideFrom_invincible_speeds.
  - rewrite (Hlose Ha0).
    destruct (loseLife_frame m) as (_ & _ & _ & _ & _ & _ & _ & -> & -> & _).
    split; [lia|]. intros _. split; [lia|done].
Qed.

(** * Concrete sessions *)

(** ** The first pellet *)

Lemma firstPellet_run :
  run rndCount firstPelletEvents started = Ok firstPelletBefore /\
  updateGame rndCount firstPelletBefore = Ok firstPelletAfter.
Proof. split; vm_compute; reflexivity. Qed.

(** C5 fails as stated: on the tick on which the avatar eats the pellet of
    cell (1,2), the cell turns from pellet to empty while [totalPellets]
    stays at 315. *)
Lemma pellet_counter_not_decremented :
  ~ (forall rnd es s s' i j,
       run rnd es started = Ok s ->
       updateGame rnd s = Ok s' ->
       boardGet (board s) i j = Ok 1 ->
       boardGet (board s') i j = Ok 0 ->
       totalPellets s' < totalPellets s).
Proof.
  intros H. destruct firstPellet_run as (Hrun & Htick).
  specialize (H rndCount firstPelletEvents firstPelletBefore firstPelletAfter 1 2
                Hrun Htick eq_refl eq_refl).
  vm_compute in H. discriminate H.
Qed.

(** ** The first two ticks of the Random pursuer *)

Lemma firstTicks_run :
  run rndCount (press " " 0) started = Ok firstTick /\
  updateGame rndCount firstTick = Ok secondTick /\
  updateGame rndCount secondTick = Ok thirdTick.
Proof. repeat split; vm_compute; reflexivity. Qed.


(** ** Walking into a frozen pursuer *)

Lemma frozen_run :
  run rndPlan freezeEvents started = Ok frozenBefore /\
  updateGame rndPlan frozenBefore = Ok frozenAfter.
Proof. split; vm_compute; reflexivity. Qed.

(** C3 fails as stated: with Freeze active before and after the tick, the
    avatar walks into the frozen pursuer next to it, loses a life, and all
    four pursuers are put back on their start cells; the first one was
    elsewhere before the tick. *)
Lemma frozen_pursuers_moved_by_reset :
  ~ (forall rnd es s s',
       run rnd es started = Ok s ->
       activePowerUp s = 1 ->
       updateGame rnd s = Ok s' ->
       activePowerUp s' = 1 ->
       (fun g => (gx g, gy g)) <$> ghosts s' = (fun g => (gx g, gy g)) <$> ghosts s).
Proof.
  intros H. destruct frozen_run as (Hrun & Htick).
  specialize (H rndPlan freezeEvents frozenBefore frozenAfter Hrun eq_refl Htick eq_refl).
  vm_compute in H. discriminate H.
Qed.

(** ** Captured while eating the last pellet *)

Lemma lastPellet_run :
  run rndTen lastPelletEvents started = Ok lastPelletBefore /\
  updateGame rndTen lastPelletBefore = Ok lastPelletAfter.
Proof. split; vm_compute; reflexivity. Qed.

Lemma lastPellet_tick :
  gameState lastPelletBefore = PLAYING /\
  lives lastPelletBefore = 1 /\ lives lastPelletAfter = 0 /\
  activePowerUp lastPelletBefore = -1 /\
  frameCount lastPelletBefore = 2762 /\
  pelletCount (board lastPelletBefore) = 1%nat /\
  boardGet (board lastPelletBefore) 6 18 = Ok 1 /\
  gameState lastPelletAfter = WIN.
Proof. repeat split; vm_compute; reflexivity. Qed.

(** C2 fails as stated: on tick 2763 of this session the avatar eats the
    last pellet and is captured, without invincibility, with its last
    life. The capture sets the outcome to [GAMEOVER], and the win check
    that follows overwrites it: the tick ends with no life left and
    outcome [WIN]. *)
Lemma last_life_lost_yet_won :
  ~ (forall rnd es s s',
       run rnd es started = Ok s ->
       gameState s = PLAYING ->
       activePowerUp s <> 0 ->
       0 < lives s ->
       updateGame rnd s = Ok s' ->
       lives s' <= 0 ->
       gameState s' = GAMEOVER).
Proof.
  intros H. destruct lastPellet_run as (Hrun & Htick).
  destruct lastPellet_tick as (Hp & Hl & Hl' & Ha & _ & _ & _ & Hw).
  assert (gameState lastPelletAfter = GAMEOVER) as E.
  { apply (H rndTen lastPelletEvents lastPelletBefore lastPelletAfter Hrun Hp);
      [| |exact Htick|].
    - rewrite Ha. intros E. discriminate E.
    - rewrite Hl. reflexivity.
    - rewrite Hl'. intros E. discriminate E. }
  rewrite Hw in E. discriminate E.
Qed.

(** ** A session lost, with and without write access *)

Lemma lost_run :
  run rndCount lostEvents started = Ok lostBefore /\
  updateGame rndCount lostBefore = Ok lostAfter.
Proof. split; vm_compute; reflexivity. Qed.

Lemma locked_run :
  run rndCount lostEvents lockedStart = Ok lockedBefore /\
  updateGame rndCount lockedBefore = Ok lockedAfter.
Proof. split; vm_compute; reflexivity. Qed.

(** C9 fails as stated: the program is started where [highscore.txt]
    neither exists nor can be created, and the session is lost on tick 492
    with a score of 160, above the stored value 0. Nothing is written. *)
Lemma unwritable_store_is_not_written :
  ~ (forall rnd f w es s s',
       run rnd es (programStart f w) = Ok s ->
       gameState s = PLAYING ->
       updateGame rnd s = Ok s' ->
       gameState s' = GAMEOVER \/ gameState s' = WIN ->
       storedValue (hsFile s) < score s' ->
       hsFile s' = FileInt (score s')).
Proof.
  intros H. destruct locked_run as (Hrun & Htick).
  specialize (H rndCount FileMissing false lostEvents lockedBefore lockedAfter
                Hrun eq_refl Htick (or_introl eq_refl) eq_refl).
  vm_compute in H. discriminate H.
Qed.

(** ** The theorems at work on the sessions above *)

Lemma wfBoard_firstTick : wfBoard (board firstTick).
Proof. split; [reflexivity | repeat constructor]. Qed.

(** C1 on the run to the first pellet: 307 pellet cells before, 306 after,
    and the session goes on. *)
Lemma pellets_monotone_win_at_zero_witness :
  wfBoard (board firstTick) /\
  Forall (fun e => e <> Key " ") (press "d" 9) /\
  run rndCount (press "d" 9) firstTick = Ok firstPelletBefore /\
  updateGame rndCount firstPelletBefore = Ok firstPelletAfter /\
  (pelletCount (board firstPelletBefore) <= pelletCount (board firstTick))%nat /\
  (pelletCount (board firstPelletAfter) <= pelletCount (board firstPelletBefore))%nat /\
  (gameState firstPelletBefore = PLAYING ->
   (gameState firstPelletAfter = WIN <-> pelletCount (board firstPelletAfter) = 0%nat)) /\
  (gameState firstPelletBefore <> PLAYING -> firstPelletAfter = firstPelletBefore).
Proof.
  assert (wfBoard (board firstTick)) as H1 by exact wfBoard_firstTick.
  assert (Forall (fun e => e <> Key " ") (press "d" 9)) as H2
    by (repeat constructor; discriminate).
  assert (run rndCount (press "d" 9) firstTick = Ok firstPelletBefore) as H3
    by (vm_compute; reflexivity).
  assert (updateGame rndCount firstPelletBefore = Ok firstPelletAfter) as H4
    by (vm_compute; reflexivity).
  exact (conj H1 (conj H2 (conj H3 (conj H4
    (pellets_monotone_win_at_zero rndCount (press "d" 9) firstTick
       firstPelletBefore firstPelletAfter H1 H2 H3 H4))))).
Defined.

(** C2 on the capture that loses a session: tick 492 of the avatar that
    only heads right. *)
Lemma life_lost_on_capture_witness :
  run rndCount lostEvents started = Ok lostBefore /\
  gameState lostBefore = PLAYING /\
  updateGame rndCount lostBefore = Ok lostAfter /\
  lives lostAfter < lives lostBefore /\
  exists m k g,
    beforeCollisions rndCount lostBefore = Ok m /\ lives m = lives lostBefore /\
    ghosts m !! k = Some g /\ captured (pacman m) g = true /\
    activePowerUp m <> 0 /\
    collisions m = loseLife m /\ lostAfter = winCheck (loseLife m) /\
    lives lostAfter = lives lostBefore - 1 /\
    (lives lostAfter <= 0 ->
       gameState (loseLife m) = GAMEOVER /\
       gameState lostAfter = (if allPelletsEaten m then WIN else GAMEOVER) /\
       (allPelletsEaten m = false -> lostAfter = loseLife m)).
Proof.
  assert (gameState lostBefore = PLAYING) as H1 by reflexivity.
  assert (lives lostAfter < lives lostBefore) as H3 by reflexivity.
  assert (run rndCount lostEvents started = Ok lostBefore) as H0 by exact (proj1 lost_run).
  assert (updateGame rndCount lostBefore = Ok lostAfter) as H2 by exact (proj2 lost_run).
  exact (conj H0 (conj H1 (conj H2 (conj H3
    (life_lost_on_capture rndCount lostBefore lostAfter H1 H2 H3))))).
Defined.

(** C3 on a tick under Freeze in which nobody is captured. *)
Lemma frozen_pursuers_stay_witness :
  gameState stillFrozenBefore = PLAYING /\
  updateGame rndPlan stillFrozenBefore = Ok stillFrozenAfter /\
  activePowerUp stillFrozenAfter = 1 /\
  lives stillFrozenAfter = lives stillFrozenBefore /\
  ghosts stillFrozenAfter = ghosts stillFrozenBefore.
Proof.
  assert (gameState stillFrozenBefore = PLAYING) as H1 by reflexivity.
  assert (updateGame rndPlan stillFrozenBefore = Ok stillFrozenAfter) as H2
    by (vm_compute; reflexivity).
  assert (activePowerUp stillFrozenAfter = 1) as H3 by reflexivity.
  assert (lives stillFrozenAfter = lives stillFrozenBefore) as H4 by reflexivity.
  exact (conj H1 (conj H2 (conj H3 (conj H4
    (frozen_pursuers_stay rndPlan stillFrozenBefore stillFrozenAfter H1 H2 H3 H4))))).
Defined.


(** C6 on the first tick of a session. *)
Lemma pursuer_speed_rule_witness :
  gameState firstTick = PLAYING /\
  updateGame rndCount firstTick = Ok secondTick /\
  (lives secondTick = lives firstTick ->
     gspeed <$> ghosts secondTick =
     (if activePowerUp secondTick =? 1 then gspeed <$> ghosts firstTick
      else rampedSpeed (gameTime secondTick) <$> (gspeed <$> ghosts firstTick))) /\
  (lives secondTick <> lives firstTick ->
     lives secondTick = lives firstTick - 1 /\
     ghosts secondTick = [blinky; pinky; inky; clyde]).
Proof.
  assert (gameState firstTick = PLAYING) as H1 by reflexivity.
  assert (updateGame rndCount firstTick = Ok secondTick) as H2
    by (vm_compute; reflexivity).
  exact (conj H1 (conj H2 (pursuer_speed_rule rndCount firstTick secondTick H1 H2))).
Defined.

(** ** The end of an effect *)

Lemma beforeExpiry_run : run rndPlan expiryEvents started = Ok beforeExpiry.
Proof. vm_compute; reflexivity. Qed.


(** C9 on the tick that loses the session of a program with write access:
    the score of 160 beats the best score 0 and is written. *)
Lemma best_score_persistence_witness :
  run rndCount lostEvents (programStart FileMissing true) = Ok lostBefore /\
  gameState lostBefore = PLAYING /\
  updateGame rndCount lostBefore = Ok lostAfter /\
  gameState lostAfter = GAMEOVER /\ hsFile lostAfter = FileInt 160 /\
  highScore (programStart FileMissing true) = storedValue FileMissing /\
  storedValue FileMissing = 0 /\ storedValue FileEmpty = 0 /\
  storedValue FileGarbage = 0 /\
  (forall n, storedValue (FileInt n) = Z.max F32.INT_MIN (Z.min n F32.INT_MAX)) /\
  storedValue FileMissing <= highScore lostBefore /\
  (true = false -> hsFile lostBefore = FileMissing) /\
  (true = true ->
     (hsFile lostBefore = FileMissing /\ highScore lostBefore = storedValue FileMissing) \/
     hsFile lostBefore = FileInt (highScore lostBefore)) /\
  (gameState lostAfter = GAMEOVER \/ gameState lostAfter = WIN ->
     highScore lostAfter = Z.max (highScore lostBefore) (score lostAfter) /\
     hsFile lostAfter = (if (score lostAfter >? highScore lostBefore) && true
                         then FileInt (score lostAfter) else hsFile lostBefore)) /\
  (gameState lostAfter = PLAYING ->
     highScore lostAfter = highScore lostBefore /\ hsFile lostAfter = hsFile lostBefore).
Proof.
  assert (gameState lostBefore = PLAYING) as H2 by reflexivity.
  assert (gameState lostAfter = GAMEOVER) as H4 by reflexivity.
  assert (hsFile lostAfter = FileInt 160) as H5 by reflexivity.
  assert (run rndCount lostEvents (programStart FileMissing true) = Ok lostBefore) as H1
    by exact (proj1 lost_run).
  assert (updateGame rndCount lostBefore = Ok lostAfter) as H3 by exact (proj2 lost_run).
  exact (conj H1 (conj H2 (conj H3 (conj H4 (conj H5
    (best_score_persistence rndCount FileMissing true lostEvents
       lostBefore lostAfter H1 H2 H3)))))).
Defined.

(** * Ticks in which nothing moves *)

(** [fastTicks] agrees with [ticks]: a parked tick is the step
    [quietStep], and a parked state stays parked. *)

Lemma blocked_ghostMove b tx ty g :
  blocked b tx ty g = true -> ghostMove b tx ty g = Ok g.
Proof.
  unfold blocked, ghostMove. destruct (F32.ltb fzero _); [|done].
  destruct (boardAt b _ _) as [c|]; [|discriminate]. simpl.
  intros ->. done.
Qed.

Lemma pacmanBlocked_move s :
  pacmanBlocked (board s) (pacman s) = true -> movePacman s = Ok s.
Proof.
  unfold pacmanBlocked, movePacman.
  destruct (boardAt (board s) _ _) as [c|]; [|discriminate]. simpl.
  intros ->. done.
Qed.

Lemma onEmptyCell_eat s :
  onEmptyCell (board s) (pacman s) = true -> eatPellet s = Ok s /\ collectPowerUp s = Ok s.
Proof.
  unfold onEmptyCell, boardAt, eatPellet, collectPowerUp.
  destruct (F32.to_int (py (pacman s))) as [i|]; [|discriminate]. simpl.
  destruct (F32.to_int (px (pacman s))) as [j|]; [|discriminate]. simpl.
  destruct (boardGet (board s) i j) as [c|]; [|discriminate]. simpl.
  intros Hc. apply Z.eqb_eq in Hc. subst c. done.
Qed.

Lemma powerUpTick_idle s :
  F32.ltb fzero (powerUpTimer s) = false -> powerUpTick s = s.
Proof. unfold powerUpTick. by intros ->. Qed.

Lemma beforeGhosts_parked s :
  pacmanBlocked (board s) (pacman s) = true ->
  onEmptyCell (board s) (pacman s) = true ->
  F32.ltb fzero (powerUpTimer s) = false ->
  beforeGhosts s = Ok (tickCounters s).
Proof.
  intros Hp He Ht. unfold beforeGhosts.
  destruct (tickCounters_frame s) as (Hb & _ & _ & _ & _ & Hpac & _ & _ & Htm & _).
  rewrite pacmanBlocked_move by (by rewrite Hb, Hpac). cbn [bind].
  destruct (onEmptyCell_eat (tickCounters s)) as (He1 & He2); [by rewrite Hb, Hpac|].
  rewrite He1. cbn [bind]. rewrite He2. cbn [bind].
  rewrite powerUpTick_idle; [done|]. by rewrite Htm.
Qed.

Lemma withGhosts_eta s : withGhosts (ghosts s) (randCalls s) s = s.
Proof. by destruct s. Qed.

Lemma advanceGhost_quiet gt g : inWindow gt = false -> advanceGhost gt g = retime g.
Proof. unfold advanceGhost, rampSpeed, inWindow, retime. by intros ->. Qed.

Lemma updateGhost_blocked rnd i l c s g g0 tx ty c' :
  activePowerUp s <> 1 -> inWindow (gameTime s) = false ->
  l !! i = Some g ->
  (<[i := retime g]> l) !! 0%nat = Some g0 ->
  ghostTarget rnd c (pacman s) g0 (retime g) = Ok (tx, ty, c') ->
  blocked (board s) tx ty g = true ->
  updateGhost rnd i (withGhosts l c s) = Ok (withGhosts (<[i := retime g]> l) c' s).
Proof.
  intros Ha Hw Hi H0 Ht Hb. unfold updateGhost, ghostAim.
  change (activePowerUp (withGhosts l c s)) with (activePowerUp s).
  apply Z.eqb_neq in Ha. rewrite Ha.
  change (ghosts (withGhosts l c s)) with l. rewrite Hi.
  change (gameTime (withGhosts l c s)) with (gameTime s).
  rewrite (advanceGhost_quiet _ _ Hw). cbn [ghosts set_ghosts]. rewrite H0.
  cbn [randCalls pacman set_ghosts withGhosts set_randCalls]. rewrite Ht. cbn [bind].
  cbn [board set_randCalls set_ghosts].
  rewrite (blocked_ghostMove _ _ _ (retime g)) by exact Hb. cbn [bind].
  cbn [ghosts set_randCalls set_ghosts]. rewrite list_insert_insert_eq. reflexivity.
Qed.

Lemma collisions_parked s :
  (forall k g, ghosts s !! k = Some g -> captured (pacman s) g = false) ->
  collisions s = s.
Proof. intros H. apply collideFrom_none. intros k g _. apply H. Qed.

Lemma winCheck_idle s : allPelletsEaten s = false -> winCheck s = s.
Proof. unfold winCheck. by intros ->. Qed.

Lemma quiet_tick rnd s :
  parkedb s = true -> clockOk rnd s = true -> updateGame rnd s = Ok (quietStep s).
Proof.
  unfold parkedb, clockOk. intros Hp Hc.
  destruct (tickCounters_frame s)
    as (Hb & Hgh & _ & _ & Hgs & Hpac & _ & Hact & Htm & _).
  destruct (ghosts s) as [|g0 [|g1 [|g2 [|g3 [|g4 l]]]]] eqn:Hg;
    try (rewrite ?andb_false_r in Hp; discriminate Hp).
  apply andb_prop in Hc. destruct Hc as [Hw Hc].
  repeat match goal with
         | H : _ && _ = true |- _ => apply andb_prop in H; destruct H
         end.
  match goal with
  | H : bool_decide _ = true |- _ => apply bool_decide_eq_true in H; rename H into Hp
  end.
  repeat match goal with
         | H : negb _ = true |- _ => apply negb_true_iff in H
         | H : (_ =? _) = true |- _ => apply Z.eqb_eq in H
         end.
  unfold updateGame. rewrite (bool_decide_eq_true_2 _ Hp). cbn [negb].
  unfold beforeCollisions. rewrite beforeGhosts_parked by done. cbn [bind].
  unfold moveGhosts. rewrite Hgh. cbn [length].
  set (s1 := tickCounters s) in *.
  assert (activePowerUp s1 <> 1) as Ha1.
  { rewrite Hact. by apply Z.eqb_neq. }
  rewrite <- (withGhosts_eta s1) at 1. rewrite Hgh.
  unfold quietStep. fold s1. rewrite Hgh.
  cbn [moveGhostsFrom].
  (* pursuer 0 *)
  rewrite (updateGhost_blocked rnd 0 _ _ s1 g0 (retime g0) (px (pacman s1)) (py (pacman s1))
             (randCalls s1)); try done.
  2:{ unfold ghostTarget. cbn [behavior retime ghost_set_timer].
      by replace (behavior g0) with 0. }
  2:{ by rewrite Hb, Hpac. }
  cbn [bind insert list_insert].
  (* pursuer 1 *)
  rewrite (updateGhost_blocked rnd 1 _ _ s1 g1 (retime g0)
             (F32.add (px (pacman s1)) (F32.of_int (dirX (pacman s1) * 4)))
             (F32.add (py (pacman s1)) (F32.of_int (dirY (pacman s1) * 4)))
             (randCalls s1)); try done.
  2:{ unfold ghostTarget. cbn [behavior retime ghost_set_timer].
      by replace (behavior g1) with 1. }
  2:{ by rewrite Hb, Hpac. }
  cbn [bind insert list_insert].
  (* pursuer 2 *)
  rewrite (updateGhost_blocked rnd 2 _ _ s1 g2 (retime g0)
             (F32.add (px (pacman s1)) (F32.sub (px (pacman s1)) (gx g0)))
             (F32.add (py (pacman s1)) (F32.sub (py (pacman s1)) (gy g0)))
             (randCalls s1)); try done.
  2:{ unfold ghostTarget. cbn [behavior retime ghost_set_timer gx gy].
      by replace (behavior g2) with 2. }
  2:{ by rewrite Hb, Hpac. }
  cbn [bind insert list_insert].
  (* pursuer 3 *)
  destruct (F32.to_int (F32.add (specialTimer g3) f0_016)) as [t|] eqn:Et;
    [|discriminate Hc].
  assert (exists tx ty,
    ghostTarget rnd (randCalls s1) (pacman s1) (retime g0) (retime g3) =
      Ok (tx, ty, if Z.rem t 5 =? 0 then S (S (randCalls s1)) else randCalls s1) /\
    blocked (board s1) tx ty g3 = true) as (tx & ty & Htg & Hbl).
  { unfold ghostTarget. cbn [behavior retime ghost_set_timer specialTimer].
    replace (behavior g3) with 3. cbn [Z.eqb Pos.eqb]. rewrite Et. cbn [bind].
    assert (randCalls s1 = randCalls s) as Hrc.
    { unfold s1, tickCounters. cbn. by destruct (Z.rem (frameCount s + 1) 60 =? 0). }
    destruct (Z.rem t 5 =? 0).
    - apply andb_prop in Hc. destruct Hc as [Hx Hy].
      apply Z.eqb_eq in Hx, Hy. rewrite Hrc, Hx, Hy.
      eexists _, _. split; [reflexivity|]. by rewrite Hb.
    - eexists _, _. split; [reflexivity|]. by rewrite Hb, Hpac. }
  rewrite (updateGhost_blocked rnd 3 _ _ s1 g3 (retime g0) tx ty
             (if Z.rem t 5 =? 0 then S (S (randCalls s1)) else randCalls s1));
    [|exact Ha1|exact Hw|reflexivity|reflexivity|exact Htg|exact Hbl].
  cbn [bind insert list_insert].
  rewrite collisions_parked.
  2:{ intros k g Hk. cbn [ghosts pacman withGhosts set_ghosts set_randCalls] in *.
      rewrite Hpac.
      destruct k as [|[|[|[|k]]]]; cbn in Hk; try discriminate Hk;
        injection Hk as <-; unfold captured, retime; cbn [gx gy ghost_set_timer];
        fold (captured (pacman s) g0); fold (captured (pacman s) g1);
        fold (captured (pacman s) g2); fold (captured (pacman s) g3); assumption. }
  rewrite winCheck_idle.
  2:{ erewrite allPelletsEaten_ext; [eassumption|]. cbn. exact Hb. }
  reflexivity.
Qed.

Lemma parkedb_quietStep s : parkedb s = true -> parkedb (quietStep s) = true.
Proof.
  intros Hp. rewrite <- Hp. unfold parkedb in Hp.
  destruct (ghosts s) as [|g0 [|g1 [|g2 [|g3 [|g4 l]]]]] eqn:Hg;
    try (rewrite ?andb_false_r in Hp; discriminate Hp).
  clear Hp.
  destruct (tickCounters_frame s)
    as (Hb & Hgh & _ & _ & Hgs & Hpac & _ & Hact & Htm & _).
  unfold quietStep. rewrite Hgh, Hg.
  unfold parkedb.
  cbn [gameState board pacman powerUpTimer activePowerUp ghosts set_ghosts set_randCalls].
  rewrite Hgs, Hb, Hpac, Htm, Hact, Hg.
  match goal with
  | |- context [allPelletsEaten ?x] =>
      rewrite (allPelletsEaten_ext s x) by (cbn; exact Hb)
  end.
  reflexivity.
Qed.

Lemma fastTicks_sound rnd n p s :
  (p = true -> parkedb s = true) ->
  fastTicks rnd n p s = ticks rnd n s.
Proof.
  revert p s. induction n as [|n IH]; intros p s Hp; cbn [fastTicks ticks]; [done|].
  destruct (p && clockOk rnd s) eqn:E.
  - apply andb_prop in E. destruct E as [-> Hc].
    rewrite (quiet_tick rnd s (Hp eq_refl) Hc). cbn [bind].
    apply IH. intros _. apply parkedb_quietStep. by apply Hp.
  - destruct (updateGame rnd s) as [s'|f]; [|done]. cbn [bind].
    apply IH. done.
Qed.

Lemma run_app rnd es1 es2 s :
  run rnd (es1 ++ es2) s = do s' <- run rnd es1 s; run rnd es2 s'.
Proof.
  revert s. induction es1 as [|e es1 IH]; intros s; cbn [run app]; [done|].
  destruct (handle rnd e s) as [s'|f]; cbn [bind]; [apply IH | done].
Qed.

Lemma run_ticks rnd n s : run rnd (replicate n Tick) s = ticks rnd n s.
Proof.
  revert s. induction n as [|n IH]; intros s; cbn [run ticks replicate]; [done|].
  cbn [handle]. destruct (updateGame rnd s) as [s'|f]; cbn [bind]; [apply IH | done].
Qed.

(** * The speed ramp *)

(** The session [parkEvents] parks everybody; from there the speeds only
    change through the ramp. *)

Lemma parked_run : run rndPlan parkEvents started = Ok parked.
Proof. vm_compute; reflexivity. Qed.

(** ** A capture resets the speeds *)

Lemma ramped_run : ticks rndPlan rampTicks parked = Ok ramped.
Proof.
  rewrite <- (fastTicks_sound rndPlan rampTicks false) by discriminate.
  vm_compute; reflexivity.
Qed.

Lemma slowed_run :
  run rndPlan (parkEvents ++ replicate rampTicks Tick ++ press "s" 3) started = Ok slowedBefore /\
  updateGame rndPlan slowedBefore = Ok slowedAfter.
Proof.
  split.
  - rewrite run_app, parked_run. cbn [bind].
    rewrite run_app, run_ticks, ramped_run. cbn [bind].
    vm_compute; reflexivity.
  - vm_compute; reflexivity.
Qed.

(** C6 fails as stated: on tick 1904 of this session the avatar is
    captured; the first pursuer's speed is 0.1 before the tick and back at
    its initial 0.04 after it. *)
Lemma speed_drops_on_capture :
  ~ (forall rnd es s s' v v',
       run rnd es started = Ok s ->
       updateGame rnd s = Ok s' ->
       (gspeed <$> ghosts s) !! 0%nat = Some v ->
       (gspeed <$> ghosts s') !! 0%nat = Some v' ->
       F32.leb v v' = true).
Proof.
  intros H. destruct slowed_run as (Hrun & Htick).
  specialize (H rndPlan _ slowedBefore slowedAfter _ _ Hrun Htick eq_refl eq_refl).
  vm_compute in H. discriminate H.
Qed.

(** ** A step beyond the board *)

Lemma lastTick_run : ticks rndPlan idleTicks parked = Ok lastTick.
Proof.
  rewrite <- (fastTicks_sound rndPlan idleTicks false) by discriminate.
  vm_compute; reflexivity.
Qed.

(** C10 fails on the code. The session below is started with the space
    bar, steered with five key presses during its first 701 ticks and then
    left alone for [idleTicks] = 29916 ticks, which all succeed. On tick
    30618 the third pursuer's step of length 1.017
    leads from x = 18.9986 to x = 20.0: the wall check reads
    [board[9][20]], outside the array. Until then no life is lost. *)
Theorem pursuer_steps_off_the_board :
  run rndPlan (parkEvents ++ replicate idleTicks Tick) started = Ok lastTick /\
  gameState lastTick = PLAYING /\ lives lastTick = 3 /\ frameCount lastTick = 30617 /\
  (exists g, ghosts lastTick !! 2%nat = Some g /\
             F32.ltb (F32.of_int 1) (gspeed g) = true /\
             F32.to_int (gx g) = Ok 18 /\ F32.to_int (gy g) = Ok 9) /\
  updateGame rndPlan lastTick = Stop OutOfBounds /\
  run rndPlan (parkEvents ++ replicate (S idleTicks) Tick) started = Stop OutOfBounds.
Proof.
  assert (run rndPlan (parkEvents ++ replicate idleTicks Tick) started = Ok lastTick) as Hrun.
  { rewrite run_app, parked_run. cbn [bind]. rewrite run_ticks. exact lastTick_run. }
  assert (updateGame rndPlan lastTick = Stop OutOfBounds) as Htick
    by (vm_compute; reflexivity).
  split; [exact Hrun|].
  split; [reflexivity|]. split; [reflexivity|]. split; [reflexivity|].
  split.
  { eexists. split; [reflexivity|]. split; [vm_compute; reflexivity|].
    split; reflexivity. }
  split; [exact Htick|].
  replace (replicate (S idleTicks) Tick) with (replicate idleTicks Tick ++ [Tick]).
  - rewrite app_assoc, run_app, Hrun. cbn [bind run handle]. by rewrite Htick.
  - rewrite <- (Nat.add_1_r idleTicks). by rewrite replicate_add.
Qed.

(** * What holds throughout a run *)

(** ** Boards with eaten cells *)

Lemma boardGet_boardSet_other (b : Board) (i j v i' j' : Z) :
  0 <= i -> 0 <= j -> (i', j') <> (i, j) ->
  boardGet (boardSet b i j v) i' j' = boardGet b i' j'.
Proof.
  intros Hi Hj Hne. unfold boardGet, boardSet.
  destruct ((0 <=? i') && (i' <? ROWS) && (0 <=? j') && (j' <? COLS)) eqn:E; [|done].
  repeat (apply andb_prop in E; destruct E as [E ?]).
  destruct (decide (i' = i)) as [->|Hi'].
  - rewrite list_lookup_alter_eq. destruct (b !! Z.to_nat i) as [row|]; [|done]. simpl.
    rewrite list_lookup_insert_ne; [done|].
    intros Heq. apply Hne. f_equal. lia.
  - rewrite list_lookup_alter_ne; [done|]. lia.
Qed.

Lemma board_reset s : board (resetGame s) = board0.
Proof. reflexivity. Qed.

Lemma eatenFrom_refl b : (forall i j c, boardGet b i j = Ok c -> True) -> eatenFrom b b.
Proof. intros _ i j c H. exists c. split; [done|by left]. Qed.

Lemma eatenFrom_boardSet b0 b i j c :
  eatenFrom b0 b -> boardGet b i j = Ok c -> c = 1 \/ c = 3 ->
  eatenFrom b0 (boardSet b i j 0).
Proof.
  intros H Hc Hv i' j' c0 H0.
  destruct (H i' j' c0 H0) as (c' & Hc' & Hstep).
  pose proof (boardGet_Ok _ _ _ _ Hc) as (Hi & Hj & _).
  destruct (decide ((i', j') = (i, j))) as [E|E].
  - injection E as -> ->. exists 0. split; [by eapply boardGet_boardSet_same|].
    rewrite Hc in Hc'. injection Hc' as <-.
    destruct Hstep as [->|[_ ->]]; [right; by split|lia].
  - exists c'. split; [|done]. rewrite boardGet_boardSet_other; [done|lia|lia|done].
Qed.

Lemma eatenFrom_trans b0 b1 b2 : eatenFrom b0 b1 -> eatenFrom b1 b2 -> eatenFrom b0 b2.
Proof.
  intros H1 H2 i j c0 H0. destruct (H1 i j c0 H0) as (c1 & Hc1 & S1).
  destruct (H2 i j c1 Hc1) as (c2 & Hc2 & S2). exists c2. split; [done|].
  unfold cellStep in *. destruct S1 as [->|[? ->]]; [done|].
  destruct S2 as [->|[[?|?] _]]; [by right|lia|lia].
Qed.

Lemma board0_cells i j :
  0 <= i < ROWS -> 0 <= j < COLS ->
  boardGet board0 i j = Ok (cell0 i j) /\
  (cell0 i j = 2 <-> wallCell i j = true) /\
  0 <= cell0 i j <= 3.
Proof.
  intros Hi Hj.
  assert (forallb (fun i => forallb (fun j =>
            match boardGet board0 i j with
            | Ok c => Z.eqb c (cell0 i j) && Bool.eqb (c =? 2) (wallCell i j) && (0 <=? c) && (c <=? 3)
            | Stop _ => false
            end) (zrange COLS)) (zrange ROWS) = true) as H by (vm_compute; reflexivity).
  rewrite forallb_forall in H. specialize (H i (proj2 (In_zrange _ _) Hi)).
  rewrite forallb_forall in H. specialize (H j (proj2 (In_zrange _ _) Hj)).
  destruct (boardGet board0 i j) as [c|]; [|discriminate].
  repeat (apply andb_prop in H; destruct H as [H ?]).
  apply Z.eqb_eq in H. subst c. split; [done|]. split; [|lia].
  apply eqb_prop in H2. rewrite <- H2. symmetry. apply Z.eqb_eq.
Qed.

(** ** The effects of a key *)

Lemma keyboard_effect key s s' : keyboard key s = Ok s' -> KeyEffect key s s'.
Proof.
  unfold keyboard. intros H.
  destruct (Ascii.eqb key (ascii_of_nat 27)); [discriminate H|].
  destruct (Ascii.eqb_spec key " ") as [->|Hsp].
  { injection H as <-. case_bool_decide; [by apply key_start|apply key_ignored]. }
  destruct (is_key key "r" "R") eqn:Er.
  { injection H as <-. do 2 case_bool_decide; simpl; try apply key_ignored.
    by apply key_resume. }
  destruct (is_key key "h" "H") eqn:Eh.
  { injection H as <-. case_bool_decide as E; [|apply key_ignored].
    apply key_screen; try done; [congruence|left; congruence|tauto]. }
  destruct (is_key key "s" "S") eqn:Es.
  { injection H as <-. case_bool_decide as E.
    - apply key_screen; try done; [congruence|left; congruence|tauto].
    - case_bool_decide; [|apply key_ignored].
      apply key_steer; try done. left. split; [done|tauto]. }
  destruct (is_key key "m" "M") eqn:Em.
  { injection H as <-. case_bool_decide as E; simpl; [apply key_ignored|].
    apply key_screen; try done; tauto. }
  destruct (is_key key "p" "P") eqn:Ep.
  { injection H as <-. case_bool_decide; [by apply key_pause|].
    case_bool_decide; [by apply key_unpause|apply key_ignored]. }
  destruct (is_key key "w" "W").
  { injection H as <-. case_bool_decide; [|apply key_ignored].
    apply key_steer; try done. left. split; [done|tauto]. }
  destruct (is_key key "a" "A").
  { injection H as <-. case_bool_decide; [|apply key_ignored].
    apply key_steer; try done. right. split; [tauto|done]. }
  destruct (is_key key "d" "D").
  { injection H as <-. case_bool_decide; [|apply key_ignored].
    apply key_steer; try done. right. split; [tauto|done]. }
  injection H as <-. apply key_ignored.
Qed.

(** ** The invariant at the start of a session and across keys *)

(** The fields of the invariant, by name. *)
Ltac unpack H :=
  destruct H as [I_tags I_board I_markers I_pursuers I_avatar I_frames I_score I_lives
                 I_effect I_speed I_dir I_prev].

Lemma offWall_reset_pursuers k g :
  [blinky; pinky; inky; clyde] !! k = Some g -> offWall board0 (gx g) (gy g).
Proof.
  intros H. destruct k as [|[|[|[|k]]]]; try discriminate H;
    injection H as <-; exists 0; split; try (vm_compute; reflexivity); lia.
Qed.

Lemma offWall_reset_avatar : offWall board0 (F32.of_int 1) (F32.of_int 1).
Proof. exists 0. split; [vm_compute; reflexivity | lia]. Qed.

Lemma eatenFrom_board0 : eatenFrom board0 board0.
Proof. intros i j c H. exists c. split; [done | by left]. Qed.

Lemma Sound_start s :
  (previousState s = MENU \/ previousState s = PAUSED) ->
  Sound (set_gameState PLAYING (resetGame s)).
Proof.
  intros Hp. constructor.
  - reflexivity.
  - exact eatenFrom_board0.
  - reflexivity.
  - exact offWall_reset_pursuers.
  - exact offWall_reset_avatar.
  - split; [done|reflexivity].
  - split; [done|reflexivity].
  - done.
  - done.
  - left. reflexivity.
  - left. split; [done|]. by left.
  - split; [exact Hp|]. intros H. discriminate H.
Qed.

Lemma Sound_programStart f w : Sound (programStart f w).
Proof.
  constructor.
  - reflexivity.
  - exact eatenFrom_board0.
  - reflexivity.
  - exact offWall_reset_pursuers.
  - exact offWall_reset_avatar.
  - split; [done|reflexivity].
  - split; [done|reflexivity].
  - done.
  - done.
  - left. reflexivity.
  - left. split; [done|]. by left.
  - split; [left; by destruct f|]. intros H. discriminate H.
Qed.

Lemma Sound_keyboard key s s' : Sound s -> keyboard key s = Ok s' -> Sound s'.
Proof.
  intros HS H. apply keyboard_effect in H.
  destruct H as [ | _ _ | _ Hm _ | st _ _ Hnp Hpa Hst | dx dy _ _ _ Hax _ | _ _ | _ Hpa ].
  - exact HS.
  - apply Sound_start. apply (snd_prev _ HS).
  - unpack HS. constructor; try assumption.
    split; [tauto|]. intros H. discriminate H.
  - unpack HS. constructor; try assumption.
    split; [tauto|]. simpl. intros ->. destruct Hst as [?|[?|?]]; discriminate.
  - unpack HS. constructor; try assumption.
  - unpack HS. constructor; try assumption.
    split; [by right|done].
  - unpack HS. constructor; try assumption.
    split; [tauto|]. intros H. discriminate H.
Qed.

(** ** The invariant across the phases of a tick *)

(** Projections of updated records. *)
Ltac fields :=
  cbn [gameState previousState score lives highScore gameTime frameCount pacman ghosts
       powerUps powerUpTimer activePowerUp board totalPellets hsFile hsWritable randCalls
       set_gameState set_previousState set_score set_lives set_highScore set_gameTime
       set_frameCount set_pacman set_ghosts set_powerUps set_powerUpTimer
       set_activePowerUp set_board set_totalPellets set_hsFile set_hsWritable
       set_randCalls px py dirX dirY pspeed pac_set_pos pac_set_dir pac_set_speed
       gx gy gspeed gr gg gb gname behavior specialTimer isActive
       ghost_set_pos ghost_set_speed ghost_set_timer] in *.

Lemma frames_next f :
  0 <= f -> (f + 1) / 60 = f / 60 + (if Z.rem (f + 1) 60 =? 0 then 1 else 0).
Proof.
  intros Hf. rewrite Z.rem_mod_nonneg by lia.
  destruct (Z.eqb_spec ((f + 1) mod 60) 0) as [E|E];
    Z.to_euclidean_division_equations; lia.
Qed.

Lemma Sound_tickCounters s : Sound s -> Sound (tickCounters s).
Proof.
  intros HS. unfold tickCounters. fields.
  pose proof (frames_next (frameCount s) (proj1 (snd_frames _ HS))) as Hn.
  unpack HS. destruct (Z.rem (frameCount s + 1) 60 =? 0);
    constructor; fields; try assumption; lia.
Qed.

Lemma Sound_movePacman s s' : Sound s -> movePacman s = Ok s' -> Sound s'.
Proof.
  unfold movePacman. intros HS H. bind_inv H. injection H as <-.
  destruct (Z.eqb_spec m 2) as [E|E]; simpl; [exact HS|].
  unpack HS. constructor; fields; try assumption.
  by exists m.
Qed.

Lemma offWall_boardSet b i j c x y :
  boardGet b i j = Ok c -> offWall b x y -> offWall (boardSet b i j 0) x y.
Proof.
  intros Hc (c' & H & Hne). unfold offWall, boardAt in *.
  destruct (F32.to_int y) as [i'|]; [|discriminate H].
  destruct (F32.to_int x) as [j'|]; [|discriminate H]. simpl in *.
  pose proof (boardGet_Ok _ _ _ _ Hc) as (Hi & Hj & _).
  destruct (decide ((i', j') = (i, j))) as [E|E].
  - injection E as -> ->. exists 0. split; [by eapply boardGet_boardSet_same|lia].
  - exists c'. split; [|done]. rewrite boardGet_boardSet_other; [done|lia|lia|done].
Qed.

Lemma marked_boardSet b i j c i' j' :
  boardGet b i j = Ok c ->
  marked (boardSet b i j 0) i' j' =
  if decide ((i', j') = (i, j)) then false else marked b i' j'.
Proof.
  intros Hc. unfold marked.
  pose proof (boardGet_Ok _ _ _ _ Hc) as (Hi & Hj & _).
  destruct (decide ((i', j') = (i, j))) as [E|E].
  - injection E as -> ->. by rewrite (boardGet_boardSet_same _ _ _ _ _ Hc).
  - rewrite boardGet_boardSet_other; [done|lia|lia|done].
Qed.

Lemma markersOn_boardSet_unmarked b i j c :
  boardGet b i j = Ok c -> c <> 3 -> markersOn (boardSet b i j 0) = markersOn b.
Proof.
  intros Hc Hne. unfold markersOn. rewrite !(marked_boardSet _ _ _ _ _ _ Hc).
  assert (marked b i j = false) as Hm.
  { unfold marked. rewrite Hc. by apply Z.eqb_neq. }
  repeat match goal with
  | |- context [decide (?p = (i, j))] =>
      destruct (decide (p = (i, j))) as [E|_];
        [injection E as <- <-; rewrite ?Hm|]
  end; reflexivity.
Qed.

Lemma Sound_eatPellet s s' : Sound s -> eatPellet s = Ok s' -> Sound s'.
Proof.
  intros HS H. apply eatPellet_cases in H.
  destruct H as [->|(i & j & Hc & _ & _ & ->)]; [exact HS|].
  unpack HS. constructor; fields; try assumption.
  - eapply eatenFrom_boardSet; eauto.
  - rewrite (markersOn_boardSet_unmarked _ _ _ _ Hc); [done|lia].
  - intros k g Hg. eapply offWall_boardSet; eauto.
  - eapply offWall_boardSet; eauto.
  - split; [lia|]. destruct I_score as [_ Hm].
    rewrite <- Z.add_mod_idemp_l, Hm by lia. reflexivity.
Qed.

Lemma Ok_inj {A} (a b : A) : Ok a = Ok b -> a = b.
Proof. by intros [= ->]. Qed.

Lemma to_int_3 : F32.to_int (F32.of_int 3) = Ok 3.
Proof. vm_compute; reflexivity. Qed.

Lemma to_int_16 : F32.to_int (F32.of_int 16) = Ok 16.
Proof. vm_compute; reflexivity. Qed.

Lemma marked_true b i j : boardGet b i j = Ok 3 -> marked b i j = true.
Proof. unfold marked. by intros ->. Qed.

Lemma activate_markers i j b s0 s' :
  boardGet b i j = Ok 3 -> powerUps s0 = markersOn b ->
  activatePowerUp i j 0 (markersOn b) s0 = Ok s' ->
  (s' = s0 /\ markersOn (boardSet b i j 0) = markersOn b) \/
  (exists t, 0 <= t <= 2 /\ s' = pickedUp t b i j s0).
Proof.
  intros Hc Hpu H. unfold markersOn in H.
  change (COLS - 4) with 16 in H. change (ROWS - 4) with 16 in H.
  cbn [activatePowerUp ux uy active ptype duration] in H.
  rewrite !to_int_3, !to_int_16 in H. cbn [bind] in H.
  assert (Hset : forall i' j', marked (boardSet b i j 0) i' j' =
                   if decide ((i', j') = (i, j)) then false else marked b i' j')
    by (intros; by eapply marked_boardSet).
  assert (Hnew : markersOn (boardSet b i j 0) =
     [ mkPowerUp (F32.of_int 3) (F32.of_int 3) 0
         (if decide ((3, 3) = (i, j)) then false else marked b 3 3) fzero;
       mkPowerUp (F32.of_int 16) (F32.of_int 3) 1
         (if decide ((3, 16) = (i, j)) then false else marked b 3 16) fzero;
       mkPowerUp (F32.of_int 3) (F32.of_int 16) 2
         (if decide ((16, 3) = (i, j)) then false else marked b 16 3) fzero;
       mkPowerUp (F32.of_int 16) (F32.of_int 16) 0
         (if decide ((16, 16) = (i, j)) then false else marked b 16 16) fzero ]).
  { unfold markersOn. change (COLS - 4) with 16. change (ROWS - 4) with 16.
    by rewrite !Hset. }
  pose proof (marked_true _ _ _ Hc) as Hm.
  destruct (Z.eqb_spec 3 j) as [Hj3|Hj3]; destruct (Z.eqb_spec 16 j) as [Hj16|Hj16];
    try (exfalso; lia);
    destruct (Z.eqb_spec 3 i) as [Hi3|Hi3]; destruct (Z.eqb_spec 16 i) as [Hi16|Hi16];
    try (exfalso; lia); subst;
    rewrite ?Hm in H; cbn [andb] in H; apply Ok_inj in H; subst s'.
  all: first
      [ left; split; [reflexivity|]; rewrite Hnew; unfold markersOn;
        change (COLS - 4) with 16; change (ROWS - 4) with 16;
        repeat (destruct (decide _) as [E|_]; [exfalso; injection E; lia|]); reflexivity
      | right;
        match goal with |- context [set_activePowerUp ?t _] => exists t end;
        split; [lia|];
        unfold pickedUp; fields; rewrite Hpu, Hnew;
        unfold markersOn; change (COLS - 4) with 16; change (ROWS - 4) with 16;
        rewrite ?Hm; cbn [insert list_insert Z.eqb Pos.eqb];
        repeat (destruct (decide _) as [E|E];
                [try (exfalso; injection E; lia)|try (exfalso; by apply E)]);
        reflexivity ].
Qed.

Lemma collectPowerUp_effect s s' :
  powerUps s = markersOn (board s) ->
  collectPowerUp s = Ok s' ->
  exists i j c,
    F32.to_int (py (pacman s)) = Ok i /\ F32.to_int (px (pacman s)) = Ok j /\
    boardGet (board s) i j = Ok c /\
    ((c <> 3 /\ s' = s) \/
     (c = 3 /\ markersOn (boardSet (board s) i j 0) = markersOn (board s) /\
      s' = set_board (boardSet (board s) i j 0) s) \/
     (c = 3 /\ exists t, 0 <= t <= 2 /\
        s' = pickedUp t (board s) i j (set_board (boardSet (board s) i j 0) s))).
Proof.
  unfold collectPowerUp. intros Hpu H.
  destruct (F32.to_int (py (pacman s))) as [i|] eqn:Ei; cbn [bind] in H; [|discriminate H].
  destruct (F32.to_int (px (pacman s))) as [j|] eqn:Ej; cbn [bind] in H; [|discriminate H].
  destruct (boardGet (board s) i j) as [c|] eqn:Ec; cbn [bind] in H; [|discriminate H].
  exists i, j, c. repeat split; try done.
  destruct (Z.eqb_spec c 3) as [->|Hc].
  - right. fields. rewrite Hpu in H.
    apply (activate_markers _ _ _ _ _ Ec) in H; [|by fields].
    destruct H as [(-> & Hm)|(t & Ht & ->)]; [left; by repeat split|right].
    split; [done|]. by exists t.
  - left. apply Ok_inj in H. by split.
Qed.

Lemma Sound_collectPowerUp s s' : Sound s -> collectPowerUp s = Ok s' -> Sound s'.
Proof.
  intros HS H. apply collectPowerUp_effect in H; [|apply (snd_markers _ HS)].
  destruct H as (i & j & c & _ & _ & Hc & [(_ & ->)|[(-> & Hm & ->)|(-> & t & Ht & ->)]]).
  - exact HS.
  - unpack HS. constructor; fields; try assumption.
    + eapply eatenFrom_boardSet; eauto.
    + by rewrite Hm.
    + intros k g Hg. eapply offWall_boardSet; eauto.
    + eapply offWall_boardSet; eauto.
  - assert (Sound (set_score (score s + 50)
              (set_powerUps (markersOn (boardSet (board s) i j 0))
                 (set_powerUpTimer f5_0
                    (set_activePowerUp t (set_board (boardSet (board s) i j 0) s)))))) as HS'.
    { unpack HS. constructor; fields; try assumption.
      - eapply eatenFrom_boardSet; eauto.
      - reflexivity.
      - intros k g Hg. eapply offWall_boardSet; eauto.
      - eapply offWall_boardSet; eauto.
      - split; [lia|]. destruct I_score as [_ Hm].
        rewrite <- Z.add_mod_idemp_l, Hm by lia. reflexivity.
      - lia.
      - destruct I_speed as [?|[? _]]; [by left|right]. split; [done|lia]. }
    unfold pickedUp. fields. destruct (Z.eqb_spec t 2) as [->|Hne]; [|exact HS'].
    unpack HS'. constructor; fields; try assumption.
    right. split; [reflexivity|lia].
Qed.

Lemma Sound_powerUpTick s : Sound s -> Sound (powerUpTick s).
Proof.
  intros HS. unfold powerUpTick.
  destruct (F32.ltb fzero (powerUpTimer s)); [|exact HS]. fields.
  destruct (F32.leb _ fzero); [|destruct HS; constructor; fields; assumption].
  unpack HS. constructor; fields; try assumption; [lia|by left].
Qed.

Lemma advanceGhost_tag gt g :
  ghostTag (advanceGhost gt g) = ghostTag g /\
  gx (advanceGhost gt g) = gx g /\ gy (advanceGhost gt g) = gy g.
Proof.
  unfold advanceGhost, rampSpeed.
  destruct ((Z.rem gt 30 =? 0) && (gt >? 0)); repeat split; reflexivity.
Qed.

Lemma ghostMove_effect b tx ty g g' :
  ghostMove b tx ty g = Ok g' ->
  ghostTag g' = ghostTag g /\
  (offWall b (gx g) (gy g) -> offWall b (gx g') (gy g')).
Proof.
  unfold ghostMove. intros H.
  destruct (F32.ltb fzero _); [|apply Ok_inj in H; by subst g'].
  bind_inv H. apply Ok_inj in H. subst g'.
  destruct (Z.eqb_spec m 2) as [E|E]; simpl; [done|].
  split; [reflexivity|]. intros _. by exists m.
Qed.

Lemma updateGhost_effect rnd i s s' :
  updateGhost rnd i s = Ok s' ->
  s' = s \/
  exists g g' c, ghosts s !! i = Some g /\ activePowerUp s <> 1 /\
    ghostTag g' = ghostTag g /\
    (offWall (board s) (gx g) (gy g) -> offWall (board s) (gx g') (gy g')) /\
    (c = randCalls s \/ (behavior g = 3 /\ c = S (S (randCalls s)))) /\
    s' = set_ghosts (<[i := g']> (ghosts s)) (set_randCalls c s).
Proof.
  unfold updateGhost. intros H. bind_inv H. destruct m as [[[[s1 g] tx] ty]|].
  - apply ghostAim_Some in Hm.
    destruct Hm as (Hfz & g_i & g0 & c & Hgi & -> & _ & Htg & ->).
    bind_inv H. apply Ok_inj in H. subst s'. fields.
    apply ghostMove_effect in Hm. destruct Hm as (Htag & Hoff).
    destruct (advanceGhost_tag (gameTime s) g_i) as (Ht & Hx & Hy).
    right. exists g_i, m, c. split; [done|]. split; [done|].
    split; [congruence|]. split; [by rewrite Hx, Hy in Hoff|].
    split; [|by rewrite list_insert_insert_eq].
    unfold ghostTarget in Htg.
    assert (behavior (advanceGhost (gameTime s) g_i) = behavior g_i) as Hb
      by (by injection Ht).
    rewrite Hb in Htg.
    destruct (behavior g_i =? 0); [left; by injection Htg|].
    destruct (behavior g_i =? 1); [left; by injection Htg|].
    destruct (behavior g_i =? 2); [left; by injection Htg|].
    destruct (Z.eqb_spec (behavior g_i) 3); [|left; by injection Htg].
    bind_inv Htg. destruct (Z.rem m0 5 =? 0); [right|left]; by injection Htg.
  - left. by apply Ok_inj in H.
Qed.

Lemma Sound_updateGhost rnd i s s' : Sound s -> updateGhost rnd i s = Ok s' -> Sound s'.
Proof.
  intros HS H. apply updateGhost_effect in H.
  destruct H as [->|(g & g' & c & Hg & _ & Htag & Hoff & _ & ->)]; [exact HS|].
  unpack HS. constructor; fields; try assumption.
  - rewrite list_fmap_insert, Htag. rewrite list_insert_id; [done|].
    by rewrite list_lookup_fmap, Hg.
  - intros k y Hy. destruct (decide (k = i)) as [->|Hne].
    + rewrite list_lookup_insert_eq in Hy by (by eapply lookup_lt_Some).
      injection Hy as <-. apply Hoff. by eapply I_pursuers.
    + rewrite list_lookup_insert_ne in Hy by done. by eapply I_pursuers.
Qed.

Lemma Sound_moveGhostsFrom rnd n i s s' :
  Sound s -> moveGhostsFrom rnd n i s = Ok s' -> Sound s'.
Proof.
  revert i s. induction n as [|n IH]; intros i s HS H; simpl in H.
  - apply Ok_inj in H. by subst.
  - bind_inv H. eapply IH; [|exact H]. by eapply Sound_updateGhost.
Qed.

Lemma cell_kept b i j :
  eatenFrom board0 b -> boardGet board0 i j = Ok 0 -> boardGet b i j = Ok 0.
Proof.
  intros H H0. destruct (H i j 0 H0) as (c & Hc & [->|[_ ->]]); exact Hc.
Qed.

Lemma boardAt_cell b x y i j :
  F32.to_int y = Ok i -> F32.to_int x = Ok j -> boardAt b y x = boardGet b i j.
Proof. unfold boardAt. by intros -> ->. Qed.

(** The cells the program puts somebody on are empty in every board of a
    session. *)
Lemma reset_cells b :
  eatenFrom board0 b ->
  boardAt b (F32.of_int 1) (F32.of_int 1) = Ok 0 /\
  boardAt b (F32.of_int 10) (F32.of_int 10) = Ok 0 /\
  (forall k g, [blinky; pinky; inky; clyde] !! k = Some g -> boardAt b (gy g) (gx g) = Ok 0).
Proof.
  intros H.
  assert (forall x y i j, F32.to_int y = Ok i -> F32.to_int x = Ok j ->
            boardGet board0 i j = Ok 0 -> boardAt b y x = Ok 0) as Hat.
  { intros x y i j Hy Hx H0. rewrite (boardAt_cell _ _ _ _ _ Hy Hx). by apply cell_kept. }
  split; [|split].
  - by apply (Hat _ _ 1 1).
  - by apply (Hat _ _ 10 10).
  - intros k g Hk. destruct k as [|[|[|[|k]]]]; try discriminate Hk;
      injection Hk as <-.
    + by apply (Hat _ _ 18 18).
    + by apply (Hat _ _ 18 1).
    + by apply (Hat _ _ 1 18).
    + by apply (Hat _ _ 10 10).
Qed.

Lemma offWall_empty b x y : boardAt b y x = Ok 0 -> offWall b x y.
Proof. intros H. exists 0. split; [done|lia]. Qed.

Lemma Sound_saveHighScore s : Sound s -> Sound (saveHighScore s).
Proof.
  intros HS. unfold saveHighScore. destruct (score s >? highScore s); [|exact HS].
  fields. destruct (hsWritable s); destruct HS; constructor; fields; assumption.
Qed.

Lemma Sound_eatGhost i g s : Sound s -> ghosts s !! i = Some g -> Sound (eatGhost i g s).
Proof.
  intros HS Hg. unfold eatGhost.
  destruct (reset_cells _ (snd_board _ HS)) as (_ & H10 & _).
  unpack HS. constructor; fields; try assumption.
  - rewrite list_fmap_insert.
    change (ghostTag (ghost_set_pos (F32.of_int 10) (F32.of_int 10) g)) with (ghostTag g).
    rewrite list_insert_id; [done|]. by rewrite list_lookup_fmap, Hg.
  - intros k y Hy. destruct (decide (k = i)) as [->|Hne].
    + rewrite list_lookup_insert_eq in Hy by (by eapply lookup_lt_Some).
      injection Hy as <-. by apply offWall_empty.
    + rewrite list_lookup_insert_ne in Hy by done. by eapply I_pursuers.
  - split; [lia|]. destruct I_score as [_ Hm].
    rewrite <- Z.add_mod_idemp_l, Hm by lia. reflexivity.
Qed.

Lemma Sound_loseLife s : Sound s -> gameState s = PLAYING -> Sound (loseLife s).
Proof.
  intros HS Hp. unfold loseLife, initGhosts. fields.
  destruct (reset_cells _ (snd_board _ HS)) as (H1 & _ & Hg).
  assert (Sound (set_ghosts [blinky; pinky; inky; clyde]
            (set_pacman (pac_set_pos (F32.of_int 1) (F32.of_int 1) (pacman s))
               (set_lives (lives s - 1) s)))) as HS'.
  { unpack HS. constructor; fields; try assumption.
    - reflexivity.
    - intros k g Hk. apply offWall_empty. by eapply Hg.
    - by apply offWall_empty.
    - lia. }
  destruct (lives s - 1 <=? 0); [|exact HS'].
  apply Sound_saveHighScore. unpack HS'. constructor; fields; try assumption.
  split; [tauto|]. intros H. discriminate H.
Qed.

Lemma collideGhost_playing i s :
  gameState (collideGhost i s) = gameState s \/ gameState (collideGhost i s) = GAMEOVER.
Proof. by destruct (collideGhost_frame i s) as (_ & _ & _ & _ & _ & H). Qed.

(** A capture leaves the collision loop nothing to do. *)
Lemma collideFrom_effect fuel i s :
  collideFrom fuel i s = s \/
  (exists s1, collideFrom fuel i s = loseLife s1 /\ lives s1 = lives s /\
              gameState s1 = gameState s /\ score s <= score s1 /\
              (Sound s -> Sound s1)) \/
  (activePowerUp s = 0 /\ lives (collideFrom fuel i s) = lives s /\
   gameState (collideFrom fuel i s) = gameState s /\
   pacman (collideFrom fuel i s) = pacman s /\
   score s <= score (collideFrom fuel i s) /\
   (Sound s -> Sound (collideFrom fuel i s))).
Proof.
  revert i s. induction fuel as [|fuel IH]; intros i s; simpl; [by left|].
  destruct (i <? length (ghosts s))%nat; [|by left].
  destruct (collideGhost_cases i s) as [-> | [(g & Hg & _ & Ha & ->) | (g & _ & _ & _ & ->)]].
  - apply IH.
  - assert (activePowerUp (eatGhost i g s) = activePowerUp s /\
            lives (eatGhost i g s) = lives s /\
            gameState (eatGhost i g s) = gameState s /\
            pacman (eatGhost i g s) = pacman s /\
            score s <= score (eatGhost i g s)) as (Ea & El & Eg & Ep & Es)
      by (unfold eatGhost; fields; repeat split; try reflexivity; lia).
    pose proof (fun HS => Sound_eatGhost i g s HS Hg) as HSe.
    destruct (IH (S i) (eatGhost i g s))
      as [-> | [(s1 & -> & Hl & Hgs & Hs1 & HS1) | (_ & Hl & Hgs & Hpc & Hs2 & HS2)]].
    + right; right. split; [done|]. split; [done|]. split; [done|].
      split; [done|]. split; [done|]. exact HSe.
    + right; left. exists s1. split; [done|]. split; [congruence|].
      split; [congruence|]. split; [lia|]. intros HS. apply HS1. by apply HSe.
    + right; right. rewrite Hl, Hgs, Hpc. split; [done|]. split; [done|].
      split; [done|]. split; [done|]. split; [lia|].
      intros HS. apply HS2. by apply HSe.
  - right; left. exists s. rewrite collideFrom_after_reset.
    split; [done|]. split; [done|]. split; [done|]. split; [lia|done].
Qed.

Lemma Sound_collisions s : Sound s -> gameState s = PLAYING -> Sound (collisions s).
Proof.
  intros HS Hp. unfold collisions.
  destruct (collideFrom_effect (Nat.max (length (ghosts s)) 4) 0 s)
    as [-> | [(s1 & -> & _ & Hgs & _ & HS1) | (_ & _ & _ & _ & _ & HS2)]]; [done| |by apply HS2].
  apply Sound_loseLife; [by apply HS1|congruence].
Qed.

Lemma Sound_winCheck s : Sound s -> gameState s <> PAUSED -> Sound (winCheck s).
Proof.
  intros HS Hp. unfold winCheck. destruct (allPelletsEaten s); [|exact HS].
  apply Sound_saveHighScore. unpack HS. constructor; fields; try assumption.
  split; [tauto|]. intros H. discriminate H.
Qed.

Lemma Sound_beforeGhosts s m : Sound s -> beforeGhosts s = Ok m -> Sound m.
Proof.
  unfold beforeGhosts. intros HS H. bind_inv H. bind_inv H. bind_inv H.
  apply Ok_inj in H. subst m. apply Sound_powerUpTick.
  eapply Sound_collectPowerUp; [|exact Hm1].
  eapply Sound_eatPellet; [|exact Hm0].
  eapply Sound_movePacman; [|exact Hm]. by apply Sound_tickCounters.
Qed.

Lemma Sound_updateGame rnd s s' : Sound s -> updateGame rnd s = Ok s' -> Sound s'.
Proof.
  intros HS H. destruct (decide (gameState s = PLAYING)) as [Hp|Hp];
    [|rewrite updateGame_idle in H by done; apply Ok_inj in H; by subst].
  destruct (updateGame_playing _ _ _ Hp H) as (m & Hm & ->).
  pose proof (beforeCollisions_frame _ _ _ Hm) as (_ & _ & Hgs & _).
  unfold beforeCollisions in Hm. bind_inv Hm.
  assert (Sound m) as HSm.
  { eapply Sound_moveGhostsFrom; [|exact Hm]. by eapply Sound_beforeGhosts. }
  apply Sound_winCheck; [apply Sound_collisions; [done|congruence]|].
  destruct (collideFrom_frame (Nat.max (length (ghosts m)) 4) 0 m) as (_ & _ & _ & _ & _ & [E|E]);
    unfold collisions; rewrite E; congruence.
Qed.

Lemma Sound_run rnd es s s' : Sound s -> run rnd es s = Ok s' -> Sound s'.
Proof.
  revert s. induction es as [|e es IH]; intros s HS H; simpl in H.
  - apply Ok_inj in H. by subst.
  - bind_inv H. eapply IH; [|exact H].
    destruct e as [k|]; simpl in Hm; [by eapply Sound_keyboard|by eapply Sound_updateGame].
Qed.

(** ** The avatar stands on an empty cell *)

Lemma eatPellet_effect s s' :
  eatPellet s = Ok s' ->
  exists i j c,
    F32.to_int (py (pacman s)) = Ok i /\ F32.to_int (px (pacman s)) = Ok j /\
    boardGet (board s) i j = Ok c /\
    ((c <> 1 /\ s' = s) \/
     (c = 1 /\ s' = set_score (score s + 10) (set_board (boardSet (board s) i j 0) s))).
Proof.
  unfold eatPellet. intros H.
  destruct (F32.to_int (py (pacman s))) as [i|] eqn:Ei; cbn [bind] in H; [|discriminate H].
  destruct (F32.to_int (px (pacman s))) as [j|] eqn:Ej; cbn [bind] in H; [|discriminate H].
  destruct (boardGet (board s) i j) as [c|] eqn:Ec; cbn [bind] in H; [|discriminate H].
  apply Ok_inj in H. exists i, j, c. repeat split; try done.
  destruct (Z.eqb_spec c 1) as [->|Hc]; [right|left]; by split.
Qed.

Lemma onEmptyCell_at b p i j :
  F32.to_int (py p) = Ok i -> F32.to_int (px p) = Ok j ->
  boardGet b i j = Ok 0 -> onEmptyCell b p = true.
Proof.
  intros Hy Hx H. unfold onEmptyCell. by rewrite (boardAt_cell _ _ _ _ _ Hy Hx), H.
Qed.

Lemma cell_values b i j c :
  eatenFrom board0 b -> boardGet b i j = Ok c -> 0 <= c <= 3.
Proof.
  intros Hb Hc. pose proof (boardGet_Ok _ _ _ _ Hc) as (Hi & Hj & _).
  destruct (board0_cells i j Hi Hj) as (H0 & _ & Hr).
  destruct (Hb i j _ H0) as (c' & Hc' & Hstep). rewrite Hc in Hc'. injection Hc' as <-.
  destruct Hstep as [->|[_ ->]]; lia.
Qed.

Lemma settled_beforeGhosts s m :
  Sound s -> beforeGhosts s = Ok m -> onEmptyCell (board m) (pacman m) = true.
Proof.
  unfold beforeGhosts. intros HS H. bind_inv H. bind_inv H. bind_inv H.
  apply Ok_inj in H. subst m. rename m0 into s1, m1 into s2, m2 into s3.
  assert (Sound s1) as HS1 by (eapply Sound_movePacman; [|exact Hm]; by apply Sound_tickCounters).
  assert (Sound s2) as HS2 by (by eapply Sound_eatPellet).
  assert (onEmptyCell (board s3) (pacman s3) = true) as H3.
  { destruct (snd_avatar _ HS1) as (c & Hc & Hw).
    apply eatPellet_effect in Hm0.
    destruct Hm0 as (i & j & c1 & Hi & Hj & Hc1 & Heat).
    rewrite (boardAt_cell _ _ _ _ _ Hi Hj), Hc1 in Hc. injection Hc as <-.
    pose proof (cell_values _ _ _ _ (snd_board _ HS1) Hc1) as Hr.
    apply collectPowerUp_effect in Hm1; [|apply (snd_markers _ HS2)].
    destruct Hm1 as (i' & j' & c2 & Hi' & Hj' & Hc2 & Hcol).
    destruct Heat as [(Hne & ->)|(-> & ->)]; fields.
    - rewrite Hi in Hi'. rewrite Hj in Hj'. injection Hi' as <-. injection Hj' as <-.
      rewrite Hc1 in Hc2. injection Hc2 as <-.
      destruct Hcol as [(Hn3 & ->)|[(-> & _ & ->)|(-> & t & _ & ->)]].
      + apply (onEmptyCell_at _ _ i j); try done. rewrite Hc1. f_equal. lia.
      + apply (onEmptyCell_at _ _ i j); try done. by eapply boardGet_boardSet_same.
      + unfold pickedUp. fields.
        destruct (t =? 2); apply (onEmptyCell_at _ _ i j); try done;
          by eapply boardGet_boardSet_same.
    - rewrite Hi in Hi'. rewrite Hj in Hj'. injection Hi' as <-. injection Hj' as <-.
      rewrite (boardGet_boardSet_same _ _ _ _ _ Hc1) in Hc2. injection Hc2 as <-.
      destruct Hcol as [(_ & ->)|[(E & _)|(E & _)]]; [|discriminate E|discriminate E].
      apply (onEmptyCell_at _ _ i j); try done. by eapply boardGet_boardSet_same. }
  destruct (powerUpTick_frame s3) as (-> & _ & _ & _ & _ & _ & _ & _ & _ & _ & Hx & Hy).
  unfold onEmptyCell in *. by rewrite Hx, Hy.
Qed.

Lemma settled_collisions s :
  Sound s -> onEmptyCell (board s) (pacman s) = true ->
  onEmptyCell (board (collisions s)) (pacman (collisions s)) = true.
Proof.
  intros HS H. unfold collisions.
  pose proof (collideFrom_frame (Nat.max (length (ghosts s)) 4) 0 s) as (Hb & _).
  destruct (collideFrom_effect (Nat.max (length (ghosts s)) 4) 0 s)
    as [-> | [(s1 & E & _ & _ & _ & _) | (_ & _ & _ & Hp & _)]]; [done| |by rewrite Hb, Hp].
  rewrite Hb. rewrite E.
  destruct (loseLife_frame s1) as (_ & _ & _ & _ & _ & _ & _ & _ & _ & -> & _).
  destruct (reset_cells _ (snd_board _ HS)) as (H1 & _).
  unfold onEmptyCell. fields. by rewrite H1.
Qed.

Lemma settled_updateGame rnd s s' :
  Sound s -> onEmptyCell (board s) (pacman s) = true ->
  updateGame rnd s = Ok s' -> onEmptyCell (board s') (pacman s') = true.
Proof.
  intros HS Hs H. destruct (decide (gameState s = PLAYING)) as [Hp|Hp];
    [|rewrite updateGame_idle in H by done; apply Ok_inj in H; by subst].
  destruct (updateGame_playing _ _ _ Hp H) as (m & Hm & ->).
  unfold beforeCollisions in Hm. bind_inv Hm. rename m0 into m1.
  pose proof (settled_beforeGhosts _ _ HS Hm0) as H1.
  pose proof (moveGhostsFrom_frame _ _ _ _ _ Hm) as (Hb & Hpc & _).
  assert (Sound m) as HSm.
  { eapply Sound_moveGhostsFrom; [|exact Hm]. by eapply Sound_beforeGhosts. }
  destruct (winCheck_frame (collisions m)) as (-> & _ & _ & _ & -> & _).
  apply settled_collisions; [done|]. by rewrite Hb, Hpc.
Qed.

Lemma Settled_programStart f w : Settled (programStart f w).
Proof. split; [apply Sound_programStart|reflexivity]. Qed.

Lemma Settled_keyboard key s s' : Settled s -> keyboard key s = Ok s' -> Settled s'.
Proof.
  intros [HS Hs] H. split; [by eapply Sound_keyboard|].
  apply keyboard_effect in H. destruct H; try done.
Qed.

Lemma Settled_run rnd es s s' : Settled s -> run rnd es s = Ok s' -> Settled s'.
Proof.
  revert s. induction es as [|e es IH]; intros s HS H; simpl in H.
  - apply Ok_inj in H. by subst.
  - bind_inv H. eapply IH; [|exact H].
    destruct e as [k|]; simpl in Hm; [by eapply Settled_keyboard|].
    destruct HS as [HS Hs]. split; [by eapply Sound_updateGame|by eapply settled_updateGame].
Qed.

Lemma Settled_reachable rnd f w es s : run rnd es (programStart f w) = Ok s -> Settled s.
Proof. apply Settled_run, Settled_programStart. Qed.

(** ** The board, the score and the lives *)

Lemma activatePowerUp_score i j k us s s' :
  activatePowerUp i j k us s = Ok s' -> score s' = score s \/ score s' = score s + 50.
Proof.
  revert k. induction us as [|u us IH]; intros k H; simpl in H.
  - apply Ok_inj in H. subst. by left.
  - res_cases H; eauto. subst s'. right.
    match goal with |- context [if ?c then _ else _] => destruct c end; reflexivity.
Qed.

(** The board and the score after the first phases of a tick. *)
Lemma beforeGhosts_cell s m :
  beforeGhosts s = Ok m ->
  score s <= score m /\
  (board m = board s \/
   exists i j c, boardGet (board s) i j = Ok c /\ (c = 1 \/ c = 3) /\
                 board m = boardSet (board s) i j 0).
Proof.
  unfold beforeGhosts. intros H. bind_inv H. bind_inv H. bind_inv H.
  apply Ok_inj in H. subst m. rename m0 into s1, m1 into s2, m2 into s3.
  destruct (powerUpTick_frame s3) as (-> & _ & _ & -> & _).
  apply movePacman_frame in Hm. destruct Hm as (Hb1 & _ & _ & Hsc1 & _).
  destruct (tickCounters_frame s) as (Hb0 & _ & _ & Hsc0 & _).
  rewrite Hb0 in Hb1. rewrite Hsc0 in Hsc1.
  apply eatPellet_effect in Hm0. destruct Hm0 as (i & j & c & Hi & Hj & Hc & Heat).
  unfold collectPowerUp in Hm1.
  destruct Heat as [(Hne & ->)|(-> & ->)]; fields.
  - rewrite Hi in Hm1. cbn [bind] in Hm1. rewrite Hj in Hm1. cbn [bind] in Hm1.
    rewrite Hc in Hm1. cbn [bind] in Hm1.
    destruct (Z.eqb_spec c 3) as [->|Hn3].
    + pose proof (activatePowerUp_score _ _ _ _ _ _ Hm1) as Hs.
      apply activatePowerUp_frame in Hm1. destruct Hm1 as (-> & _). fields.
      split; [lia|]. right. exists i, j, 3. rewrite <- Hb1. repeat split; try done. by right.
    + apply Ok_inj in Hm1. subst s3. split; [lia|]. by left.
  - rewrite Hi in Hm1. cbn [bind] in Hm1. rewrite Hj in Hm1. cbn [bind] in Hm1.
    rewrite (boardGet_boardSet_same _ _ _ _ _ Hc) in Hm1. cbn [bind] in Hm1.
    apply Ok_inj in Hm1. subst s3. fields. split; [lia|].
    right. exists i, j, 1. rewrite <- Hb1. repeat split; try done. by left.
Qed.

Lemma collisions_score_lives s :
  score s <= score (collisions s) /\ lives (collisions s) <= lives s.
Proof.
  unfold collisions.
  destruct (collideFrom_effect (Nat.max (length (ghosts s)) 4) 0 s)
    as [-> | [(s1 & -> & Hl & _ & Hs & _) | (_ & Hl & _ & _ & Hs & _)]]; [lia| |lia].
  destruct (loseLife_frame s1) as (_ & _ & _ & _ & _ & _ & -> & -> & _). lia.
Qed.

Lemma updateGame_cell rnd s s' :
  updateGame rnd s = Ok s' ->
  score s <= score s' /\ lives s' <= lives s /\
  (board s' = board s \/
   exists i j c, boardGet (board s) i j = Ok c /\ (c = 1 \/ c = 3) /\
                 board s' = boardSet (board s) i j 0).
Proof.
  intros H. destruct (decide (gameState s = PLAYING)) as [Hp|Hp];
    [|rewrite updateGame_idle in H by done; apply Ok_inj in H; subst;
      split; [lia|]; split; [lia|by left]].
  destruct (updateGame_playing _ _ _ Hp H) as (m & Hm & ->).
  pose proof (beforeCollisions_lives _ _ _ Hm) as Hl.
  unfold beforeCollisions in Hm. bind_inv Hm. rename m0 into m1.
  destruct (beforeGhosts_cell _ _ Hm0) as (Hs1 & Hb1).
  pose proof (moveGhostsFrom_frame _ _ _ _ _ Hm) as (Hb & _ & _ & Hsc & _).
  destruct (winCheck_frame (collisions m)) as (-> & -> & -> & _).
  destruct (collisions_score_lives m) as (Hs2 & Hl2).
  destruct (collideFrom_frame (Nat.max (length (ghosts m)) 4) 0 m) as (Hbc & _).
  fold (collisions m) in Hbc. rewrite Hbc, Hb.
  split; [lia|]. split; [lia|exact Hb1].
Qed.

(** ** Eating a pellet *)

(** The phases of a tick before the pursuers move, by the cell the avatar
    has moved to. *)
Lemma beforeGhosts_eaten s m :
  beforeGhosts s = Ok m ->
  exists p i j c,
    movePacman (tickCounters s) = Ok p /\
    F32.to_int (py (pacman p)) = Ok i /\ F32.to_int (px (pacman p)) = Ok j /\
    boardGet (board s) i j = Ok c /\
    ((c = 1 /\ board m = boardSet (board s) i j 0 /\ score m = score s + 10) \/
     (c = 3 /\ board m = boardSet (board s) i j 0 /\ score s <= score m) \/
     (c <> 1 /\ c <> 3 /\ board m = board s /\ score m = score s)).
Proof.
  unfold beforeGhosts. intros H. bind_inv H. bind_inv H. bind_inv H.
  apply Ok_inj in H. subst m. rename m0 into s1, m1 into s2, m2 into s3.
  destruct (powerUpTick_frame s3) as (-> & _ & _ & -> & _).
  pose proof (movePacman_frame _ _ Hm) as (Hb1 & _ & _ & Hsc1 & _).
  destruct (tickCounters_frame s) as (Hb0 & _ & _ & Hsc0 & _).
  rewrite Hb0 in Hb1. rewrite Hsc0 in Hsc1.
  apply eatPellet_effect in Hm0. destruct Hm0 as (i & j & c & Hi & Hj & Hc & Heat).
  exists s1, i, j, c. rewrite <- Hb1.
  split; [done|]. split; [done|]. split; [done|]. split; [done|].
  unfold collectPowerUp in Hm1.
  destruct Heat as [(Hne & ->)|(-> & ->)]; fields.
  - rewrite Hi in Hm1. cbn [bind] in Hm1. rewrite Hj in Hm1. cbn [bind] in Hm1.
    rewrite Hc in Hm1. cbn [bind] in Hm1.
    destruct (Z.eqb_spec c 3) as [->|Hn3].
    + pose proof (activatePowerUp_score _ _ _ _ _ _ Hm1) as Hs.
      apply activatePowerUp_frame in Hm1. destruct Hm1 as (-> & _). fields.
      right. left. repeat split; try done. lia.
    + apply Ok_inj in Hm1. subst s3. right. right. repeat split; try done; lia.
  - rewrite Hi in Hm1. cbn [bind] in Hm1. rewrite Hj in Hm1. cbn [bind] in Hm1.
    rewrite (boardGet_boardSet_same _ _ _ _ _ Hc) in Hm1. cbn [bind] in Hm1.
    apply Ok_inj in Hm1. subst s3. fields. left. repeat split; try done; lia.
Qed.

(** C5, as the code has it. No tick changes the variable [totalPellets].
    A pellet cell is consumed, that is, holds a pellet before the tick and
    is empty after it, exactly when the session is in play and the avatar's
    move of that tick ends in the cell. The tick then changes no other
    cell, the number of pellet cells on the board goes down by exactly
    one, and 10 is added to the score before the collision loop runs. *)
Theorem eating_a_pellet rnd s s' :
  updateGame rnd s = Ok s' ->
  totalPellets s' = totalPellets s /\
  forall i j, boardGet (board s) i j = Ok 1 ->
    (boardGet (board s') i j = Ok 0 <->
     gameState s = PLAYING /\
     exists p, movePacman (tickCounters s) = Ok p /\
       F32.to_int (py (pacman p)) = Ok i /\ F32.to_int (px (pacman p)) = Ok j) /\
    (boardGet (board s') i j = Ok 0 ->
     board s' = boardSet (board s) i j 0 /\
     (pelletCount (board s') + 1 = pelletCount (board s))%nat /\
     (exists m, beforeCollisions rnd s = Ok m /\ score m = score s + 10) /\
     score s + 10 <= score s').
Proof.
  intros H. split; [by eapply updateGame_totalPellets|]. intros i j Hc.
  destruct (decide (gameState s = PLAYING)) as [Hp|Hp]; cycle 1.
  { rewrite updateGame_idle in H by done. apply Ok_inj in H. subst s'.
    split; [split|]; intros H'; try (rewrite Hc in H'; discriminate H').
    by destruct H'. }
  destruct (updateGame_playing _ _ _ Hp H) as (m & Hm & ->).
  pose proof Hm as Hm'.
  unfold beforeCollisions in Hm. bind_inv Hm. rename m0 into m1.
  pose proof (moveGhostsFrom_frame _ _ _ _ _ Hm) as (Hb & _ & _ & Hsc & _).
  destruct (winCheck_frame (collisions m)) as (-> & _ & -> & _).
  destruct (collisions_score_lives m) as (Hs2 & _).
  destruct (collideFrom_frame (Nat.max (length (ghosts m)) 4) 0 m) as (Hbc & _).
  fold (collisions m) in Hbc. rewrite Hbc, Hb.
  destruct (beforeGhosts_eaten _ _ Hm0) as (p & i0 & j0 & c & Hmv & Hi0 & Hj0 & Hc0 & Hcase).
  pose proof (boardGet_Ok _ _ _ _ Hc0) as (Hi0r & Hj0r & _).
  assert (boardGet (board m1) i j = Ok 0 -> i = i0 /\ j = j0 /\ c = 1) as Hsame.
  { intros H0. destruct Hcase as [(-> & E & _) | [(-> & E & _) | (_ & _ & E & _)]];
      rewrite E in H0.
    - destruct (decide ((i, j) = (i0, j0))) as [[= -> ->]|Hne]; [done|].
      rewrite boardGet_boardSet_other in H0 by (lia || done).
      rewrite Hc in H0. discriminate H0.
    - destruct (decide ((i, j) = (i0, j0))) as [[= -> ->]|Hne].
      + rewrite Hc in Hc0. discriminate Hc0.
      + rewrite boardGet_boardSet_other in H0 by (lia || done).
        rewrite Hc in H0. discriminate H0.
    - rewrite Hc in H0. discriminate H0. }
  split; [split|].
  - intros H0. destruct (Hsame H0) as (-> & -> & _). split; [done|]. by exists p.
  - intros (_ & p' & Hmv' & Hi & Hj). rewrite Hmv in Hmv'. apply Ok_inj in Hmv'. subst p'.
    rewrite Hi0 in Hi. apply Ok_inj in Hi. rewrite Hj0 in Hj. apply Ok_inj in Hj. subst i0 j0.
    rewrite Hc in Hc0. apply Ok_inj in Hc0. subst c.
    destruct Hcase as [(_ & E & _) | [(E & _) | (E & _)]]; try done.
    rewrite E. by eapply boardGet_boardSet_same.
  - intros H0. destruct (Hsame H0) as (-> & -> & ->).
    destruct Hcase as [(_ & E & Es) | [(E & _) | (E & _)]]; try done.
    rewrite E. split; [done|]. split; [by apply pelletCount_boardSet_pellet|].
    split; [exists m; split; [done|lia]|lia].
Qed.

(** C5 on the tenth tick of a session, in which the avatar enters cell
    (1,2): 307 pellet cells before, 306 after, [totalPellets] at 315. *)
Lemma eating_a_pellet_witness :
  run rndCount firstPelletEvents started = Ok firstPelletBefore /\
  updateGame rndCount firstPelletBefore = Ok firstPelletAfter /\
  boardGet (board firstPelletBefore) 1 2 = Ok 1 /\
  boardGet (board firstPelletAfter) 1 2 = Ok 0 /\
  totalPellets firstPelletAfter = totalPellets firstPelletBefore /\
  forall i j, boardGet (board firstPelletBefore) i j = Ok 1 ->
    (boardGet (board firstPelletAfter) i j = Ok 0 <->
     gameState firstPelletBefore = PLAYING /\
     exists p, movePacman (tickCounters firstPelletBefore) = Ok p /\
       F32.to_int (py (pacman p)) = Ok i /\ F32.to_int (px (pacman p)) = Ok j) /\
    (boardGet (board firstPelletAfter) i j = Ok 0 ->
     board firstPelletAfter = boardSet (board firstPelletBefore) i j 0 /\
     (pelletCount (board firstPelletAfter) + 1 = pelletCount (board firstPelletBefore))%nat /\
     (exists m, beforeCollisions rndCount firstPelletBefore = Ok m /\
                score m = score firstPelletBefore + 10) /\
     score firstPelletBefore + 10 <= score firstPelletAfter).
Proof.
  assert (boardGet (board firstPelletBefore) 1 2 = Ok 1) as H3 by reflexivity.
  assert (boardGet (board firstPelletAfter) 1 2 = Ok 0) as H4 by reflexivity.
  assert (run rndCount firstPelletEvents started = Ok firstPelletBefore) as H1
    by exact (proj1 firstPellet_run).
  assert (updateGame rndCount firstPelletBefore = Ok firstPelletAfter) as H2
    by exact (proj2 firstPellet_run).
  exact (conj H1 (conj H2 (conj H3 (conj H4
    (eating_a_pellet rndCount firstPelletBefore firstPelletAfter H2))))).
Defined.

(** ** Eating a pursuer *)

(** Under invincibility the collision loop sends every pursuer within
    reach to the centre and leaves the others where they are. *)
Lemma collideFrom_invincible_ghosts fuel i s :
  activePowerUp s = 0 -> (length (ghosts s) <= i + fuel)%nat ->
  ghosts (collideFrom fuel i s) =
  take i (ghosts s) ++ (toCentre (pacman s) <$> drop i (ghosts s)).
Proof.
  revert i s. induction fuel as [|fuel IH]; intros i s Ha Hlen; simpl.
  - rewrite drop_ge, take_ge by lia. by rewrite app_nil_r.
  - destruct (i <? length (ghosts s))%nat eqn:Ei.
    + apply Nat.ltb_lt in Ei.
      destruct (lookup_lt_is_Some_2 (ghosts s) i Ei) as [g Hg].
      rewrite (drop_S _ _ _ Hg). rewrite fmap_cons.
      destruct (captured (pacman s) g) eqn:Ec.
      * replace (toCentre (pacman s) g)
          with (ghost_set_pos (F32.of_int 10) (F32.of_int 10) g)
          by (unfold toCentre; by rewrite Ec).
        assert (collideGhost i s = eatGhost i g s) as ->.
        { unfold collideGhost. rewrite Hg, Ec.
          by replace (activePowerUp s =? 0) with true by (symmetry; by apply Z.eqb_eq). }
        rewrite IH; [|done|simpl; rewrite length_insert; lia].
        simpl. rewrite drop_insert_lt by lia.
        rewrite (take_S_r _ _ (ghost_set_pos (F32.of_int 10) (F32.of_int 10) g))
          by (apply list_lookup_insert_eq; lia).
        rewrite take_insert_ge by lia. by rewrite <- app_assoc.
      * replace (toCentre (pacman s) g) with g by (unfold toCentre; by rewrite Ec).
        rewrite collideGhost_miss by (intros g'; rewrite Hg; by intros [= <-]).
        rewrite IH; [|done|lia]. by rewrite (take_S_r _ _ _ Hg), <- app_assoc.
    + apply Nat.ltb_ge in Ei. rewrite drop_ge, take_ge by lia. by rewrite app_nil_r.
Qed.

(** C7. In a tick whose collision check finds pursuer [i] within reach of
    the avatar while Invincibility is the active effect, the lives are not
    decremented, the score grows by the capture bonus of 100 for each
    pursuer within reach, and each of them, pursuer [i] among them, is
    moved to the centre cell (10,10) and stays in the vector, which keeps
    its length and its other pursuers; the avatar stays where its move took
    it, and the session is not lost. *)
Theorem invincible_capture rnd s s' m i g :
  gameState s = PLAYING ->
  updateGame rnd s = Ok s' ->
  beforeCollisions rnd s = Ok m ->
  activePowerUp m = 0 ->
  ghosts m !! i = Some g ->
  captured (pacman m) g = true ->
  lives s' = lives s /\
  score s' = score m + 100 * Z.of_nat (length (filter (fun h => captured (pacman m) h = true)
                                                       (ghosts m))) /\
  score s + 100 <= score s' /\
  ghosts s' !! i = Some (ghost_set_pos (F32.of_int 10) (F32.of_int 10) g) /\
  ghosts s' = toCentre (pacman m) <$> ghosts m /\
  length (ghosts s') = length (ghosts m) /\
  pacman s' = pacman m /\
  gameState s' <> GAMEOVER.
Proof.
  intros Hp H Hm Ha Hg Hc.
  destruct (updateGame_playing _ _ _ Hp H) as (m' & Hm' & ->).
  rewrite Hm in Hm'. apply Ok_inj in Hm'. subst m'.
  destruct (winCheck_frame (collisions m)) as (_ & -> & -> & -> & -> & _ & _ & _ & _ & Hgs).
  unfold collisions in *.
  destruct (collideFrom_invincible (Nat.max (length (ghosts m)) 4) 0 m Ha)
    as (-> & Hst & -> & Hlen & _).
  rewrite collideFrom_invincible_score by (done || lia).
  rewrite collideFrom_invincible_ghosts by (done || lia).
  rewrite drop_0, take_0. simpl.
  pose proof (beforeCollisions_frame _ _ _ Hm) as (_ & _ & Hgm & Hl & _).
  assert (score s <= score m) as Hsc.
  { unfold beforeCollisions in Hm. bind_inv Hm.
    pose proof (moveGhostsFrom_frame _ _ _ _ _ Hm) as (_ & _ & _ & -> & _).
    by destruct (beforeGhosts_cell _ _ Hm0) as (? & _). }
  split; [done|]. split; [done|]. split.
  { assert (0 < length (filter (fun h => captured (pacman m) h = true) (ghosts m)))%nat.
    { pose proof (list_elem_of_lookup_2 _ _ _ Hg) as Hel.
      assert (g ∈ filter (fun h => captured (pacman m) h = true) (ghosts m)) as Hin
        by (apply list_elem_of_filter; by split).
      destruct (filter _ (ghosts m)); [by apply elem_of_nil in Hin|simpl; lia]. }
    lia. }
  split. { rewrite list_lookup_fmap, Hg. simpl. unfold toCentre. by rewrite Hc. }
  split; [done|]. split; [by rewrite length_fmap|]. split; [done|].
  rewrite Hgs. destruct (allPelletsEaten _); [done|].
  rewrite Hst, Hgm, Hp. done.
Qed.

Lemma invincible_run :
  run rndThree invincibleEvents started = Ok invincibleBefore /\
  updateGame rndThree invincibleBefore = Ok invincibleAfter /\
  beforeCollisions rndThree invincibleBefore = Ok invincibleMeeting.
Proof. split; [|split]; vm_compute; reflexivity. Qed.

(** C7 on the 165th tick of the session that picks up Invincibility and
    climbs into the second pursuer. *)
Lemma invincible_capture_witness :
  run rndThree invincibleEvents started = Ok invincibleBefore /\
  gameState invincibleBefore = PLAYING /\
  updateGame rndThree invincibleBefore = Ok invincibleAfter /\
  beforeCollisions rndThree invincibleBefore = Ok invincibleMeeting /\
  activePowerUp invincibleMeeting = 0 /\
  ghosts invincibleMeeting !! 1%nat = Some pinkyMet /\
  captured (pacman invincibleMeeting) pinkyMet = true /\
  lives invincibleAfter = lives invincibleBefore /\
  score invincibleAfter =
    score invincibleMeeting +
    100 * Z.of_nat (length (filter (fun h => captured (pacman invincibleMeeting) h = true)
                                   (ghosts invincibleMeeting))) /\
  score invincibleBefore + 100 <= score invincibleAfter /\
  ghosts invincibleAfter !! 1%nat =
    Some (ghost_set_pos (F32.of_int 10) (F32.of_int 10) pinkyMet) /\
  ghosts invincibleAfter = toCentre (pacman invincibleMeeting) <$> ghosts invincibleMeeting /\
  length (ghosts invincibleAfter) = length (ghosts invincibleMeeting) /\
  pacman invincibleAfter = pacman invincibleMeeting /\
  gameState invincibleAfter <> GAMEOVER.
Proof.
  assert (gameState invincibleBefore = PLAYING) as H2 by reflexivity.
  assert (activePowerUp invincibleMeeting = 0) as H5 by reflexivity.
  assert (ghosts invincibleMeeting !! 1%nat = Some pinkyMet) as H6 by reflexivity.
  assert (captured (pacman invincibleMeeting) pinkyMet = true) as H7
    by (vm_compute; reflexivity).
  destruct invincible_run as (H1 & H3 & H4).
  exact (conj H1 (conj H2 (conj H3 (conj H4 (conj H5 (conj H6 (conj H7
    (invincible_capture rndThree invincibleBefore invincibleAfter invincibleMeeting
       1 pinkyMet H2 H3 H4 H5 H6 H7)))))))).
Defined.

(** X1. Walls are permanent. In every state a run of the program reaches,
    each cell of the 20x20 board holds a value from 0 to 3, and it holds a
    wall exactly where [initBoard] left one: on the border and on the arms
    of the cross, but not in the centre cell (10,10), which it clears. *)
Theorem walls_never_change rnd f w es s i j :
  run rnd es (programStart f w) = Ok s ->
  0 <= i < ROWS -> 0 <= j < COLS ->
  exists c, boardGet (board s) i j = Ok c /\ 0 <= c <= 3 /\
            (c = 2 <-> wallCell i j = true).
Proof.
  intros H Hi Hj. apply Settled_reachable in H. destruct H as [HS _].
  destruct (board0_cells i j Hi Hj) as (H0 & Hw & Hr).
  destruct (snd_board _ HS i j _ H0) as (c & Hc & Hstep).
  exists c. split; [done|]. rewrite <- Hw.
  destruct Hstep as [->|[[E|E] ->]]; split; lia.
Qed.

Lemma walls_never_change_witness :
  run rndCount firstPelletEvents (programStart FileMissing true) = Ok firstPelletBefore /\
  0 <= 10 < ROWS /\ 0 <= 12 < COLS /\
  exists c, boardGet (board firstPelletBefore) 10 12 = Ok c /\ 0 <= c <= 3 /\
            (c = 2 <-> wallCell 10 12 = true).
Proof.
  assert (run rndCount firstPelletEvents (programStart FileMissing true)
          = Ok firstPelletBefore) as H1 by exact (proj1 firstPellet_run).
  assert (0 <= 10 < ROWS) as H2 by (unfold ROWS; lia).
  assert (0 <= 12 < COLS) as H3 by (unfold COLS; lia).
  exact (conj H1 (conj H2 (conj H3
    (walls_never_change rndCount FileMissing true firstPelletEvents firstPelletBefore
       10 12 H1 H2 H3)))).
Defined.

(** X2. A tick changes at most one cell of the board, from pellet or
    marker to empty, and leaves every other cell as it was. *)
Theorem tick_clears_one_cell rnd s s' :
  updateGame rnd s = Ok s' ->
  board s' = board s \/
  exists i j c, boardGet (board s) i j = Ok c /\ (c = 1 \/ c = 3) /\
                board s' = boardSet (board s) i j 0 /\
                boardGet (board s') i j = Ok 0 /\
                forall i' j', (i', j') <> (i, j) ->
                  boardGet (board s') i' j' = boardGet (board s) i' j'.
Proof.
  intros H. destruct (updateGame_cell _ _ _ H) as (_ & _ & [E|(i & j & c & Hc & Hv & E)]);
    [by left|right].
  exists i, j, c. rewrite E. repeat split; try done.
  - by eapply boardGet_boardSet_same.
  - intros i' j' Hne. pose proof (boardGet_Ok _ _ _ _ Hc) as (Hi & Hj & _).
    apply boardGet_boardSet_other; [lia|lia|done].
Qed.

Lemma tick_clears_one_cell_witness :
  updateGame rndCount firstPelletBefore = Ok firstPelletAfter /\
  (board firstPelletAfter = board firstPelletBefore \/
   exists i j c, boardGet (board firstPelletBefore) i j = Ok c /\ (c = 1 \/ c = 3) /\
                 board firstPelletAfter = boardSet (board firstPelletBefore) i j 0 /\
                 boardGet (board firstPelletAfter) i j = Ok 0 /\
                 forall i' j', (i', j') <> (i, j) ->
                   boardGet (board firstPelletAfter) i' j' =
                   boardGet (board firstPelletBefore) i' j').
Proof.
  assert (updateGame rndCount firstPelletBefore = Ok firstPelletAfter) as H1
    by exact (proj2 firstPellet_run).
  exact (conj H1 (tick_clears_one_cell rndCount firstPelletBefore firstPelletAfter H1)).
Defined.

(** X3. Between two events nobody stands in a wall: the avatar's cell is
    empty (a pellet or marker under it was eaten in the tick that brought
    it there), and every pursuer's cell is on the board and no wall. *)
Theorem nobody_stands_in_a_wall rnd f w es s :
  run rnd es (programStart f w) = Ok s ->
  boardAt (board s) (py (pacman s)) (px (pacman s)) = Ok 0 /\
  forall k g, ghosts s !! k = Some g ->
    exists c, boardAt (board s) (gy g) (gx g) = Ok c /\ c <> 2.
Proof.
  intros H. apply Settled_reachable in H. destruct H as [HS He]. split.
  - unfold onEmptyCell in He. destruct (boardAt _ _ _) as [c|]; [|discriminate He].
    apply Z.eqb_eq in He. by subst.
  - exact (snd_pursuers _ HS).
Qed.

Lemma nobody_stands_in_a_wall_witness :
  run rndCount firstPelletEvents (programStart FileMissing true) = Ok firstPelletBefore /\
  boardAt (board firstPelletBefore) (py (pacman firstPelletBefore))
          (px (pacman firstPelletBefore)) = Ok 0 /\
  forall k g, ghosts firstPelletBefore !! k = Some g ->
    exists c, boardAt (board firstPelletBefore) (gy g) (gx g) = Ok c /\ c <> 2.
Proof.
  assert (run rndCount firstPelletEvents (programStart FileMissing true)
          = Ok firstPelletBefore) as H1 by exact (proj1 firstPellet_run).
  exact (conj H1
    (nobody_stands_in_a_wall rndCount FileMissing true firstPelletEvents firstPelletBefore H1)).
Defined.

(** X4. The pursuers keep their identity: in every state a run reaches
    there are four of them, with the names, behaviours, colours and
    activity flags [initGhosts] gave them, in that order. *)
Theorem pursuers_keep_their_identity rnd f w es s :
  run rnd es (programStart f w) = Ok s ->
  length (ghosts s) = 4%nat /\
  (fun g => (gname g, behavior g, (gr g, gg g, gb g), isActive g)) <$> ghosts s =
  [ ("Blinky"%string, 0, (F32.of_int 1, fzero, fzero), true);
    ("Pinky"%string, 1, (F32.of_int 1, f0_4, f0_7), true);
    ("Inky"%string, 2, (fzero, F32.of_int 1, F32.of_int 1), true);
    ("Clyde"%string, 3, (F32.of_int 1, f0_6, fzero), true) ].
Proof.
  intros H. apply Settled_reachable in H. destruct H as [HS _].
  pose proof (snd_tags _ HS) as Ht.
  assert (length (ghosts s) = 4%nat) as Hl.
  { apply (f_equal length) in Ht. by rewrite !length_fmap in Ht. }
  split; [done|].
  destruct (ghosts s) as [|g0 [|g1 [|g2 [|g3 [|g4 l]]]]]; try discriminate Hl.
  unfold ghostTag in Ht. cbn [fmap list_fmap] in Ht |- *.
  injection Ht as E0 E1 E2 E3 E4 E5 E6 E7 E8 E9 E10 E11 E12 E13 E14 E15 E16 E17 E18 E19 E20 E21 E22 E23.
  by rewrite E0, E1, E2, E3, E4, E5, E6, E7, E8, E9, E10, E11, E12, E13, E14, E15,
    E16, E17, E18, E19, E20, E21, E22, E23.
Qed.

Lemma pursuers_keep_their_identity_witness :
  run rndCount firstPelletEvents (programStart FileMissing true) = Ok firstPelletBefore /\
  length (ghosts firstPelletBefore) = 4%nat /\
  (fun g => (gname g, behavior g, (gr g, gg g, gb g), isActive g)) <$> ghosts firstPelletBefore =
  [ ("Blinky"%string, 0, (F32.of_int 1, fzero, fzero), true);
    ("Pinky"%string, 1, (F32.of_int 1, f0_4, f0_7), true);
    ("Inky"%string, 2, (fzero, F32.of_int 1, F32.of_int 1), true);
    ("Clyde"%string, 3, (F32.of_int 1, f0_6, fzero), true) ].
Proof.
  assert (run rndCount firstPelletEvents (programStart FileMissing true)
          = Ok firstPelletBefore) as H1 by exact (proj1 firstPellet_run).
  exact (conj H1
    (pursuers_keep_their_identity rndCount FileMissing true firstPelletEvents
       firstPelletBefore H1)).
Defined.

(** The frame counter through a tick and through a key. *)
Lemma saveHighScore_frameCount s : frameCount (saveHighScore s) = frameCount s.
Proof.
  unfold saveHighScore. destruct (score s >? highScore s); [|done].
  cbn. by destruct (hsWritable s).
Qed.

Lemma collideFrom_frameCount fuel i s : frameCount (collideFrom fuel i s) = frameCount s.
Proof.
  revert i s. induction fuel as [|fuel IH]; intros i s; simpl; [done|].
  destruct (i <? length (ghosts s))%nat; [|done]. rewrite IH.
  destruct (collideGhost_cases i s) as [-> | [(g & _ & _ & _ & ->) | (g & _ & _ & _ & ->)]];
    try done.
  unfold loseLife. cbn. destruct (lives s - 1 <=? 0); [|done].
  by rewrite saveHighScore_frameCount.
Qed.

Lemma moveGhostsFrom_frameCount rnd n i s s' :
  moveGhostsFrom rnd n i s = Ok s' -> frameCount s' = frameCount s.
Proof.
  revert i s. induction n as [|n IH]; intros i s H; simpl in H.
  - by apply Ok_inj in H; subst.
  - bind_inv H. rewrite (IH _ _ H). clear H IH.
    unfold updateGhost in Hm. bind_inv Hm. destruct m0 as [[[[s1 g] tx] ty]|].
    + apply ghostAim_Some in Hm0. destruct Hm0 as (_ & g_i & g0 & c & _ & _ & _ & _ & ->).
      bind_inv Hm. by apply Ok_inj in Hm; subst.
    + by apply Ok_inj in Hm; subst.
Qed.

Lemma activatePowerUp_frameCount i j k us s s' :
  activatePowerUp i j k us s = Ok s' -> frameCount s' = frameCount s.
Proof.
  revert k. induction us as [|u us IH]; intros k H; simpl in H.
  - by apply Ok_inj in H; subst.
  - res_cases H; eauto. subst s'.
    by match goal with |- context [if ?c then _ else _] => destruct c end.
Qed.

Lemma beforeGhosts_frameCount s s' :
  beforeGhosts s = Ok s' -> frameCount s' = frameCount s + 1.
Proof.
  unfold beforeGhosts. intros H. bind_inv H. bind_inv H. bind_inv H.
  apply Ok_inj in H. subst s'. rename m into s1, m0 into s2, m1 into s3.
  assert (frameCount (powerUpTick s3) = frameCount s3) as ->.
  { unfold powerUpTick. destruct (F32.ltb fzero (powerUpTimer s3)); [|done].
    cbn. by destruct (F32.leb _ fzero). }
  assert (frameCount s3 = frameCount s2) as ->.
  { unfold collectPowerUp in Hm1. res_cases Hm1.
    - by rewrite (activatePowerUp_frameCount _ _ _ _ _ _ Hm1).
    - by subst. }
  assert (frameCount s2 = frameCount s1) as ->.
  { unfold eatPellet in Hm0. res_cases Hm0. subst s2.
    by match goal with |- context [if ?c then _ else _] => destruct c end. }
  unfold movePacman in Hm. bind_inv Hm. apply Ok_inj in Hm. subst s1.
  assert (frameCount (tickCounters s) = frameCount s + 1) as <-.
  { unfold tickCounters. cbn. by destruct (Z.rem (frameCount s + 1) 60 =? 0). }
  by destruct (negb (m =? 2)).
Qed.

Lemma updateGame_frameCount rnd s s' :
  updateGame rnd s = Ok s' ->
  frameCount s' = frameCount s \/ frameCount s' = frameCount s + 1.
Proof.
  intros H. destruct (decide (gameState s = PLAYING)) as [Hp|Hp];
    [|rewrite updateGame_idle in H by done; apply Ok_inj in H; subst; by left].
  right. destruct (updateGame_playing _ _ _ Hp H) as (m & Hm & ->).
  unfold beforeCollisions in Hm. bind_inv Hm.
  rewrite <- (beforeGhosts_frameCount _ _ Hm0), <- (moveGhostsFrom_frameCount _ _ _ _ _ Hm).
  unfold winCheck, collisions. destruct (allPelletsEaten _).
  - rewrite saveHighScore_frameCount. cbn. apply collideFrom_frameCount.
  - apply collideFrom_frameCount.
Qed.

Lemma keyboard_frameCount key s s' :
  keyboard key s = Ok s' -> frameCount s' = frameCount s \/ frameCount s' = 0.
Proof.
  intros H. apply keyboard_effect in H. destruct H; auto.
Qed.

Lemma run_frameCount rnd es s s' :
  0 <= frameCount s -> run rnd es s = Ok s' ->
  0 <= frameCount s' <= frameCount s + Z.of_nat (length es).
Proof.
  revert s. induction es as [|e es IH]; intros s H0 H; simpl in H.
  - apply Ok_inj in H. subst. simpl. lia.
  - bind_inv H. assert (0 <= frameCount m <= frameCount s + 1) as Hm'.
    { destruct e as [key|]; simpl in Hm.
      - destruct (keyboard_frameCount _ _ _ Hm) as [-> | ->]; lia.
      - destruct (updateGame_frameCount _ _ _ Hm) as [-> | ->]; lia. }
    specialize (IH m (proj1 Hm') H). simpl length. lia.
Qed.

(** X5. The session clock counts ticks in play. In every state reached by
    a run of at most [INT_MAX] events, the frame counter lies between 0 and
    the number of events, so the [int] of the code has not overflowed, and
    [gameTime] is the frame counter divided by 60, rounded down; ticks
    outside play count for neither. *)
Theorem clock_counts_sixty_ticks rnd f w es s :
  run rnd es (programStart f w) = Ok s ->
  Z.of_nat (length es) <= F32.INT_MAX ->
  0 <= frameCount s <= Z.of_nat (length es) /\
  frameCount s <= F32.INT_MAX /\
  gameTime s = frameCount s / 60.
Proof.
  intros H Hlen.
  assert (0 <= frameCount s <= Z.of_nat (length es)) as Hf.
  { assert (frameCount (programStart f w) = 0) as E0 by (by destruct f).
    pose proof (run_frameCount _ _ _ _ ltac:(rewrite E0; lia) H) as Hr.
    rewrite E0 in Hr. lia. }
  apply Settled_reachable in H. destruct H as [HS _].
  split; [done|]. split; [lia|]. exact (proj2 (snd_frames _ HS)).
Qed.

Lemma clock_counts_sixty_ticks_witness :
  run rndPlan freezeEvents (programStart FileMissing true) = Ok frozenBefore /\
  Z.of_nat (length freezeEvents) <= F32.INT_MAX /\
  0 <= frameCount frozenBefore <= Z.of_nat (length freezeEvents) /\
  frameCount frozenBefore <= F32.INT_MAX /\
  gameTime frozenBefore = frameCount frozenBefore / 60.
Proof.
  assert (Z.of_nat (length freezeEvents) <= F32.INT_MAX) as H2
    by (vm_compute; intros E; discriminate E).
  assert (run rndPlan freezeEvents (programStart FileMissing true) = Ok frozenBefore) as H1
    by exact (proj1 frozen_run).
  exact (conj H1 (conj H2
    (clock_counts_sixty_ticks rndPlan FileMissing true freezeEvents frozenBefore H1 H2))).
Defined.

(** X6. The score is never negative and always a multiple of 10, there
    are never more than 3 lives, and a tick neither lowers the score nor
    raises the lives. *)
Theorem score_up_lives_down rnd f w es s s' :
  run rnd es (programStart f w) = Ok s ->
  updateGame rnd s = Ok s' ->
  0 <= score s /\ score s mod 10 = 0 /\ lives s <= 3 /\
  score s <= score s' /\ lives s' <= lives s.
Proof.
  intros H Ht. apply Settled_reachable in H. destruct H as [HS _].
  destruct (snd_score _ HS) as (H0 & Hm).
  destruct (updateGame_cell _ _ _ Ht) as (Hs & Hl & _).
  pose proof (snd_lives _ HS). repeat split; try done.
Qed.

Lemma score_up_lives_down_witness :
  run rndCount firstPelletEvents (programStart FileMissing true) = Ok firstPelletBefore /\
  updateGame rndCount firstPelletBefore = Ok firstPelletAfter /\
  0 <= score firstPelletBefore /\ score firstPelletBefore mod 10 = 0 /\
  lives firstPelletBefore <= 3 /\
  score firstPelletBefore <= score firstPelletAfter /\
  lives firstPelletAfter <= lives firstPelletBefore.
Proof.
  assert (run rndCount firstPelletEvents (programStart FileMissing true)
          = Ok firstPelletBefore) as H1 by exact (proj1 firstPellet_run).
  assert (updateGame rndCount firstPelletBefore = Ok firstPelletAfter) as H2
    by exact (proj2 firstPellet_run).
  exact (conj H1 (conj H2
    (score_up_lives_down rndCount FileMissing true firstPelletEvents
       firstPelletBefore firstPelletAfter H1 H2))).
Defined.

(** X7. Markers and power-ups go together: in every state a run
    reaches, the four power-ups are those of [initPowerUps], and each is
    active exactly when its cell of the board still holds the marker. *)
Theorem markers_match_powerups rnd f w es s :
  run rnd es (programStart f w) = Ok s ->
  powerUps s = markersOn (board s) /\
  forall k u, powerUps s !! k = Some u ->
    exists i j, F32.to_int (uy u) = Ok i /\ F32.to_int (ux u) = Ok j /\
                (active u = true <-> boardGet (board s) i j = Ok 3).
Proof.
  intros H. apply Settled_reachable in H. destruct H as [HS _].
  pose proof (snd_markers _ HS) as Hm. split; [done|].
  assert (forall i j, marked (board s) i j = true <-> boardGet (board s) i j = Ok 3) as Hmk.
  { intros i j. unfold marked. destruct (boardGet (board s) i j) as [c|]; [|done].
    rewrite Z.eqb_eq. split; [by intros ->|by intros [= ->]]. }
  intros k u Hk. rewrite Hm in Hk. unfold markersOn in Hk.
  change (COLS - 4) with 16 in Hk. change (ROWS - 4) with 16 in Hk.
  destruct k as [|[|[|[|k]]]]; try discriminate Hk;
    cbn [lookup list_lookup] in Hk; apply (inj Some) in Hk; subst u;
    cbn [ux uy active].
  - exists 3, 3. rewrite to_int_3. by repeat split; try apply Hmk.
  - exists 3, 16. rewrite to_int_3, to_int_16. by repeat split; try apply Hmk.
  - exists 16, 3. rewrite to_int_3, to_int_16. by repeat split; try apply Hmk.
  - exists 16, 16. rewrite to_int_16. by repeat split; try apply Hmk.
Qed.

Lemma markers_match_powerups_witness :
  run rndPlan freezeEvents (programStart FileMissing true) = Ok frozenBefore /\
  powerUps frozenBefore = markersOn (board frozenBefore) /\
  forall k u, powerUps frozenBefore !! k = Some u ->
    exists i j, F32.to_int (uy u) = Ok i /\ F32.to_int (ux u) = Ok j /\
                (active u = true <-> boardGet (board frozenBefore) i j = Ok 3).
Proof.
  assert (run rndPlan freezeEvents (programStart FileMissing true) = Ok frozenBefore) as H1
    by exact (proj1 frozen_run).
  exact (conj H1
    (markers_match_powerups rndPlan FileMissing true freezeEvents frozenBefore H1)).
Defined.

(** X8. The avatar moves along an axis or rests, the active effect is
    none (-1), Invincible, Freeze or Speed, and the avatar's speed is 0.1,
    or 0.15 while some effect is active (the boost outlives a change of
    effect). *)
Theorem avatar_velocity rnd f w es s :
  run rnd es (programStart f w) = Ok s ->
  axisStep (dirX (pacman s)) (dirY (pacman s)) /\
  -1 <= activePowerUp s <= 2 /\
  (pspeed (pacman s) = f0_1 \/ (pspeed (pacman s) = f0_15 /\ activePowerUp s <> -1)).
Proof.
  intros H. apply Settled_reachable in H. destruct H as [HS _].
  split; [exact (snd_dir _ HS)|]. split; [exact (snd_effect _ HS)|exact (snd_speed _ HS)].
Qed.

Lemma avatar_velocity_witness :
  run rndPlan freezeEvents (programStart FileMissing true) = Ok frozenBefore /\
  axisStep (dirX (pacman frozenBefore)) (dirY (pacman frozenBefore)) /\
  -1 <= activePowerUp frozenBefore <= 2 /\
  (pspeed (pacman frozenBefore) = f0_1 \/
   (pspeed (pacman frozenBefore) = f0_15 /\ activePowerUp frozenBefore <> -1)).
Proof.
  assert (run rndPlan freezeEvents (programStart FileMissing true) = Ok frozenBefore) as H1
    by exact (proj1 frozen_run).
  exact (conj H1 (avatar_velocity rndPlan FileMissing true freezeEvents frozenBefore H1)).
Defined.

(** ** What a tick leaves of the resume flag *)

Lemma activatePowerUp_previousState i j k us s s' :
  activatePowerUp i j k us s = Ok s' -> previousState s' = previousState s.
Proof.
  revert k. induction us as [|u us IH]; intros k H; simpl in H.
  - apply Ok_inj in H. by subst.
  - res_cases H; eauto. subst s'.
    match goal with |- context [if ?c then _ else _] => destruct c end; reflexivity.
Qed.

Lemma beforeGhosts_previousState s m :
  beforeGhosts s = Ok m -> previousState m = previousState s.
Proof.
  unfold beforeGhosts. intros H. bind_inv H. bind_inv H. bind_inv H.
  apply Ok_inj in H. subst m.
  assert (previousState (tickCounters s) = previousState s) as E0.
  { unfold tickCounters. fields. by destruct (Z.rem _ 60 =? 0). }
  assert (previousState m0 = previousState (tickCounters s)) as E1.
  { unfold movePacman in Hm. bind_inv Hm. apply Ok_inj in Hm. subst m0.
    by destruct (negb (m =? 2)). }
  assert (previousState m1 = previousState m0) as E2.
  { apply eatPellet_cases in Hm0. by destruct Hm0 as [->|(i & j & _ & _ & _ & ->)]. }
  assert (previousState m2 = previousState m1) as E3.
  { unfold collectPowerUp in Hm1. res_cases Hm1; [|by subst].
    by apply activatePowerUp_previousState in Hm1. }
  assert (previousState (powerUpTick m2) = previousState m2) as E4.
  { unfold powerUpTick. destruct (F32.ltb fzero _); [|done]. fields.
    by destruct (F32.leb _ fzero). }
  congruence.
Qed.

Lemma moveGhostsFrom_previousState rnd n i s s' :
  moveGhostsFrom rnd n i s = Ok s' -> previousState s' = previousState s.
Proof.
  revert i s. induction n as [|n IH]; intros i s H; simpl in H.
  - apply Ok_inj in H. by subst.
  - bind_inv H. apply IH in H. rewrite H.
    apply updateGhost_effect in Hm.
    by destruct Hm as [->|(g & g' & c & _ & _ & _ & _ & _ & ->)].
Qed.

Lemma saveHighScore_previousState s : previousState (saveHighScore s) = previousState s.
Proof.
  unfold saveHighScore. destruct (score s >? highScore s); [|done]. fields.
  by destruct (hsWritable s).
Qed.

Lemma loseLife_previousState s : previousState (loseLife s) = previousState s.
Proof.
  unfold loseLife, initGhosts. fields. destruct (lives s - 1 <=? 0); [|done].
  by rewrite saveHighScore_previousState.
Qed.

Lemma collideFrom_previousState fuel i s :
  previousState (collideFrom fuel i s) = previousState s.
Proof.
  revert i s. induction fuel as [|fuel IH]; intros i s; simpl; [done|].
  destruct (i <? length (ghosts s))%nat; [|done]. rewrite IH.
  destruct (collideGhost_cases i s) as [-> | [(g & _ & _ & _ & ->) | (g & _ & _ & _ & ->)]];
    [done|done|apply loseLife_previousState].
Qed.

Lemma updateGame_previousState rnd s s' :
  updateGame rnd s = Ok s' -> previousState s' = previousState s.
Proof.
  intros H. destruct (decide (gameState s = PLAYING)) as [Hp|Hp];
    [|rewrite updateGame_idle in H by done; apply Ok_inj in H; by subst].
  destruct (updateGame_playing _ _ _ Hp H) as (m & Hm & ->).
  unfold beforeCollisions in Hm. bind_inv Hm.
  apply beforeGhosts_previousState in Hm0. apply moveGhostsFrom_previousState in Hm.
  unfold winCheck. destruct (allPelletsEaten _);
    rewrite ?saveHighScore_previousState; fields; unfold collisions;
    rewrite collideFrom_previousState; congruence.
Qed.

(** ** How a tick ends *)

Lemma updateGame_outcome rnd s s' :
  gameState s = PLAYING -> updateGame rnd s = Ok s' ->
  (gameState s' = WIN /\ allPelletsEaten s' = true \/
   gameState s' = GAMEOVER /\ allPelletsEaten s' = false /\ lives s' <= 0 /\
     lives s' = lives s - 1 \/
   gameState s' = PLAYING /\ allPelletsEaten s' = false /\
     (lives s' = lives s \/ lives s' = lives s - 1 /\ 0 < lives s')).
Proof.
  intros Hp H. destruct (updateGame_playing _ _ _ Hp H) as (m & Hm & ->).
  pose proof (beforeCollisions_frame _ _ _ Hm) as (_ & _ & Hgs & Hl & _).
  rewrite Hp in Hgs.
  destruct (winCheck_frame (collisions m)) as (Hb & -> & _ & _ & _ & _ & _ & _ & _ & ->).
  rewrite (allPelletsEaten_ext _ _ Hb).
  destruct (allPelletsEaten (collisions m)); [by left|right].
  unfold collisions.
  destruct (collideFrom_effect (Nat.max (length (ghosts m)) 4) 0 m)
    as [-> | [(s1 & -> & Hl1 & Hg1 & _ & _) | (_ & -> & -> & _)]].
  - right. repeat split; try done. left. lia.
  - destruct (loseLife_frame s1) as (_ & _ & _ & _ & _ & _ & _ & -> & _ & _ & ->).
    rewrite Hg1, Hgs. destruct (Z.leb_spec (lives s1 - 1) 0).
    + left. repeat split; try done; lia.
    + right. repeat split; try done. right. lia.
  - right. repeat split; try done. left. lia.
Qed.

(** ** End screens *)

Lemma Earned_keyboard key s s' : Earned s -> keyboard key s = Ok s' -> Earned s'.
Proof.
  intros HE H. apply keyboard_effect in H.
  assert (forall x : State, gameState x = PLAYING \/ gameState x = PAUSED \/
            gameState x = MENU \/ gameState x = HELP \/ gameState x = HIGHSCORE ->
            Earned x) as Hno.
  { intros x Hx. unfold Earned.
    repeat split; try (intros [E|E]); try intros E; rewrite E in Hx;
      destruct Hx as [?|[?|[?|[?|?]]]]; discriminate. }
  destruct H as [ | _ _ | _ _ _ | st _ _ _ _ Hst | dx dy _ _ Hp _ _ | _ _ | _ _ ].
  - exact HE.
  - apply Hno. by left.
  - apply Hno. by left.
  - apply Hno. fields. tauto.
  - apply Hno. fields. by left.
  - apply Hno. right. by left.
  - apply Hno. by left.
Qed.

Lemma Earned_updateGame rnd s s' : Earned s -> updateGame rnd s = Ok s' -> Earned s'.
Proof.
  intros HE H. destruct (decide (gameState s = PLAYING)) as [Hp|Hp];
    [|rewrite updateGame_idle in H by done; apply Ok_inj in H; by subst].
  pose proof (updateGame_outcome _ _ _ Hp H) as Ho.
  pose proof (updateGame_store _ _ _ Hp H) as (_ & Hst).
  assert (gameState s' = GAMEOVER \/ gameState s' = WIN -> score s' <= highScore s') as Hb.
  { intros Hg. destruct Hst as [(_ & -> & _)|(E & _)]; [lia|].
    rewrite E in Hg. destruct Hg as [Hg|Hg]; discriminate Hg. }
  unfold Earned. destruct Ho as [(E & Ha)|[(E & _ & Hl & _)|(E & _)]].
  - split; [intros E'; rewrite E in E'; discriminate E'|]. by split.
  - split; [done|]. split; [intros E'; rewrite E in E'; discriminate E'|done].
  - split; [intros E'; rewrite E in E'; discriminate E'|].
    split; [intros E'; rewrite E in E'; discriminate E'|done].
Qed.

Lemma Earned_run rnd es s s' : Earned s -> run rnd es s = Ok s' -> Earned s'.
Proof.
  revert s. induction es as [|e es IH]; intros s HS H; simpl in H.
  - apply Ok_inj in H. by subst.
  - bind_inv H. eapply IH; [|exact H].
    destruct e as [k|]; simpl in Hm; [by eapply Earned_keyboard|by eapply Earned_updateGame].
Qed.

Lemma Earned_programStart f w : Earned (programStart f w).
Proof. repeat split; try (intros [E|E]); try intros E; discriminate E. Qed.

(** X12. The end screens are earned: in every state a run reaches, the
    Lost screen comes with no life left, the Won screen with no pellet
    left, and on both the best score is at least the score. *)
Theorem end_screens_are_earned rnd f w es s :
  run rnd es (programStart f w) = Ok s ->
  (gameState s = GAMEOVER -> lives s <= 0) /\
  (gameState s = WIN -> allPelletsEaten s = true) /\
  (gameState s = GAMEOVER \/ gameState s = WIN -> score s <= highScore s).
Proof. intros H. exact (Earned_run _ _ _ _ (Earned_programStart f w) H). Qed.

Lemma not_resume_key key :
  Key key <> Key "r" -> Key key <> Key "R" -> is_key key "r" "R" = false.
Proof.
  intros H1 H2. unfold is_key.
  destruct (Ascii.eqb_spec key "r"); [congruence|].
  destruct (Ascii.eqb_spec key "R"); [congruence|]. done.
Qed.

(** X12 on the session lost on its 492nd tick. *)
Lemma end_screens_are_earned_witness :
  run rndCount (lostEvents ++ [Tick]) (programStart FileMissing true) = Ok lostAfter /\
  gameState lostAfter = GAMEOVER /\
  (gameState lostAfter = GAMEOVER -> lives lostAfter <= 0) /\
  (gameState lostAfter = WIN -> allPelletsEaten lostAfter = true) /\
  (gameState lostAfter = GAMEOVER \/ gameState lostAfter = WIN ->
   score lostAfter <= highScore lostAfter).
Proof.
  assert (gameState lostAfter = GAMEOVER) as H2 by reflexivity.
  assert (run rndCount (lostEvents ++ [Tick]) (programStart FileMissing true)
          = Ok lostAfter) as H1.
  { rewrite run_app. fold started. rewrite (proj1 lost_run). cbn [bind run handle].
    rewrite (proj2 lost_run). reflexivity. }
  exact (conj H1 (conj H2
    (end_screens_are_earned rndCount FileMissing true (lostEvents ++ [Tick]) lostAfter H1))).
Defined.

Lemma allPelletsEaten_reset s : allPelletsEaten (set_gameState PLAYING (resetGame s)) = false.
Proof.
  rewrite (allPelletsEaten_ext (programStart FileMissing true)); [|reflexivity].
  vm_compute; reflexivity.
Qed.

Lemma Alive_keyboard key s s' :
  is_key key "r" "R" = false -> Alive s -> keyboard key s = Ok s' -> Alive s'.
Proof.
  intros Hk HA H. apply keyboard_effect in H.
  destruct H as [ | _ _ | Hr _ _ | st _ _ _ _ Hst | dx dy _ _ Hp _ _ | _ Hp | _ Hp ].
  - exact HA.
  - intros _. split; [done|apply allPelletsEaten_reset].
  - congruence.
  - unfold Alive. fields. intros [E|E]; subst st; destruct Hst as [?|[?|?]]; discriminate.
  - unfold Alive in *. fields. intros _. destruct HA as (Hl & Ha); [by left|].
    split; [done|]. rewrite <- Ha. by apply allPelletsEaten_ext.
  - unfold Alive in *. fields. intros _. destruct HA as (Hl & Ha); [by left|].
    split; [done|]. rewrite <- Ha. by apply allPelletsEaten_ext.
  - unfold Alive in *. fields. intros _. destruct HA as (Hl & Ha); [by right|].
    split; [done|]. rewrite <- Ha. by apply allPelletsEaten_ext.
Qed.

Lemma Alive_updateGame rnd s s' : Alive s -> updateGame rnd s = Ok s' -> Alive s'.
Proof.
  intros HA H. destruct (decide (gameState s = PLAYING)) as [Hp|Hp];
    [|rewrite updateGame_idle in H by done; apply Ok_inj in H; by subst].
  destruct HA as (Hl & _); [by left|].
  pose proof (updateGame_outcome _ _ _ Hp H) as Ho.
  intros Hg.
  destruct Ho as [(E & _)|[(E & _)|(E & Ha & Hl')]].
  - rewrite E in Hg. destruct Hg as [Hg|Hg]; discriminate Hg.
  - rewrite E in Hg. destruct Hg as [Hg|Hg]; discriminate Hg.
  - split; [lia|done].
Qed.

(** X13. As long as R was never pressed, a session in play or paused has
    between 1 and 3 lives and a pellet left. *)
Theorem play_needs_lives_and_pellets rnd f w es s :
  Forall (fun e => e <> Key "r" /\ e <> Key "R") es ->
  run rnd es (programStart f w) = Ok s ->
  gameState s = PLAYING \/ gameState s = PAUSED ->
  1 <= lives s <= 3 /\ allPelletsEaten s = false.
Proof.
  intros Hes H Hg.
  pose proof (Settled_reachable _ _ _ _ _ H) as [HS _].
  assert (Alive s) as HA.
  { assert (Alive (programStart f w)) as H0 by (intros [E|E]; discriminate E).
    revert H0 H. generalize (programStart f w) as s0. clear HS Hg.
    induction es as [|e es IH]; intros s0 H0 H; simpl in H.
    - apply Ok_inj in H. by subst.
    - apply Forall_cons in Hes. destruct Hes as [[He1 He2] Hes].
      bind_inv H. eapply (IH Hes); [|exact H].
      destruct e as [k|]; simpl in Hm.
      + eapply Alive_keyboard; [|exact H0|exact Hm]. by apply not_resume_key.
      + by eapply Alive_updateGame. }
  destruct (HA Hg) as (Hl & Ha). pose proof (snd_lives _ HS). by repeat split.
Qed.

Lemma play_needs_lives_and_pellets_witness :
  Forall (fun e => e <> Key "r" /\ e <> Key "R") firstPelletEvents /\
  run rndCount firstPelletEvents (programStart FileMissing true) = Ok firstPelletBefore /\
  (gameState firstPelletBefore = PLAYING \/ gameState firstPelletBefore = PAUSED) /\
  1 <= lives firstPelletBefore <= 3 /\ allPelletsEaten firstPelletBefore = false.
Proof.
  assert (Forall (fun e => e <> Key "r" /\ e <> Key "R") firstPelletEvents) as H1
    by (repeat constructor; discriminate).
  assert (run rndCount firstPelletEvents (programStart FileMissing true)
          = Ok firstPelletBefore) as H2 by exact (proj1 firstPellet_run).
  assert (gameState firstPelletBefore = PLAYING \/ gameState firstPelletBefore = PAUSED)
    as H3 by (left; reflexivity).
  exact (conj H1 (conj H2 (conj H3
    (play_needs_lives_and_pellets rndCount FileMissing true firstPelletEvents
       firstPelletBefore H1 H2 H3)))).
Defined.

(** ** The resume flag *)

Lemma keyboard_previousState key s s' :
  keyboard key s = Ok s' ->
  previousState s' = previousState s \/
  (is_key key "p" "P" = true /\ previousState s' = PAUSED).
Proof.
  intros H. apply keyboard_effect in H.
  destruct H as [ | _ _ | _ _ _ | st _ _ _ _ _ | dx dy _ _ _ _ _ | Hk _ | _ _ ];
    try (by left). by right.
Qed.

Lemma not_pause_key key :
  Key key <> Key "p" -> Key key <> Key "P" -> is_key key "p" "P" = false.
Proof.
  intros H1 H2. unfold is_key.
  destruct (Ascii.eqb_spec key "p"); [congruence|].
  destruct (Ascii.eqb_spec key "P"); [congruence|]. done.
Qed.

(** X9. Resume needs an earlier pause: as long as P was never pressed,
    the resume flag is still [MENU], the session is not paused, and the R
    key changes nothing in any state. *)
Theorem resume_needs_a_pause rnd f w es s :
  Forall (fun e => e <> Key "p" /\ e <> Key "P") es ->
  run rnd es (programStart f w) = Ok s ->
  previousState s = MENU /\ gameState s <> PAUSED /\
  keyboard "r" s = Ok s /\ keyboard "R" s = Ok s.
Proof.
  intros Hes H.
  pose proof (Settled_reachable _ _ _ _ _ H) as [HS _].
  assert (previousState s = MENU) as Hp.
  { assert (previousState (programStart f w) = MENU) as H0 by (by destruct f).
    revert H0 H. generalize (programStart f w) as s0. clear HS.
    induction es as [|e es IH]; intros s0 H0 H; simpl in H.
    - apply Ok_inj in H. by subst.
    - apply Forall_cons in Hes. destruct Hes as [[He1 He2] Hes].
      bind_inv H. eapply (IH Hes); [|exact H].
      destruct e as [k|]; simpl in Hm.
      + destruct (keyboard_previousState _ _ _ Hm) as [->|(Hk & _)]; [done|].
        by rewrite not_pause_key in Hk.
      + apply updateGame_previousState in Hm. congruence. }
  split; [done|]. split.
  - intros Hg. apply (snd_prev _ HS) in Hg. congruence.
  - unfold keyboard. cbn [Ascii.eqb is_key Bool.eqb orb andb ascii_of_nat ascii_of_pos].
    rewrite Hp. split; by destruct (bool_decide (gameState s = MENU)).
Qed.

Lemma resume_needs_a_pause_witness :
  Forall (fun e => e <> Key "p" /\ e <> Key "P") firstPelletEvents /\
  run rndCount firstPelletEvents (programStart FileMissing true) = Ok firstPelletBefore /\
  previousState firstPelletBefore = MENU /\ gameState firstPelletBefore <> PAUSED /\
  keyboard "r" firstPelletBefore = Ok firstPelletBefore /\
  keyboard "R" firstPelletBefore = Ok firstPelletBefore.
Proof.
  assert (Forall (fun e => e <> Key "p" /\ e <> Key "P") firstPelletEvents) as H1
    by (repeat constructor; discriminate).
  assert (run rndCount firstPelletEvents (programStart FileMissing true)
          = Ok firstPelletBefore) as H2 by exact (proj1 firstPellet_run).
  exact (conj H1 (conj H2
    (resume_needs_a_pause rndCount FileMissing true firstPelletEvents
       firstPelletBefore H1 H2))).
Defined.

Lemma run_previousState rnd es s s' :
  run rnd es s = Ok s' -> previousState s = PAUSED -> previousState s' = PAUSED.
Proof.
  revert s. induction es as [|e es IH]; intros s H Hp; simpl in H.
  - apply Ok_inj in H. by subst.
  - bind_inv H. eapply IH; [exact H|].
    destruct e as [k|]; simpl in Hm.
    + destruct (keyboard_previousState _ _ _ Hm) as [->|(_ & ->)]; done.
    + apply updateGame_previousState in Hm. congruence.
Qed.

(** X10. The resume flag is never cleared: once [previousState] is
    [PAUSED] it stays so whatever happens, a new session and a lost or won
    one included; and then, from every state but play, M followed by R
    puts the session back in play with nothing else changed. *)
Theorem resume_flag_is_never_cleared rnd es s s' :
  previousState s = PAUSED ->
  run rnd es s = Ok s' ->
  previousState s' = PAUSED /\
  (gameState s' <> PLAYING ->
   run rnd [Key "m"; Key "r"] s' = Ok (set_gameState PLAYING s')).
Proof.
  intros Hp H. pose proof (run_previousState _ _ _ _ H Hp) as Hp'.
  split; [done|]. intros Hg.
  destruct s' as [g p]. cbn [previousState gameState] in Hp', Hg. subst p.
  destruct g; try (exfalso; by apply Hg); reflexivity.
Qed.

Lemma resume_flag_is_never_cleared_witness :
  previousState pausedOnce = PAUSED /\
  run rndCount [Tick; Key "d"; Tick] pausedOnce = Ok pausedOnce /\
  previousState pausedOnce = PAUSED /\
  (gameState pausedOnce <> PLAYING ->
   run rndCount [Key "m"; Key "r"] pausedOnce = Ok (set_gameState PLAYING pausedOnce)).
Proof.
  assert (previousState pausedOnce = PAUSED) as H1 by reflexivity.
  assert (run rndCount [Tick; Key "d"; Tick] pausedOnce = Ok pausedOnce) as H2
    by reflexivity.
  exact (conj H1 (conj H2
    (resume_flag_is_never_cleared rndCount [Tick; Key "d"; Tick] pausedOnce pausedOnce
       H1 H2))).
Defined.

(** ** Pause *)

Lemma keyboard_total key s :
  key <> ascii_of_nat 27 -> exists s', keyboard key s = Ok s'.
Proof.
  intros Hk. unfold keyboard.
  destruct (Ascii.eqb_spec key (ascii_of_nat 27)); [done|].
  repeat match goal with
  | |- context [if ?c then Ok _ else _] => destruct c; [eexists; reflexivity|]
  end.
  eexists; reflexivity.
Qed.

Lemma paused_ignores rnd e s :
  gameState s = PAUSED -> keepsPause e -> handle rnd e s = Ok s.
Proof.
  intros Hg (He & Hm1 & Hm2 & Hp1 & Hp2). destruct e as [k|]; simpl.
  - destruct (keyboard_total k s) as (s' & H); [congruence|]. rewrite H. f_equal.
    assert (is_key k "m" "M" = false) as Hm.
    { unfold is_key. destruct (Ascii.eqb_spec k "m"); [congruence|].
      destruct (Ascii.eqb_spec k "M"); [congruence|]. done. }
    pose proof (not_pause_key k Hp1 Hp2) as Hp.
    apply keyboard_effect in H.
    destruct H as [ | _ E | _ E _ | st _ _ E1 [E2|E2] _ | dx dy _ _ E _ _ | E _ | E _ ];
      try done; congruence.
  - apply updateGame_idle. congruence.
Qed.

Lemma paused_run rnd es s :
  gameState s = PAUSED -> Forall keepsPause es -> run rnd es s = Ok s.
Proof.
  intros Hg Hes. induction Hes as [|e es He _ IH]; [done|].
  simpl. by rewrite paused_ignores.
Qed.

(** X11. A pause freezes the session: between two presses of P, ticks
    and all keys but Esc, M and P change nothing; the second press gives
    back the state of the first, with the resume flag set. *)
Theorem pause_freezes_the_session rnd es s :
  gameState s = PLAYING ->
  Forall keepsPause es ->
  run rnd (Key "p" :: es ++ [Key "p"]) s = Ok (set_previousState PAUSED s) /\
  run rnd (Key "p" :: es) s = Ok (set_gameState PAUSED (set_previousState PAUSED s)).
Proof.
  intros Hg Hes.
  assert (keyboard "p" s = Ok (set_gameState PAUSED (set_previousState PAUSED s))) as Hk.
  { unfold keyboard. cbn [Ascii.eqb is_key Bool.eqb orb andb ascii_of_nat ascii_of_pos].
    by rewrite bool_decide_eq_true_2. }
  assert (run rnd es (set_gameState PAUSED (set_previousState PAUSED s)) =
          Ok (set_gameState PAUSED (set_previousState PAUSED s))) as Hr
    by (by apply paused_run).
  split.
  - cbn [run handle]. rewrite Hk. cbn [bind]. rewrite run_app, Hr. cbn [bind run handle].
    destruct s as [g p]. cbn [gameState] in Hg. subst g. reflexivity.
  - cbn [run handle]. rewrite Hk. cbn [bind]. exact Hr.
Qed.

Lemma pause_freezes_the_session_witness :
  gameState firstPelletBefore = PLAYING /\
  Forall keepsPause [Tick; Key "d"; Key " "; Key "r"; Tick] /\
  run rndCount (Key "p" :: [Tick; Key "d"; Key " "; Key "r"; Tick] ++ [Key "p"])
      firstPelletBefore = Ok (set_previousState PAUSED firstPelletBefore) /\
  run rndCount (Key "p" :: [Tick; Key "d"; Key " "; Key "r"; Tick]) firstPelletBefore =
    Ok (set_gameState PAUSED (set_previousState PAUSED firstPelletBefore)).
Proof.
  assert (gameState firstPelletBefore = PLAYING) as H1 by reflexivity.
  assert (Forall keepsPause [Tick; Key "d"; Key " "; Key "r"; Tick]) as H2
    by (repeat constructor; discriminate).
  exact (conj H1 (conj H2
    (pause_freezes_the_session rndCount [Tick; Key "d"; Key " "; Key "r"; Tick]
       firstPelletBefore H1 H2))).
Defined.

(** ** The best score *)

(** X14. The best score in memory never drops during a run of the
    program, whatever the keys, the ticks and the sessions played. *)
Theorem best_score_never_drops rnd es s s' :
  run rnd es s = Ok s' -> highScore s <= highScore s'.
Proof.
  revert s. induction es as [|e es IH]; intros s H; simpl in H.
  - apply Ok_inj in H. subst. lia.
  - bind_inv H. apply IH in H. etransitivity; [|exact H].
    destruct e as [k|]; simpl in Hm.
    + apply keyboard_store in Hm. destruct Hm as (-> & _). lia.
    + destruct (decide (gameState s = PLAYING)) as [Hp|Hp];
        [|rewrite updateGame_idle in Hm by done; apply Ok_inj in Hm; subst; lia].
      destruct (updateGame_store _ _ _ Hp Hm) as (_ & [(_ & -> & _)|(_ & -> & _)]); lia.
Qed.

Lemma best_score_never_drops_witness :
  run rndCount firstPelletEvents started = Ok firstPelletBefore /\
  highScore started <= highScore firstPelletBefore.
Proof.
  assert (run rndCount firstPelletEvents started = Ok firstPelletBefore) as H1
    by exact (proj1 firstPellet_run).
  exact (conj H1 (best_score_never_drops rndCount firstPelletEvents started
                    firstPelletBefore H1)).
Defined.

(** ** Rendering *)

Ltac not_banner H :=
  solve [ cbn [In] in H;
          repeat (destruct H as [<-|H]; [cbn [drawnText]; discriminate|]);
          destruct H ].

Lemma display_banner s d :
  In d (display s) -> drawnText d = Some "NEW HIGH SCORE!"%string ->
  gameState s = WIN /\ highScore s < score s.
Proof.
  unfold display. intros H.
  apply in_app_or in H. destruct H as [H|H]; [not_banner H|].
  apply in_app_or in H. destruct H as [H|H]; [|not_banner H].
  destruct (gameState s) eqn:Eg; try (not_banner H).
  - repeat (apply in_app_or in H; destruct H as [H|H]); try (not_banner H).
    + apply in_map_iff in H. destruct H as (g & <- & _). discriminate.
    + destruct (activePowerUp s >=? 0); [|destruct H].
      destruct (activePowerUp s =? 0); [not_banner H|].
      destruct (activePowerUp s =? 1); [not_banner H|].
      destruct (activePowerUp s =? 2); not_banner H.
  - repeat (apply in_app_or in H; destruct H as [H|H]); try (not_banner H).
    + apply in_map_iff in H. destruct H as (g & <- & _). discriminate.
    + destruct (activePowerUp s >=? 0); [|destruct H].
      destruct (activePowerUp s =? 0); [not_banner H|].
      destruct (activePowerUp s =? 1); [not_banner H|].
      destruct (activePowerUp s =? 2); not_banner H.
  - destruct (Z.gtb_spec (score s) (highScore s)) as [Hgt|Hle].
    + intros _. split; [done|lia].
    + repeat (apply in_app_or in H; destruct H as [H|H]); not_banner H.
Qed.

(** X15. [display] never draws the text "NEW HIGH SCORE!": by the time
    the Won screen is shown, [saveHighScore] has raised the best score to
    the score, so the comparison that guards the text fails. *)
Theorem no_new_high_score_banner rnd f w es s d :
  run rnd es (programStart f w) = Ok s ->
  In d (display s) -> drawnText d <> Some "NEW HIGH SCORE!"%string.
Proof.
  intros H Hd Ht. destruct (display_banner _ _ Hd Ht) as (Hg & Hlt).
  destruct (Earned_run _ _ _ _ (Earned_programStart f w) H) as (_ & _ & Hb).
  specialize (Hb (or_intror Hg)). lia.
Qed.

Lemma no_new_high_score_banner_witness :
  run rndCount firstPelletEvents (programStart FileMissing true) = Ok firstPelletBefore /\
  In call_drawBoard (display firstPelletBefore) /\
  drawnText call_drawBoard <> Some "NEW HIGH SCORE!"%string.
Proof.
  assert (run rndCount firstPelletEvents (programStart FileMissing true)
          = Ok firstPelletBefore) as H1 by exact (proj1 firstPellet_run).
  assert (In call_drawBoard (display firstPelletBefore)) as H2
    by (right; right; right; left; reflexivity).
  exact (conj H1 (conj H2
    (no_new_high_score_banner rndCount FileMissing true firstPelletEvents
       firstPelletBefore call_drawBoard H1 H2))).
Defined.

(** X18. [intToString] can be read back: parsing its text as a decimal
    number gives the value, so different values have different texts. *)
Theorem intToString_reads_back (z : Z) :
  option_map Z.of_int (NilZero.int_of_string (intToString z)) = Some z /\
  (forall z', intToString z' = intToString z <-> z' = z).
Proof.
  assert (forall v, NilZero.int_of_string (intToString v) = Some (Z.to_int v)) as Hrt.
  { intros v. unfold intToString. apply NilZero.isi.
    - destruct v as [|p|p]; simpl; try discriminate.
      intros [= E]. by apply Unsigned.to_uint_nonnil in E.
    - destruct v as [|p|p]; simpl; try discriminate.
      intros [= E]. by apply Unsigned.to_uint_nonnil in E. }
  split.
  - rewrite Hrt. simpl. by rewrite DecimalZ.of_to.
  - intros z'. split; [|by intros ->].
    intros E. apply (f_equal NilZero.int_of_string) in E. rewrite !Hrt in E.
    injection E as E. by apply DecimalZ.to_int_inj.
Qed.

(** X19. Pressing P in play changes one thing on the screen: the frame
    of the paused session is that of the session in play with the pause
    banner drawn last, before the buffers are swapped. *)
Theorem pause_adds_only_the_banner s s' :
  gameState s = PLAYING ->
  keyboard "p" s = Ok s' ->
  exists frame,
    display s = frame ++ [glutSwapBuffers] /\
    display s' =
      frame ++ [call_drawText (F32.lit 55 10) (F32.lit 100 10) "PAUSED - Press P to Resume";
                glutSwapBuffers].
Proof.
  intros Hg H.
  assert (s' = set_gameState PAUSED (set_previousState PAUSED s)) as ->.
  { unfold keyboard in H.
    cbn [Ascii.eqb is_key Bool.eqb orb andb ascii_of_nat ascii_of_pos] in H.
    rewrite bool_decide_eq_true_2 in H by done. by apply Ok_inj in H. }
  unfold display. fields. rewrite Hg. cbn [bool_decide decide_rel GameState_eq_dec].
  eexists. split.
  - rewrite !app_assoc. rewrite app_nil_r. reflexivity.
  - rewrite !app_assoc. exact (eq_sym (app_assoc _ [_] [_])).
Qed.

Lemma pause_adds_only_the_banner_witness :
  gameState firstPelletBefore = PLAYING /\
  keyboard "p" firstPelletBefore =
    Ok (set_gameState PAUSED (set_previousState PAUSED firstPelletBefore)) /\
  exists frame,
    display firstPelletBefore = frame ++ [glutSwapBuffers] /\
    display (set_gameState PAUSED (set_previousState PAUSED firstPelletBefore)) =
      frame ++ [call_drawText (F32.lit 55 10) (F32.lit 100 10) "PAUSED - Press P to Resume";
                glutSwapBuffers].
Proof.
  assert (gameState firstPelletBefore = PLAYING) as H1 by reflexivity.
  assert (keyboard "p" firstPelletBefore =
            Ok (set_gameState PAUSED (set_previousState PAUSED firstPelletBefore))) as H2
    by reflexivity.
  exact (conj H1 (conj H2 (pause_adds_only_the_banner firstPelletBefore _ H1 H2))).
Defined.

(** ** The duration of an effect *)

Lemma timerAfter_S k t : timerAfter (S k) t = F32.sub (timerAfter k t) f0_016.
Proof. revert t. induction k as [|k IH]; intros t; [done|]. simpl in *. by rewrite IH. Qed.

Lemma staysOn_spec k t :
  staysOn k t = true ->
  forall i, (i < k)%nat ->
    F32.ltb fzero (timerAfter i t) = true /\ F32.leb (timerAfter (S i) t) fzero = false.
Proof.
  revert t. induction k as [|k IH]; intros t H i Hi; [lia|].
  cbn [staysOn] in H. apply andb_prop in H. destruct H as [H H3].
  apply andb_prop in H. destruct H as [H1 H2]. apply negb_true_iff in H2.
  destruct i as [|i]; [by split|].
  apply (IH _ H3 i). lia.
Qed.

Lemma powerUpTick_on s :
  F32.ltb fzero (powerUpTimer s) = true ->
  F32.leb (F32.sub (powerUpTimer s) f0_016) fzero = false ->
  powerUpTick s = set_powerUpTimer (F32.sub (powerUpTimer s) f0_016) s.
Proof. intros H1 H2. unfold powerUpTick. rewrite H1. fields. by rewrite H2. Qed.

Lemma powerUpTick_off s :
  F32.ltb fzero (powerUpTimer s) = true ->
  F32.leb (F32.sub (powerUpTimer s) f0_016) fzero = true ->
  powerUpTick s =
  set_pacman (pac_set_speed f0_1 (pacman s))
    (set_activePowerUp (-1) (set_powerUpTimer (F32.sub (powerUpTimer s) f0_016) s)).
Proof. intros H1 H2. unfold powerUpTick. rewrite H1. fields. by rewrite H2. Qed.

Lemma effect_stays s k n :
  staysOn k (powerUpTimer s) = true -> (n <= k)%nat ->
  activePowerUp (Nat.iter n powerUpTick s) = activePowerUp s /\
  pacman (Nat.iter n powerUpTick s) = pacman s /\
  powerUpTimer (Nat.iter n powerUpTick s) = timerAfter n (powerUpTimer s).
Proof.
  intros Hk. induction n as [|n IH]; intros Hn; [done|].
  destruct IH as (Ha & Hp & Ht); [lia|].
  destruct (staysOn_spec _ _ Hk n) as (H1 & H2); [lia|].
  rewrite Nat.iter_succ. rewrite powerUpTick_on; rewrite Ht; [|done|by rewrite <- timerAfter_S].
  fields. rewrite timerAfter_S. done.
Qed.

Lemma staysOn_312 : staysOn 312 f5_0 = true.
Proof. vm_compute; reflexivity. Qed.

Lemma expires_at_313 :
  F32.ltb fzero (timerAfter 312 f5_0) = true /\
  F32.leb (timerAfter 313 f5_0) fzero = true.
Proof. split; vm_compute; reflexivity. Qed.

(** X16. An effect lasts 313 timer steps: from the value 5.0 set at the
    pick-up, [powerUpTick] leaves the effect and the avatar's speed alone
    for 312 steps, and its 313th step ends the effect and puts the speed
    back to 0.1; further steps change nothing. *)
Theorem effect_lasts_313_ticks s n :
  powerUpTimer s = f5_0 ->
  ((n < effectTicks)%nat ->
     activePowerUp (Nat.iter n powerUpTick s) = activePowerUp s /\
     pspeed (pacman (Nat.iter n powerUpTick s)) = pspeed (pacman s) /\
     F32.ltb fzero (powerUpTimer (Nat.iter n powerUpTick s)) = true) /\
  ((effectTicks <= n)%nat ->
     activePowerUp (Nat.iter n powerUpTick s) = -1 /\
     pspeed (pacman (Nat.iter n powerUpTick s)) = f0_1 /\
     F32.ltb fzero (powerUpTimer (Nat.iter n powerUpTick s)) = false).
Proof.
  intros Ht. pose proof staysOn_312 as Hon. rewrite <- Ht in Hon.
  destruct expires_at_313 as (Hpos & Hend). rewrite <- Ht in Hpos, Hend.
  unfold effectTicks. split.
  - intros Hn. destruct (effect_stays s 312 n Hon) as (Ha & Hp & Hti); [lia|].
    rewrite Ha, Hp, Hti. repeat split.
    destruct (decide (n = 312%nat)) as [->|Hne]; [exact Hpos|].
    apply (staysOn_spec _ _ Hon n). lia.
  - intros Hn.
    destruct (effect_stays s 312 312 Hon) as (Ha & Hp & Hti); [lia|].
    assert (activePowerUp (Nat.iter (S 312) powerUpTick s) = -1 /\
            pspeed (pacman (Nat.iter (S 312) powerUpTick s)) = f0_1 /\
            F32.ltb fzero (powerUpTimer (Nat.iter (S 312) powerUpTick s)) = false) as H313.
    { rewrite Nat.iter_succ. rewrite powerUpTick_off;
        rewrite Hti; [|exact Hpos|by rewrite <- timerAfter_S].
      fields. repeat split. rewrite <- timerAfter_S. by apply leb_zero_not_gt. }
    replace n with ((n - 313) + S 312)%nat by lia.
    generalize (n - 313)%nat as m. intros m. induction m as [|m IH]; [exact H313|].
    rewrite Nat.add_succ_l, Nat.iter_succ.
    destruct IH as (I1 & I2 & I3). rewrite powerUpTick_idle by exact I3. done.
Qed.

Lemma effect_lasts_313_ticks_witness :
  powerUpTimer freshEffect = f5_0 /\
  ((312 < effectTicks)%nat ->
     activePowerUp (Nat.iter 312 powerUpTick freshEffect) = activePowerUp freshEffect /\
     pspeed (pacman (Nat.iter 312 powerUpTick freshEffect)) = pspeed (pacman freshEffect) /\
     F32.ltb fzero (powerUpTimer (Nat.iter 312 powerUpTick freshEffect)) = true) /\
  ((effectTicks <= 312)%nat ->
     activePowerUp (Nat.iter 312 powerUpTick freshEffect) = -1 /\
     pspeed (pacman (Nat.iter 312 powerUpTick freshEffect)) = f0_1 /\
     F32.ltb fzero (powerUpTimer (Nat.iter 312 powerUpTick freshEffect)) = false).
Proof.
  assert (powerUpTimer freshEffect = f5_0) as H1 by reflexivity.
  exact (conj H1 (effect_lasts_313_ticks freshEffect 312 H1)).
Defined.

(** ** The update of one pursuer *)

(** X20. The update of one pursuer is local: it leaves the other
    pursuers, every pursuer's identity, the board, the avatar, the score,
    the lives, the screen and the power-ups alone, and it calls [rand()]
    twice, or not at all; twice only for the Random pursuer. *)
Theorem pursuer_update_is_local rnd i s s' :
  updateGhost rnd i s = Ok s' ->
  (forall k, k <> i -> ghosts s' !! k = ghosts s !! k) /\
  ghostTag <$> ghosts s' = ghostTag <$> ghosts s /\
  board s' = board s /\ pacman s' = pacman s /\ score s' = score s /\
  lives s' = lives s /\ gameState s' = gameState s /\
  powerUps s' = powerUps s /\
  (randCalls s' = randCalls s \/
   exists g, ghosts s !! i = Some g /\ behavior g = 3 /\ randCalls s' = S (S (randCalls s))).
Proof.
  intros H. apply updateGhost_effect in H.
  destruct H as [->|(g & g' & c & Hg & _ & Htag & _ & Hc & ->)].
  - repeat split; try done. by left.
  - fields. split; [|split].
    + intros k Hk. by rewrite list_lookup_insert_ne.
    + rewrite list_fmap_insert, Htag. rewrite list_insert_id; [done|].
      by rewrite list_lookup_fmap, Hg.
    + repeat split; try done.
      destruct Hc as [->|(Hb & ->)]; [by left|right]. by exists g.
Qed.

Lemma pursuer_update_is_local_witness :
  updateGhost rndCount 3 firstTick = Ok clydeMoved /\
  (forall k, k <> 3%nat -> ghosts clydeMoved !! k = ghosts firstTick !! k) /\
  ghostTag <$> ghosts clydeMoved = ghostTag <$> ghosts firstTick /\
  board clydeMoved = board firstTick /\ pacman clydeMoved = pacman firstTick /\
  score clydeMoved = score firstTick /\
  lives clydeMoved = lives firstTick /\ gameState clydeMoved = gameState firstTick /\
  powerUps clydeMoved = powerUps firstTick /\
  (randCalls clydeMoved = randCalls firstTick \/
   exists g, ghosts firstTick !! 3%nat = Some g /\ behavior g = 3 /\
             randCalls clydeMoved = S (S (randCalls firstTick))).
Proof.
  assert (updateGhost rndCount 3 firstTick = Ok clydeMoved) as H1
    by (vm_compute; reflexivity).
  exact (conj H1 (pursuer_update_is_local rndCount 3 firstTick clydeMoved H1)).
Defined.

(** ** Calls of [rand()] *)

Lemma activatePowerUp_randCalls i j k us s s' :
  activatePowerUp i j k us s = Ok s' -> randCalls s' = randCalls s.
Proof.
  revert k. induction us as [|u us IH]; intros k H; simpl in H.
  - apply Ok_inj in H. by subst.
  - res_cases H; eauto. subst s'.
    match goal with |- context [if ?c then _ else _] => destruct c end; reflexivity.
Qed.

Lemma beforeGhosts_randCalls s m : beforeGhosts s = Ok m -> randCalls m = randCalls s.
Proof.
  unfold beforeGhosts. intros H. bind_inv H. bind_inv H. bind_inv H.
  apply Ok_inj in H. subst m.
  assert (randCalls (tickCounters s) = randCalls s) as E0.
  { unfold tickCounters. fields. by destruct (Z.rem _ 60 =? 0). }
  assert (randCalls m0 = randCalls (tickCounters s)) as E1.
  { unfold movePacman in Hm. bind_inv Hm. apply Ok_inj in Hm. subst m0.
    by destruct (negb (m =? 2)). }
  assert (randCalls m1 = randCalls m0) as E2.
  { apply eatPellet_cases in Hm0. by destruct Hm0 as [->|(i & j & _ & _ & _ & ->)]. }
  assert (randCalls m2 = randCalls m1) as E3.
  { unfold collectPowerUp in Hm1. res_cases Hm1; [|by subst].
    by apply activatePowerUp_randCalls in Hm1. }
  assert (randCalls (powerUpTick m2) = randCalls m2) as E4.
  { unfold powerUpTick. destruct (F32.ltb fzero _); [|done]. fields.
    by destruct (F32.leb _ fzero). }
  congruence.
Qed.

Lemma saveHighScore_randCalls s : randCalls (saveHighScore s) = randCalls s.
Proof.
  unfold saveHighScore. destruct (score s >? highScore s); [|done]. fields.
  by destruct (hsWritable s).
Qed.

Lemma collideFrom_randCalls fuel i s : randCalls (collideFrom fuel i s) = randCalls s.
Proof.
  revert i s. induction fuel as [|fuel IH]; intros i s; simpl; [done|].
  destruct (i <? length (ghosts s))%nat; [|done]. rewrite IH.
  destruct (collideGhost_cases i s) as [-> | [(g & _ & _ & _ & ->) | (g & _ & _ & _ & ->)]];
    [done|done|].
  unfold loseLife, initGhosts. fields. destruct (lives s - 1 <=? 0); [|done].
  by rewrite saveHighScore_randCalls.
Qed.

Lemma moveGhostsFrom_randCalls rnd n i s s' :
  moveGhostsFrom rnd n i s = Ok s' ->
  ghostTag <$> ghosts s = ghostTag <$> [blinky; pinky; inky; clyde] ->
  randCalls s' = randCalls s \/
  ((i <= 3 < i + n)%nat /\ activePowerUp s <> 1 /\ randCalls s' = S (S (randCalls s))).
Proof.
  revert i s. induction n as [|n IH]; intros i s H Ht; simpl in H.
  - apply Ok_inj in H. subst. by left.
  - bind_inv H. rename m into s1.
    apply updateGhost_effect in Hm.
    destruct Hm as [->|(g & g' & c & Hg & Hfz & Htag & _ & Hc & ->)].
    + destruct (IH _ _ H Ht) as [E|(Hr & Ha & E)]; [by left|right].
      split; [lia|done].
    + assert (ghostTag <$> <[i:=g']> (ghosts s) = ghostTag <$> [blinky; pinky; inky; clyde])
        as Ht'.
      { rewrite list_fmap_insert, Htag. rewrite list_insert_id; [done|].
        by rewrite list_lookup_fmap, Hg. }
      specialize (IH _ _ H Ht'). fields.
      destruct Hc as [->|(Hb & ->)].
      * destruct IH as [E|(Hr & Ha & E)]; [by left|right]. split; [lia|done].
      * assert (i = 3%nat) as ->.
        { assert ((ghostTag <$> ghosts s) !! i = Some (ghostTag g)) as Hi
            by (by rewrite list_lookup_fmap, Hg).
          rewrite Ht in Hi. destruct i as [|[|[|[|i]]]]; try discriminate Hi;
            try reflexivity; exfalso; injection Hi; intros; congruence. }
        destruct IH as [E|(Hr & _)]; [|lia].
        right. split; [lia|]. by split.
Qed.

(** X17. A tick calls [rand()] twice or not at all, and not at all
    outside play or when Freeze is the active effect after it. *)
Theorem rand_is_called_at_most_twice rnd0 rnd f w es s s' :
  run rnd0 es (programStart f w) = Ok s ->
  updateGame rnd s = Ok s' ->
  randCalls s' = randCalls s \/
  (gameState s = PLAYING /\ activePowerUp s' <> 1 /\ randCalls s' = S (S (randCalls s))).
Proof.
  intros Hr H. apply Settled_reachable in Hr. destruct Hr as [HS _].
  destruct (decide (gameState s = PLAYING)) as [Hp|Hp];
    [|rewrite updateGame_idle in H by done; apply Ok_inj in H; subst; by left].
  destruct (updateGame_playing _ _ _ Hp H) as (m & Hm & ->).
  unfold beforeCollisions in Hm. bind_inv Hm. rename m0 into m1.
  pose proof (beforeGhosts_randCalls _ _ Hm0) as E1.
  pose proof (Sound_beforeGhosts _ _ HS Hm0) as HS1.
  pose proof (moveGhostsFrom_frame _ _ _ _ _ Hm) as (_ & _ & _ & _ & _ & _ & _ & Ha & _).
  destruct (winCheck_frame (collisions m)) as (_ & _ & _ & _ & _ & _ & _ & Ha2 & _).
  destruct (collideFrom_frame (Nat.max (length (ghosts m)) 4) 0 m) as (_ & _ & _ & Ha3 & _).
  fold (collisions m) in Ha3.
  assert (randCalls (winCheck (collisions m)) = randCalls m) as E3.
  { unfold winCheck. destruct (allPelletsEaten _);
      rewrite ?saveHighScore_randCalls; fields; apply collideFrom_randCalls. }
  rewrite E3, Ha2, Ha3, Ha.
  destruct (moveGhostsFrom_randCalls _ _ _ _ _ Hm (snd_tags _ HS1)) as [E|(_ & Hfz & E)].
  - left. congruence.
  - right. split; [done|]. split; [done|congruence].
Qed.

Lemma rand_is_called_at_most_twice_witness :
  run rndCount (press " " 0) (programStart FileMissing true) = Ok firstTick /\
  updateGame rndCount firstTick = Ok secondTick /\
  (randCalls secondTick = randCalls firstTick \/
   (gameState firstTick = PLAYING /\ activePowerUp secondTick <> 1 /\
    randCalls secondTick = S (S (randCalls firstTick)))).
Proof.
  assert (run rndCount (press " " 0) (programStart FileMissing true) = Ok firstTick) as H1
    by exact (proj1 firstTicks_run).
  assert (updateGame rndCount firstTick = Ok secondTick) as H2
    by exact (proj1 (proj2 firstTicks_run)).
  exact (conj H1 (conj H2
    (rand_is_called_at_most_twice rndCount rndCount FileMissing true (press " " 0)
       firstTick secondTick H1 H2))).
Defined.

(** ** Keys *)

(** X21. Space on the menu starts a fresh session whatever came before:
    everything is as [resetGame] sets it, with 307 pellets on the board;
    only the best score, the resume flag and the environment are kept. *)
Theorem new_game_is_fresh s s' :
  gameState s = MENU ->
  keyboard " " s = Ok s' ->
  s' = mkState PLAYING (previousState s) 0 3 (highScore s) 0 0
         (mkPacman (F32.of_int 1) (F32.of_int 1) 0 0 f0_1)
         [blinky; pinky; inky; clyde] (markersOn board0) fzero (-1) board0 315
         (hsFile s) (hsWritable s) (randCalls s) /\
  pelletCount (board s') = 307%nat.
Proof.
  intros Hg H. unfold keyboard in H.
  cbn [Ascii.eqb is_key Bool.eqb orb andb ascii_of_nat ascii_of_pos] in H.
  rewrite bool_decide_eq_true_2 in H by done. apply Ok_inj in H. subst s'.
  split; [reflexivity|]. vm_compute; reflexivity.
Qed.

Lemma new_game_is_fresh_witness :
  gameState started = MENU /\
  keyboard " " started = Ok firstTick /\
  firstTick = mkState PLAYING (previousState started) 0 3 (highScore started) 0 0
         (mkPacman (F32.of_int 1) (F32.of_int 1) 0 0 f0_1)
         [blinky; pinky; inky; clyde] (markersOn board0) fzero (-1) board0 315
         (hsFile started) (hsWritable started) (randCalls started) /\
  pelletCount (board firstTick) = 307%nat.
Proof.
  assert (gameState started = MENU) as H1 by reflexivity.
  assert (keyboard " " started = Ok firstTick) as H2 by (vm_compute; reflexivity).
  exact (conj H1 (conj H2 (new_game_is_fresh started firstTick H1 H2))).
Defined.
